(** * Publication fetch/merge scripts: a shallow embedding and its properties

    The development follows [get_papers.py] (full refresh) and
    [get_papers_merge.py] (incremental merge, hide operation).

    Python [str] values are modelled as [string]; a character is a code
    point of the Latin-1 range (0..255), on which [str.lower],
    [str.strip], [str.isspace] and the regular-expression class [\s]
    are written out below.  Dictionaries used as maps are [gmap]s, Python
    [set]s are [gset]s, and the dictionaries that stand for records (a raw
    API paper, a stored paper, a year group) are records. *)

From Stdlib Require Import Ascii.
From stdpp Require Import gmap strings list sorting.

Local Open Scope string_scope.
Local Open Scope list_scope.
Local Open Scope Z_scope.

(** ** Python string primitives *)

Module PyStr.

(** [str.isspace] on one character (also what [str.strip()] removes and
    what [\s] matches in a [str] pattern): TAB..CR, FS..US, space,
    NEL and NBSP. *)
Definition isspace (c : ascii) : bool :=
  let n := nat_of_ascii c in
  ((9 <=? n) && (n <=? 13) || (28 <=? n) && (n <=? 32)
   || (n =? 133) || (n =? 160))%nat.

(** [str.lower] on one character: A..Z and the Latin-1 capitals
    (0xC0..0xDE without the multiplication sign 0xD7) move up by 32. *)
Definition lower_char (c : ascii) : ascii :=
  let n := nat_of_ascii c in
  (if (65 <=? n) && (n <=? 90)
      || (192 <=? n) && (n <=? 222) && negb (n =? 215)
   then ascii_of_nat (n + 32) else c)%nat.

(** [str.lower] on Latin-1 text, where it goes one character at a
    time.  Text beyond Latin-1 is in [Unicode] below. *)
Fixpoint lower (s : string) : string :=
  match s with
  | "" => ""
  | String c s' => String (lower_char c) (lower s')
  end.

(** Truth value of a string: the empty string is falsy. *)
Definition truthy (s : string) : bool :=
  match s with "" => false | _ => true end.

Fixpoint lstrip (s : string) : string :=
  match s with
  | "" => ""
  | String c s' => if isspace c then lstrip s' else s
  end.

Fixpoint rstrip (s : string) : string :=
  match s with
  | "" => ""
  | String c s' =>
      match rstrip s' with
      | "" => if isspace c then "" else String c ""
      | r => String c r
      end
  end.

(** [s.strip()] *)
Definition strip (s : string) : string := rstrip (lstrip s).

(** [s.split(sep)] for a one-character separator. *)
Fixpoint split (sep : ascii) (s : string) : list string :=
  match s with
  | "" => [""]
  | String c s' =>
      if Ascii.eqb c sep then "" :: split sep s'
      else match split sep s' with
           | [] => [String c ""]
           | w :: ws => String c w :: ws
           end
  end.

(** [s.startswith(prefix)] *)
Fixpoint startswith (s prefix : string) : bool :=
  match prefix, s with
  | "", _ => true
  | String _ _, "" => false
  | String a prefix', String b s' => Ascii.eqb a b && startswith s' prefix'
  end.

(** [needle in hay] *)
Fixpoint contains (needle hay : string) : bool :=
  startswith hay needle
  || match hay with
     | "" => false
     | String _ hay' => contains needle hay'
     end.

(** [s.replace(c, r)] for a one-character pattern [c]. *)
Fixpoint replace (c : ascii) (r : string) (s : string) : string :=
  match s with
  | "" => ""
  | String a s' =>
      if Ascii.eqb a c then r +:+ replace c r s'
      else String a (replace c r s')
  end.

(** [s.endswith(suffix)] *)
Fixpoint endswith (s suffix : string) : bool :=
  String.eqb s suffix
  || match s with
     | "" => false
     | String _ s' => endswith s' suffix
     end.

(** [sep.join(l)] *)
Fixpoint join (sep : string) (l : list string) : string :=
  match l with
  | [] => ""
  | [x] => x
  | x :: l' => x +:+ sep +:+ join sep l'
  end.

(** The characters of a string, as one-character strings (what a
    [for] loop over a [str] yields). *)
Fixpoint chars (s : string) : list string :=
  match s with
  | "" => []
  | String c s' => String c "" :: chars s'
  end.

(** Longest prefix without a colon, and what follows it. *)
Fixpoint span_no_colon (s : string) : string * string :=
  match s with
  | "" => ("", "")
  | String c s' =>
      if Ascii.eqb c ":" then ("", s)
      else let '(p, r) := span_no_colon s' in (String c p, r)
  end.

(** [re.sub(r'^[^:]+:\s*', '', s)]: the pattern is anchored at the
    start, [[^:]+] takes one or more characters up to the first colon,
    which must follow, and [\s*] takes the white space after it.  The
    anchor allows one match at most. *)
Definition re_sub_prefix (s : string) : string :=
  match span_no_colon s with
  | (String _ _, String _ rest) => lstrip rest
  | _ => s
  end.

End PyStr.

Import PyStr.

(** ** Data model *)

(** One entry of a raw [authors] list: a [{name: ...}] record (whose key
    may be missing) or a plain string. *)
Inductive author_entry :=
  | AuthorDict (name : option string)
  | AuthorStr (s : string).

(** The value under an [authors] key: a list (API shape) or one
    comma-joined text (stored shape). *)
Inductive authors_value :=
  | AuthorsList (l : list author_entry)
  | AuthorsText (s : string).

(** A paper as the API returns it; [None] is a missing key.
    [raw_openAccessPdf] is the [url] inside [openAccessPdf]. *)
Record RawPaper := {
  raw_title : option string;
  raw_year : option Z;
  raw_venue : option string;
  raw_publicationVenue : option string;
  raw_publicationDate : option string;
  raw_authors : option authors_value;
  raw_url : option string;
  raw_openAccessPdf : option string
}.

(** A stored paper.  [show] is the tri-state flag: a missing key and
    [true] both mean visible. *)
Record CanonicalPaper := {
  title : string;
  authors : string;
  venue : option string;
  pdf : option string;
  show : option bool
}.

Record YearGroup := {
  year : Z;
  papers : list CanonicalPaper
}.

(** What [datetime.fromisoformat] returns, as far as the scripts look at
    it.  A [datetime] has a year between 1 and 9999. *)
Record datetime := {
  dt_year : positive;
  dt_month : positive;
  dt_day : positive
}.

Global Instance author_entry_eq_dec : EqDecision author_entry.
Proof. solve_decision. Defined.
Global Instance authors_value_eq_dec : EqDecision authors_value.
Proof. solve_decision. Defined.
Global Instance RawPaper_eq_dec : EqDecision RawPaper.
Proof. solve_decision. Defined.
Global Instance CanonicalPaper_eq_dec : EqDecision CanonicalPaper.
Proof. solve_decision. Defined.
Global Instance YearGroup_eq_dec : EqDecision YearGroup.
Proof. solve_decision. Defined.

(** The empty dictionary [{}]. *)
Definition empty_paper : RawPaper :=
  {| raw_title := None; raw_year := None; raw_venue := None;
     raw_publicationVenue := None; raw_publicationDate := None;
     raw_authors := None; raw_url := None; raw_openAccessPdf := None |}.

(** All papers of a dataset, in scan order. *)
Definition dataset_papers (ds : list YearGroup) : list CanonicalPaper :=
  concat (map papers ds).

(** ** Matching helpers (the same text in both scripts) *)

Definition normalize_title (title : string) : string :=
  if contains ":" title then
    let parts := split ":" title in
    if (2 <=? length parts)%nat then strip (nth 0 parts "")
    else strip title
  else strip title.

Definition get_first_author (authors : authors_value) : string :=
  match authors with
  | AuthorsList [] => ""
  | AuthorsList (AuthorDict name :: _) => default "" name
  | AuthorsList (AuthorStr s :: _) => s
  | AuthorsText s =>
      if truthy s then strip (nth 0 (split "," s) "") else ""
  end.

(** ** [get_papers.py]: duplicate detection *)

Definition paper_title (paper : RawPaper) : string :=
  default "" (raw_title paper).

Definition paper_authors (paper : RawPaper) : authors_value :=
  default (AuthorsText "") (raw_authors paper).

Definition is_duplicate (paper1 paper2 : RawPaper) : bool :=
  let title1 := normalize_title (paper_title paper1) in
  let title2 := normalize_title (paper_title paper2) in
  if String.eqb (lower title1) (lower title2) then true
  else if truthy title1 && truthy title2
          && String.eqb (lower (strip (re_sub_prefix title1)))
                        (lower (strip (re_sub_prefix title2)))
  then true
  else
    let author1 := get_first_author (paper_authors paper1) in
    let author2 := get_first_author (paper_authors paper2) in
    if truthy author1 && truthy author2
       && String.eqb (lower author1) (lower author2)
       && (contains (lower title1) (lower title2)
           || contains (lower title2) (lower title1))
    then true
    else false.

(** The venue test of [select_best_paper]. *)
Definition non_arxiv (paper : RawPaper) : bool :=
  let venue := lower (default "" (raw_venue paper)) in
  negb (contains "arxiv" venue) && negb (contains "preprint" venue).

Definition select_best_paper (duplicates : list RawPaper) : RawPaper :=
  match duplicates with
  | [] => empty_paper
  | first :: _ =>
      let non_arxiv_papers := filter (λ p, non_arxiv p = true) duplicates in
      match non_arxiv_papers with
      | best :: _ => best
      | [] => first
      end
  end.

(** [f"{title.lower()}_{first_author.lower()}"] *)
Definition signature_of (title : string) (authors : authors_value) : string :=
  lower (normalize_title title) +:+ "_" +:+ lower (get_first_author authors).

(** [papers.index(paper)] for a paper of the list. *)
Fixpoint index (paper : RawPaper) (l : list RawPaper) : nat :=
  match l with
  | [] => 0%nat
  | x :: l' => if decide (x = paper) then 0%nat else S (index paper l')
  end.

Definition remove_duplicates (papers : list RawPaper) : list RawPaper :=
  fst (fold_left
         (λ '(unique_papers, processed_titles) paper,
            let key := signature_of (paper_title paper) (paper_authors paper) in
            if bool_decide (key ∈ (processed_titles : gset string))
            then (unique_papers, processed_titles)
            else
              let duplicates :=
                paper :: filter (λ other, is_duplicate paper other = true)
                                (drop (S (index paper papers)) papers) in
              (unique_papers ++ [select_best_paper duplicates],
               processed_titles ∪ {[key]}))
         papers ([], ∅)).

(** ** [get_papers_merge.py]: signatures *)

Definition create_paper_signature (paper : CanonicalPaper) : string :=
  signature_of (title paper) (AuthorsText (authors paper)).

Definition get_existing_paper_signatures
    (existing_papers : list YearGroup) : gset string :=
  fold_left
    (λ signatures year_data,
       fold_left
         (λ signatures paper,
            let signature := create_paper_signature paper in
            if truthy signature then signatures ∪ {[signature]}
            else signatures)
         (papers year_data) signatures)
    existing_papers ∅.

(** The hidden set built at the start of [merge_new_papers]:
    [paper.get("show") is False]. *)
Definition get_hidden_signatures
    (existing_papers : list YearGroup) : gset string :=
  fold_left
    (λ hidden year_data,
       fold_left
         (λ hidden paper,
            match show paper with
            | Some false =>
                let signature := create_paper_signature paper in
                if truthy signature then hidden ∪ {[signature]}
                else hidden
            | _ => hidden
            end)
         (papers year_data) hidden)
    existing_papers ∅.

(** ** Year groups out of a dictionary keyed by year *)

(** [sorted(keys, reverse=True)] *)
Definition sorted_reverse (l : list Z) : list Z := merge_sort (flip Z.le) l.

Definition keys (d : gmap Z (list CanonicalPaper)) : list Z :=
  (map_to_list d).*1.

(** The closing loop of [merge_new_papers] and [format_papers_for_yaml]:
    one group per key, keys in descending order. *)
Definition to_year_groups (d : gmap Z (list CanonicalPaper)) : list YearGroup :=
  map (λ y, {| year := y; papers := d !!! y |}) (sorted_reverse (keys d)).

(** [d[year].append(paper)] after [if year not in d: d[year] = []]. *)
Definition append_to_year (d : gmap Z (list CanonicalPaper)) (y : Z)
    (paper : CanonicalPaper) : gmap Z (list CanonicalPaper) :=
  let d := match d !! y with Some _ => d | None => <[y := []]> d end in
  <[y := d !!! y ++ [paper]]> d.

(** ** The normalizer *)

(** Truth value of an optional integer: [None] and [0] are falsy. *)
Definition int_truthy (o : option Z) : bool :=
  match o with
  | Some y => negb (y =? 0)
  | None => false
  end.

Section Normalizer.

(** [datetime.fromisoformat] of the Python library, with its
    [ValueError] as [None]. *)
Variable fromisoformat : string → option datetime.
Variables venue_mapping author_name_mapping : gmap string string.

(** The year block that opens both formatters. *)
Definition extract_year (paper : RawPaper) : option Z :=
  let year :=
    match raw_publicationDate paper with
    | Some date =>
        if truthy date then
          match fromisoformat (replace "Z" "+00:00" date) with
          | Some dt => Some (Z.pos (dt_year dt))
          | None => None
          end
        else None
    | None => None
    end in
  let year :=
    if negb (int_truthy year) && int_truthy (raw_year paper)
    then raw_year paper else year in
  if negb (int_truthy year) then None else year.

Definition map_venue (paper : RawPaper) : option string :=
  let venue :=
    let v := default "" (raw_venue paper) in
    if truthy v then v else default "" (raw_publicationVenue paper) in
  let mapped_venue :=
    if truthy venue && negb (String.eqb venue "null")
    then Some (default venue (venue_mapping !! venue)) else None in
  match mapped_venue with
  | Some v => if truthy v then Some v else None
  | None => None
  end.

(** What the loop over [raw_authors] visits: the entries of a list, or
    the characters of a text. *)
Definition iter_authors (paper : RawPaper) : list author_entry :=
  match raw_authors paper with
  | None => []
  | Some (AuthorsList l) => l
  | Some (AuthorsText s) => map AuthorStr (chars s)
  end.

Definition format_authors (paper : RawPaper) : string :=
  let authors_list :=
    fold_left
      (λ authors_list author,
         match author with
         | AuthorDict (Some author_name) =>
             let author_name :=
               default author_name (author_name_mapping !! author_name) in
             if truthy author_name then authors_list ++ [author_name]
             else authors_list
         | AuthorDict None => authors_list
         | AuthorStr author =>
             authors_list ++ [default author (author_name_mapping !! author)]
         end)
      (iter_authors paper) [] in
  match authors_list with
  | [] => ""
  | _ => join ", " authors_list
  end.

Definition pick_pdf (paper : RawPaper) : option string :=
  let pdf_url :=
    if truthy (default "" (raw_openAccessPdf paper))
    then raw_openAccessPdf paper
    else
      let url := default "" (raw_url paper) in
      if truthy url then
        if endswith url ".pdf" || contains "arxiv.org/pdf" url
        then Some url else None
      else None in
  match pdf_url with
  | Some u => if truthy u then Some u else None
  | None => None
  end.

(** [format_paper_for_yaml] of the merge script: [None], or the stored
    paper (with [show: True]) and its year. *)
Definition format_paper_for_yaml (paper : RawPaper)
    : option (CanonicalPaper * Z) :=
  match extract_year paper with
  | None => None
  | Some y =>
      Some ({| title := paper_title paper;
               authors := format_authors paper;
               venue := map_venue paper;
               pdf := pick_pdf paper;
               show := Some true |}, y)
  end.

(** ** [merge_new_papers] *)

Record merge_state := {
  existing_by_year : gmap Z (list CanonicalPaper);
  existing_signatures : gset string;
  new_papers_added : nat
}.

(** One round of the loop over [new_papers]. *)
Definition merge_step (hidden_signatures : gset string)
    (st : merge_state) (paper : RawPaper) : merge_state :=
  match format_paper_for_yaml paper with
  | None => st
  | Some (formatted_paper, y) =>
      let signature := create_paper_signature formatted_paper in
      if bool_decide (signature ∈ existing_signatures st)
         || bool_decide (signature ∈ hidden_signatures)
      then st
      else
        {| existing_by_year :=
             append_to_year (existing_by_year st) y formatted_paper;
           existing_signatures := existing_signatures st ∪ {[signature]};
           new_papers_added := S (new_papers_added st) |}
  end.

(** [existing_by_year] as first filled from the stored groups. *)
Definition index_by_year (existing_papers : list YearGroup)
    : gmap Z (list CanonicalPaper) :=
  fold_left (λ d year_data, <[year year_data := papers year_data]> d)
            existing_papers ∅.

Definition merge_new_papers (existing_papers : list YearGroup)
    (new_papers : list RawPaper) : list YearGroup * nat :=
  let existing_signatures := get_existing_paper_signatures existing_papers in
  let hidden_signatures := get_hidden_signatures existing_papers in
  let st :=
    fold_left (merge_step hidden_signatures) new_papers
      {| existing_by_year := index_by_year existing_papers;
         existing_signatures := existing_signatures;
         new_papers_added := 0 |} in
  (to_year_groups (existing_by_year st), new_papers_added st).

(** ** [format_papers_for_yaml] of the full refresh *)

Definition format_step
    (st : gmap Z (list CanonicalPaper) * nat) (paper : RawPaper)
    : gmap Z (list CanonicalPaper) * nat :=
  let '(papers_by_year, papers_without_year) := st in
  match extract_year paper with
  | None => (papers_by_year, S papers_without_year)
  | Some y =>
      (append_to_year papers_by_year y
         {| title := paper_title paper;
            authors := format_authors paper;
            venue := map_venue paper;
            pdf := pick_pdf paper;
            show := None |},
       papers_without_year)
  end.

Definition format_papers_for_yaml (papers : list RawPaper) : list YearGroup :=
  to_year_groups (fst (fold_left format_step papers (∅, 0%nat))).

End Normalizer.

(** ** [mark_paper_as_hidden] *)

Definition set_hidden (paper : CanonicalPaper) : CanonicalPaper :=
  {| title := title paper; authors := authors paper; venue := venue paper;
     pdf := pdf paper; show := Some false |}.

(** The inner loop: the first paper with the target signature is
    hidden and the scan stops; [None] when the list has none. *)
Fixpoint hide_in_papers (target_signature : string)
    (l : list CanonicalPaper) : option (list CanonicalPaper) :=
  match l with
  | [] => None
  | paper :: l' =>
      if String.eqb (create_paper_signature paper) target_signature
      then Some (set_hidden paper :: l')
      else cons paper <$> hide_in_papers target_signature l'
  end.

(** The outer loop over the year groups. *)
Fixpoint hide_in_groups (target_signature : string)
    (papers_data : list YearGroup) : option (list YearGroup) :=
  match papers_data with
  | [] => None
  | year_data :: rest =>
      match hide_in_papers target_signature (papers year_data) with
      | Some l =>
          Some ({| year := year year_data; papers := l |} :: rest)
      | None => cons year_data <$> hide_in_groups target_signature rest
      end
  end.

(** The signature looked for: that of
    [{"title": title, "authors": first_author or ""}]. *)
Definition target_signature (title : string) (first_author : option string)
    : string :=
  create_paper_signature
    {| title := title; authors := default "" first_author;
       venue := None; pdf := None; show := None |}.

(** The dataset after the call and the value returned. *)
Definition mark_paper_as_hidden (papers_data : list YearGroup)
    (title : string) (first_author : option string)
    : list YearGroup * bool :=
  let target_signature := target_signature title first_author in
  match hide_in_groups target_signature papers_data with
  | Some papers_data' => (papers_data', true)
  | None => (papers_data, false)
  end.

(** ** A runnable date parser

    The date-only form [YYYY-MM-DD] of [datetime.fromisoformat], which is
    the shape of the API's [publicationDate].  It instantiates the
    [fromisoformat] parameter when the model is run on examples. *)

Definition digits (l : list ascii) : option nat :=
  foldl (λ acc c, n ← acc; d ← Ascii.is_nat c; Some (10 * n + d)%nat)
        (Some 0%nat) l.

Definition is_leap (y : nat) : bool :=
  ((y mod 4 =? 0) && (negb (y mod 100 =? 0) || (y mod 400 =? 0)))%nat.

Definition days_in_month (y m : nat) : nat :=
  match m with
  | 2 => if is_leap y then 29 else 28
  | 4 | 6 | 9 | 11 => 30
  | _ => 31
  end%nat.

Definition fromisoformat_date (s : string) : option datetime :=
  match String.list_ascii_of_string s with
  | [y1; y2; y3; y4; s1; m1; m2; s2; d1; d2] =>
      if Ascii.eqb s1 "-" && Ascii.eqb s2 "-" then
        y ← digits [y1; y2; y3; y4];
        m ← digits [m1; m2];
        d ← digits [d1; d2];
        if ((1 <=? y) && (1 <=? m) && (m <=? 12)
            && (1 <=? d) && (d <=? days_in_month y m))%nat
        then Some {| dt_year := Pos.of_nat y; dt_month := Pos.of_nat m;
                     dt_day := Pos.of_nat d |}
        else None
      else None
  | _ => None
  end.

(** ** The duplicate predicate without its second rule

    Rule 1 (equal normalized titles) and rule 3 (equal first authors and
    one normalized title inside the other), as the comparison target for
    [is_duplicate]. *)
Definition is_duplicate_rules_1_3 (paper1 paper2 : RawPaper) : bool :=
  let title1 := normalize_title (paper_title paper1) in
  let title2 := normalize_title (paper_title paper2) in
  let author1 := get_first_author (paper_authors paper1) in
  let author2 := get_first_author (paper_authors paper2) in
  String.eqb (lower title1) (lower title2)
  || (truthy author1 && truthy author2
      && String.eqb (lower author1) (lower author2)
      && (contains (lower title1) (lower title2)
          || contains (lower title2) (lower title1))).

(** ** The two sources of a year, as the specification names them *)

(** The year of [publicationDate] parsed as an ISO date, every "Z"
    rewritten to "+00:00" first; a missing, empty or unparsable date gives
    none. *)
Definition date_year (fromisoformat : string → option datetime)
    (paper : RawPaper) : option positive :=
  match raw_publicationDate paper with
  | Some date =>
      if truthy date
      then dt_year <$> fromisoformat (replace "Z" "+00:00" date)
      else None
  | None => None
  end.

(** The raw [year] field; a missing field and the integer 0, which is no
    year, give none. *)
Definition field_year (paper : RawPaper) : option Z :=
  match raw_year paper with
  | Some y => if y =? 0 then None else Some y
  | None => None
  end.

(** ** Counting papers by signature *)

(** How many papers of a list carry a given signature. *)
Definition count_signature (s : string) (l : list CanonicalPaper) : nat :=
  length (filter (λ p, create_paper_signature p = s) l).

(** The papers a dictionary keyed by year holds, group after group. *)
Definition map_papers (d : gmap Z (list CanonicalPaper)) : list CanonicalPaper :=
  concat (map_to_list d).*2.

(** The signature a fetched paper is given in the merge loop, when the
    normalizer keeps it. *)
Definition new_signature (fromisoformat : string → option datetime)
    (venue_mapping author_name_mapping : gmap string string)
    (paper : RawPaper) : option string :=
  create_paper_signature ∘ fst
    <$> format_paper_for_yaml fromisoformat venue_mapping
          author_name_mapping paper.

(** One round of the loop that fills [existing_by_year]. *)
Definition insert_group (d : gmap Z (list CanonicalPaper))
    (year_data : YearGroup) : gmap Z (list CanonicalPaper) :=
  <[year year_data := papers year_data]> d.

(** ** [get_author_papers] and [get_all_author_papers]

    The remote service is a parameter: [api author_id offset] is the
    [data] list of the JSON answer to the request for that author at that
    offset (an answer without [data] gives the empty list), and [None]
    when the request raises [RequestException].  A run asks for each
    offset of an author once.  The [while True] loop takes fuel; [None]
    from the loop means the fuel ran out before the loop left. *)

(** [len(paper.get("authors", []))] *)
Definition author_count (paper : RawPaper) : nat :=
  match raw_authors paper with
  | None => 0%nat
  | Some (AuthorsList l) => length l
  | Some (AuthorsText s) => String.length s
  end.

(** The loop that keeps the papers with fewer than 50 authors. *)
Definition filter_authors (papers : list RawPaper) : list RawPaper :=
  filter (λ paper, (author_count paper < 50)%nat) papers.

Definition limit : nat := 100.

Section Fetcher.

Variable api : string → nat → option (list RawPaper).

Fixpoint get_author_papers_loop (fuel : nat) (author_id : string)
    (offset : nat) (all_papers : list RawPaper) : option (list RawPaper) :=
  match fuel with
  | O => None
  | S fuel' =>
      match api author_id offset with
      | None => Some all_papers
      | Some [] => Some all_papers
      | Some papers =>
          let all_papers := all_papers ++ filter_authors papers in
          if (length papers <? limit)%nat then Some all_papers
          else get_author_papers_loop fuel' author_id (offset + limit)%nat
                 all_papers
      end
  end.

Definition get_author_papers (fuel : nat) (author_id : string)
    : option (list RawPaper) :=
  get_author_papers_loop fuel author_id 0%nat [].

Definition get_all_author_papers (fuel : nat) (author_ids : list string)
    : option (list RawPaper) :=
  fold_left
    (λ acc author_id,
       all_papers ← acc;
       papers ← get_author_papers fuel author_id;
       Some (all_papers ++ papers))
    author_ids (Some []).

(** The answers to the requests for pages [j0], [j0 + 1], ..., [n] of
    them; a failed request counts as an empty page. *)
Definition pages (author_id : string) (j0 n : nat) : list (list RawPaper) :=
  (λ j, default [] (api author_id (j * limit))) <$> seq j0 n.

End Fetcher.

(** A paper the fetcher keeps. *)
Definition small (paper : RawPaper) : Prop := (author_count paper < 50)%nat.

(** ** The two [main] functions

    Files and the command line are inputs: the stored dataset as
    [load_existing_papers] returns it (empty when the file is missing),
    the two tables, the values of [--hide-paper] and [--author].  A run
    gives what it hands to [save_to_yaml], if anything, and its exit
    status; [None] means the fetch ran out of fuel. *)

Definition get_author_ids : list string := ["2034613"; "2302559920"].

Record run := {
  written : option (list YearGroup);
  exit_status : nat
}.

Section Main.

Variable api : string → nat → option (list RawPaper).
Variable fromisoformat : string → option datetime.
Variables venue_mapping author_name_mapping : gmap string string.

(** [main] of [get_papers.py] *)
Definition main_refresh (fuel : nat) : option run :=
  papers ← get_all_author_papers api fuel get_author_ids;
  match papers with
  | [] => Some {| written := None; exit_status := 1 |}
  | _ =>
      let unique_papers := remove_duplicates papers in
      let formatted_papers :=
        format_papers_for_yaml fromisoformat venue_mapping
          author_name_mapping unique_papers in
      Some {| written := Some formatted_papers; exit_status := 0 |}
  end.

(** [main] of [get_papers_merge.py] *)
Definition main_merge (fuel : nat) (hide_paper author : option string)
    (existing_papers : list YearGroup) : option run :=
  if truthy (default "" hide_paper) then
    let '(papers_data, found) :=
      mark_paper_as_hidden existing_papers (default "" hide_paper) author in
    Some {| written := if found then Some papers_data else None;
            exit_status := 0 |}
  else
    api_papers ← get_all_author_papers api fuel get_author_ids;
    match api_papers with
    | [] => Some {| written := None; exit_status := 1 |}
    | _ =>
        let '(merged_papers, new_count) :=
          merge_new_papers fromisoformat venue_mapping author_name_mapping
            existing_papers api_papers in
        if (new_count =? 0)%nat
        then Some {| written := None; exit_status := 0 |}
        else Some {| written := Some merged_papers; exit_status := 0 |}
    end.

End Main.

(** ** Names for parts of the code above *)

(** The key [remove_duplicates] files a paper under. *)
Definition paper_key (paper : RawPaper) : string :=
  signature_of (paper_title paper) (paper_authors paper).

(** One round of the loop of [remove_duplicates]. *)
Definition dedup_step (papers : list RawPaper)
    (st : list RawPaper * gset string) (paper : RawPaper)
    : list RawPaper * gset string :=
  let '(unique_papers, processed_titles) := st in
  let key := paper_key paper in
  if bool_decide (key ∈ processed_titles)
  then (unique_papers, processed_titles)
  else
    let duplicates :=
      paper :: filter (λ other, is_duplicate paper other = true)
                      (drop (S (index paper papers)) papers) in
    (unique_papers ++ [select_best_paper duplicates],
     processed_titles ∪ {[key]}).

(** The record the full refresh stores for a paper: no [show] key. *)
Definition refresh_paper (venue_mapping author_name_mapping : gmap string string)
    (paper : RawPaper) : CanonicalPaper :=
  {| title := paper_title paper;
     authors := format_authors author_name_mapping paper;
     venue := map_venue venue_mapping paper;
     pdf := pick_pdf paper;
     show := None |}.

(** The record the merge stores for a paper: [show: True]. *)
Definition merge_paper (venue_mapping author_name_mapping : gmap string string)
    (paper : RawPaper) : CanonicalPaper :=
  {| title := paper_title paper;
     authors := format_authors author_name_mapping paper;
     venue := map_venue venue_mapping paper;
     pdf := pick_pdf paper;
     show := Some true |}.

(** A dictionary entry after more papers were appended to it: the entry
    is made when the first paper arrives. *)
Definition extend (entry : option (list CanonicalPaper))
    (more : list CanonicalPaper) : option (list CanonicalPaper) :=
  match more with
  | [] => entry
  | _ => Some (default [] entry ++ more)
  end.

(** The papers of a batch the full refresh files under a year, in batch
    order. *)
Definition refreshed_of_year (fromisoformat : string → option datetime)
    (venue_mapping author_name_mapping : gmap string string)
    (y : Z) (papers : list RawPaper) : list CanonicalPaper :=
  refresh_paper venue_mapping author_name_mapping
    <$> filter (λ paper, extract_year fromisoformat paper = Some y) papers.

(** ** Sample data *)

(** The two raw papers of the duplicate scenario. *)
Definition paper_benchmark : RawPaper :=
  {| raw_title := Some "Event Extraction: A New Benchmark";
     raw_year := Some 2021; raw_venue := None;
     raw_publicationVenue := None; raw_publicationDate := None;
     raw_authors := Some (AuthorsList [AuthorDict (Some "A. Smith")]);
     raw_url := None; raw_openAccessPdf := None |}.

Definition paper_arxiv : RawPaper :=
  {| raw_title := Some "Event Extraction";
     raw_year := None; raw_venue := Some "arXiv";
     raw_publicationVenue := None; raw_publicationDate := None;
     raw_authors := Some (AuthorsList [AuthorDict (Some "A. Smith")]);
     raw_url := None; raw_openAccessPdf := None |}.

(** A stored dataset with one visible and one hidden paper. *)
Definition stored_visible : CanonicalPaper :=
  {| title := "Commonsense Reasoning at Scale";
     authors := "Jane Doe, A. Smith";
     venue := Some "EMNLP"; pdf := None; show := None |}.

Definition stored_hidden : CanonicalPaper :=
  {| title := "Event Extraction: A New Benchmark";
     authors := "A. Smith, B. Jones";
     venue := Some "ACL"; pdf := None; show := Some false |}.

Definition sample_dataset : list YearGroup :=
  [ {| year := 2022; papers := [stored_visible] |};
    {| year := 2021; papers := [stored_hidden] |} ].

(** The same groups, oldest year first. *)
Definition unsorted_dataset : list YearGroup :=
  [ {| year := 2021; papers := [stored_hidden] |};
    {| year := 2022; papers := [stored_visible] |} ].

(** A fetched batch: the hidden paper as the API still returns it, and a
    paper the dataset does not have. *)
Definition fetched_hidden : RawPaper :=
  {| raw_title := Some "Event Extraction"; raw_year := Some 2021;
     raw_venue := Some "arXiv"; raw_publicationVenue := None;
     raw_publicationDate := Some "2021-05-03";
     raw_authors :=
       Some (AuthorsList [AuthorDict (Some "A. Smith");
                          AuthorDict (Some "B. Jones")]);
     raw_url := Some "https://arxiv.org/pdf/2105.00001";
     raw_openAccessPdf := None |}.

Definition fetched_new : RawPaper :=
  {| raw_title := Some "Probing Language Models"; raw_year := Some 2023;
     raw_venue := None; raw_publicationVenue := Some "NAACL";
     raw_publicationDate := None;
     raw_authors := Some (AuthorsList [AuthorDict (Some "Jane Doe")]);
     raw_url := None; raw_openAccessPdf := Some "https://example.org/p.pdf" |}.

Definition sample_batch : list RawPaper := [fetched_hidden; fetched_new].

(** The visible stored paper as the API returns it. *)
Definition fetched_visible : RawPaper :=
  {| raw_title := Some "Commonsense Reasoning at Scale: Methods";
     raw_year := Some 2022; raw_venue := Some "EMNLP";
     raw_publicationVenue := None; raw_publicationDate := None;
     raw_authors :=
       Some (AuthorsList [AuthorDict (Some "Jane Doe");
                          AuthorDict (Some "A. Smith")]);
     raw_url := None; raw_openAccessPdf := None |}.

(** A paper of 2022 the dataset does not have, and a batch with it: the
    visible stored paper again, then two new papers. *)
Definition fetched_2022 : RawPaper :=
  {| raw_title := Some "Defeasible Inference in Context";
     raw_year := Some 2022; raw_venue := Some "TACL";
     raw_publicationVenue := None; raw_publicationDate := None;
     raw_authors :=
       Some (AuthorsList [AuthorDict (Some "B. Jones");
                          AuthorDict (Some "Jane Doe")]);
     raw_url := None; raw_openAccessPdf := None |}.

Definition batch_2022 : list RawPaper :=
  [fetched_visible; fetched_2022; fetched_new].

(** [fetched_2022] as the normalizer stores it. *)
Definition stored_2022 : CanonicalPaper :=
  {| title := "Defeasible Inference in Context";
     authors := "B. Jones, Jane Doe";
     venue := Some "TACL"; pdf := None; show := Some true |}.

(** A paper of a large collaboration: 50 authors. *)
Definition paper_collaboration : RawPaper :=
  {| raw_title := Some "A Very Large Benchmark";
     raw_year := Some 2023; raw_venue := None;
     raw_publicationVenue := None; raw_publicationDate := None;
     raw_authors := Some (AuthorsList (replicate 50 (AuthorStr "X")));
     raw_url := None; raw_openAccessPdf := None |}.

(** [sample_dataset] after [sample_batch] or [fetched_new] alone is merged
    into it. *)
Definition merged_dataset : list YearGroup :=
  [ {| year := 2023;
       papers := [ {| title := "Probing Language Models";
                      authors := "Jane Doe";
                      venue := Some "NAACL";
                      pdf := Some "https://example.org/p.pdf";
                      show := Some true |} ] |};
    {| year := 2022; papers := [stored_visible] |};
    {| year := 2021; papers := [stored_hidden] |} ].

(** A service with 102 papers for one author: a full page of 100, then a
    page of 2, one of them of a large collaboration; requests for any
    other author fail. *)
Definition sample_api (author_id : string) (offset : nat)
    : option (list RawPaper) :=
  if String.eqb author_id "2034613" then
    match offset with
    | 0%nat => Some (replicate 100 paper_arxiv)
    | 100%nat => Some [paper_collaboration; fetched_new]
    | _ => Some []
    end
  else None.

(** The conference version of [paper_arxiv], with the authors in another
    order. *)
Definition paper_conference : RawPaper :=
  {| raw_title := Some "Event Extraction: A New Benchmark";
     raw_year := Some 2021; raw_venue := Some "ACL";
     raw_publicationVenue := None; raw_publicationDate := None;
     raw_authors :=
       Some (AuthorsList [AuthorDict (Some "B. Jones");
                          AuthorDict (Some "A. Smith")]);
     raw_url := None; raw_openAccessPdf := None |}.

(** ** Text beyond Latin-1: case folding by context

    [PyStr.lower] above is [str.lower] on Latin-1 text, where it works one
    character at a time.  On other text [str.lower] does not: a capital
    sigma becomes a final or a medial small sigma depending on its
    neighbours.  This module embeds the title matching of the scripts
    once more, over sequences of code points, with the interpreter's
    lowercasing written out: the per-code-point tables of the Unicode
    database are a parameter, the rule for the capital sigma is the
    interpreter's. *)

Module Unicode.

(** The tables of the Unicode database the interpreter consults:
    [to_lower c] is the full lowercase mapping of one code point (one to
    three code points), [cased] and [case_ignorable] are the two
    properties the sigma rule reads, [isspace] is [str.isspace] on one
    code point (what [strip] removes and [\s] matches). *)
Record tables := {
  to_lower : N → list N;
  cased : N → bool;
  case_ignorable : N → bool;
  isspace : N → bool
}.

Definition CAPITAL_SIGMA : N := 931.
Definition FINAL_SIGMA : N := 962.
Definition SMALL_SIGMA : N := 963.
Definition COLON : N := 58.
Definition COMMA : N := 44.
Definition UNDERSCORE : N := 95.

(** One entry of a raw [authors] list, and the value under an [authors]
    key, as in the data model above. *)
Inductive author_entry :=
  | AuthorDict (name : option (list N))
  | AuthorStr (s : list N).

Inductive authors_value :=
  | AuthorsList (l : list author_entry)
  | AuthorsText (s : list N).

(** A paper, as far as the matching reads it; [None] is a missing key. *)
Record paper := {
  title : option (list N);
  authors : option authors_value
}.

Global Instance author_entry_eq_dec : EqDecision author_entry.
Proof. solve_decision. Defined.
Global Instance authors_value_eq_dec : EqDecision authors_value.
Proof. solve_decision. Defined.

Section Matching.

Variable T : tables.

(** The scan of the sigma rule: skip what is case-ignorable, then ask
    whether a cased code point stands there. *)
Fixpoint skip_ignorable (l : list N) : list N :=
  match l with
  | [] => []
  | c :: l' => if case_ignorable T c then skip_ignorable l' else l
  end.

Definition cased_next (l : list N) : bool :=
  match skip_ignorable l with
  | [] => false
  | c :: _ => cased T c
  end.

(** What a capital sigma becomes: [before] is the text before it,
    nearest code point first, [after] the text after it.  It is final
    when a cased code point precedes it and none follows it, ignorable
    code points skipped on both sides. *)
Definition handle_capital_sigma (before after : list N) : N :=
  if cased_next before && negb (cased_next after)
  then FINAL_SIGMA else SMALL_SIGMA.

Fixpoint lower_from (before s : list N) : list N :=
  match s with
  | [] => []
  | c :: s' =>
      (if N.eqb c CAPITAL_SIGMA then [handle_capital_sigma before s']
       else to_lower T c)
      ++ lower_from (c :: before) s'
  end.

(** [s.lower()] *)
Definition lower (s : list N) : list N := lower_from [] s.

Definition truthy (s : list N) : bool :=
  match s with [] => false | _ => true end.

Fixpoint lstrip (s : list N) : list N :=
  match s with
  | [] => []
  | c :: s' => if isspace T c then lstrip s' else s
  end.

Fixpoint rstrip (s : list N) : list N :=
  match s with
  | [] => []
  | c :: s' =>
      match rstrip s' with
      | [] => if isspace T c then [] else [c]
      | r => c :: r
      end
  end.

(** [s.strip()] *)
Definition strip (s : list N) : list N := rstrip (lstrip s).

(** [s.split(sep)] for a one-character separator. *)
Fixpoint split (sep : N) (s : list N) : list (list N) :=
  match s with
  | [] => [[]]
  | c :: s' =>
      if N.eqb c sep then [] :: split sep s'
      else match split sep s' with
           | [] => [[c]]
           | w :: ws => (c :: w) :: ws
           end
  end.

Fixpoint startswith (s prefix : list N) : bool :=
  match prefix, s with
  | [], _ => true
  | _ :: _, [] => false
  | a :: prefix', b :: s' => N.eqb a b && startswith s' prefix'
  end.

(** [needle in hay] *)
Fixpoint contains (needle hay : list N) : bool :=
  startswith hay needle
  || match hay with
     | [] => false
     | _ :: hay' => contains needle hay'
     end.

Fixpoint span_no_colon (s : list N) : list N * list N :=
  match s with
  | [] => ([], [])
  | c :: s' =>
      if N.eqb c COLON then ([], s)
      else let '(p, r) := span_no_colon s' in (c :: p, r)
  end.

(** [re.sub(r'^[^:]+:\s*', '', s)] *)
Definition re_sub_prefix (s : list N) : list N :=
  match span_no_colon s with
  | (_ :: _, _ :: rest) => lstrip rest
  | _ => s
  end.

Definition normalize_title (title : list N) : list N :=
  if contains [COLON] title then
    let parts := split COLON title in
    if (2 <=? length parts)%nat then strip (nth 0 parts [])
    else strip title
  else strip title.

Definition get_first_author (authors : authors_value) : list N :=
  match authors with
  | AuthorsList [] => []
  | AuthorsList (AuthorDict name :: _) => default [] name
  | AuthorsList (AuthorStr s :: _) => s
  | AuthorsText s =>
      if truthy s then strip (nth 0 (split COMMA s) []) else []
  end.

Definition paper_title (p : paper) : list N := default [] (title p).

Definition paper_authors (p : paper) : authors_value :=
  default (AuthorsText []) (authors p).

Definition is_duplicate (paper1 paper2 : paper) : bool :=
  let title1 := normalize_title (paper_title paper1) in
  let title2 := normalize_title (paper_title paper2) in
  if bool_decide (lower title1 = lower title2) then true
  else if truthy title1 && truthy title2
          && bool_decide (lower (strip (re_sub_prefix title1))
                          = lower (strip (re_sub_prefix title2)))
  then true
  else
    let author1 := get_first_author (paper_authors paper1) in
    let author2 := get_first_author (paper_authors paper2) in
    if truthy author1 && truthy author2
       && bool_decide (lower author1 = lower author2)
       && (contains (lower title1) (lower title2)
           || contains (lower title2) (lower title1))
    then true
    else false.

(** [f"{title.lower()}_{first_author.lower()}"] of
    [create_paper_signature]. *)
Definition create_paper_signature (p : paper) : list N :=
  lower (normalize_title (paper_title p))
  ++ [UNDERSCORE] ++ lower (get_first_author (paper_authors p)).

(** Lowercasing one code point after the other by the table alone. *)
Definition lower_each (s : list N) : list N := s ≫= to_lower T.

(** What the lowercase table never does, in the Unicode database: it
    leaves a separator (colon, comma) and white space as they are, makes
    neither out of anything else, and maps no code point to nothing. *)
Definition keeps_separator (sep : N) : Prop :=
  to_lower T sep = [sep] ∧ ∀ c, c ≠ sep → sep ∉ to_lower T c.

Definition table_respects : Prop :=
  keeps_separator COLON
  ∧ keeps_separator COMMA
  ∧ (∀ c, isspace T c = true → to_lower T c = [c])
  ∧ (∀ c, isspace T c = false →
          to_lower T c ≠ []
          ∧ Forall (λ d, isspace T d = false) (to_lower T c)).

End Matching.

(** The tables on the code points the examples use: ASCII, Latin-1, the
    Greek capitals and small letters, the combining marks. *)
Definition in_range (lo hi c : N) : bool := (lo <=? c)%N && (c <=? hi)%N.

Definition sample_to_lower (c : N) : list N :=
  if in_range 65 90 c
     || in_range 192 222 c && negb (N.eqb c 215)
     || in_range 913 939 c && negb (N.eqb c 930)
  then [(c + 32)%N] else [c].

Definition sample_cased (c : N) : bool :=
  in_range 65 90 c || in_range 97 122 c
  || N.eqb c 170 || N.eqb c 181 || N.eqb c 186
  || in_range 192 255 c && negb (N.eqb c 215) && negb (N.eqb c 247)
  || in_range 913 939 c && negb (N.eqb c 930)
  || in_range 945 969 c.

Definition sample_case_ignorable (c : N) : bool :=
  N.eqb c 39 || N.eqb c 46 || N.eqb c 58 || N.eqb c 94 || N.eqb c 96
  || N.eqb c 168 || N.eqb c 173 || N.eqb c 175 || N.eqb c 180
  || N.eqb c 183 || N.eqb c 184 || in_range 768 879 c.

Definition sample_isspace (c : N) : bool :=
  in_range 9 13 c || in_range 28 32 c || N.eqb c 133 || N.eqb c 160
  || N.eqb c 5760 || in_range 8192 8202 c || N.eqb c 8232
  || N.eqb c 8233 || N.eqb c 8239 || N.eqb c 8287 || N.eqb c 12288.

Definition sample_tables : tables :=
  {| to_lower := sample_to_lower; cased := sample_cased;
     case_ignorable := sample_case_ignorable; isspace := sample_isspace |}.

(** "AΣ:B" and "aσ:b" *)
Definition title_capital_sigma : list N := [65; 931; 58; 66]%N.
Definition title_small_sigma : list N := [97; 963; 58; 98]%N.

Definition paper_capital_sigma : paper :=
  {| title := Some title_capital_sigma;
     authors := Some (AuthorsList [AuthorDict (Some [74; 46; 68]%N)]) |}.
Definition paper_small_sigma : paper :=
  {| title := Some title_small_sigma;
     authors := Some (AuthorsList [AuthorDict (Some [74; 46; 68]%N)]) |}.

(** "Événement: A" and "événement: a", stored under the authors texts
    "J. Doe, A. Smith" and "j. doe, A. SMITH" *)
Definition title_accent_upper : list N :=
  [201; 118; 233; 110; 101; 109; 101; 110; 116; 58; 32; 65]%N.
Definition title_accent_lower : list N :=
  [233; 118; 233; 110; 101; 109; 101; 110; 116; 58; 32; 97]%N.
Definition authors_accent_upper : list N :=
  [74; 46; 32; 68; 111; 101; 44; 32; 65; 46; 32; 83; 109; 105; 116; 104]%N.
Definition authors_accent_lower : list N :=
  [106; 46; 32; 100; 111; 101; 44; 32; 65; 46; 32; 83; 77; 73; 84; 72]%N.

Definition paper_accent_upper : paper :=
  {| title := Some title_accent_upper;
     authors := Some (AuthorsText authors_accent_upper) |}.
Definition paper_accent_lower : paper :=
  {| title := Some title_accent_lower;
     authors := Some (AuthorsText authors_accent_lower) |}.

End Unicode.

(** * Properties *)

(** ** Strings *)

Section StringFacts.

Lemma lstrip_nonspace c s : isspace c = false → lstrip (String c s) = String c s.
Proof. intros H. simpl. by rewrite H. Qed.

Lemma rstrip_nonspace c s :
  isspace c = false → rstrip (String c s) = String c (rstrip s).
Proof. intros H. simpl. rewrite H. by destruct (rstrip s). Qed.

Lemma lstrip_head s :
  lstrip s = "" ∨ ∃ c r, lstrip s = String c r ∧ isspace c = false.
Proof.
  induction s as [|c s IH]; [by left|]. simpl.
  destruct (isspace c) eqn:E; [done|]. right. eauto.
Qed.

Lemma lstrip_idem s : lstrip (lstrip s) = lstrip s.
Proof.
  destruct (lstrip_head s) as [->|(c & r & -> & H)]; [done|].
  by apply lstrip_nonspace.
Qed.

Lemma rstrip_idem s : rstrip (rstrip s) = rstrip s.
Proof.
  induction s as [|c s IH]; [done|]. simpl.
  destruct (rstrip s) as [|a r] eqn:E.
  - destruct (isspace c) eqn:Ec; [done|]. simpl. by rewrite Ec.
  - change (rstrip (String c (String a r))) with
      (match rstrip (String a r) with
       | "" => if isspace c then "" else String c ""
       | r0 => String c r0
       end).
    by rewrite IH.
Qed.

Lemma strip_idem s : strip (strip s) = strip s.
Proof.
  unfold strip.
  destruct (lstrip_head s) as [->|(c & r & -> & H)]; [done|].
  rewrite (rstrip_nonspace _ _ H), (lstrip_nonspace _ _ H).
  rewrite <-(rstrip_nonspace _ _ H). apply rstrip_idem.
Qed.

Lemma contains_colon_cons c s :
  contains ":" (String c s) = Ascii.eqb c ":" || contains ":" s.
Proof.
  change (contains ":" (String c s)) with
    (Ascii.eqb ":" c && startswith s "" || contains ":" s).
  rewrite (Ascii.eqb_sym ":" c).
  destruct (Ascii.eqb c ":"); [|done]. by destruct s.
Qed.

Lemma lstrip_no_colon s : contains ":" s = false → contains ":" (lstrip s) = false.
Proof.
  induction s as [|c s IH]; [done|]. intros H. simpl lstrip.
  destruct (isspace c); [|done].
  rewrite contains_colon_cons in H. apply orb_false_iff in H as [_ H]. auto.
Qed.

Lemma rstrip_no_colon s : contains ":" s = false → contains ":" (rstrip s) = false.
Proof.
  induction s as [|c s IH]; [done|]. intros H.
  rewrite contains_colon_cons in H. apply orb_false_iff in H as [Hc H].
  specialize (IH H). simpl. destruct (rstrip s) as [|a r].
  - destruct (isspace c); [done|]. rewrite contains_colon_cons, Hc. done.
  - rewrite contains_colon_cons, Hc. done.
Qed.

Lemma strip_no_colon s : contains ":" s = false → contains ":" (strip s) = false.
Proof. intros. by apply rstrip_no_colon, lstrip_no_colon. Qed.

Lemma split_nonempty sep s : split sep s ≠ [].
Proof.
  destruct s as [|c s]; [done|]. simpl.
  destruct (Ascii.eqb c sep); [done|]. by destruct (split sep s).
Qed.

Lemma split_no_colon s : contains ":" s = false → split ":" s = [s].
Proof.
  induction s as [|c s IH]; [done|]. rewrite contains_colon_cons.
  intros [Hc H]%orb_false_iff. simpl. rewrite Hc, (IH H). done.
Qed.

Lemma split_colon_length s :
  contains ":" s = true → (2 ≤ length (split ":" s))%nat.
Proof.
  induction s as [|c s IH]; [done|]. rewrite contains_colon_cons. simpl.
  destruct (Ascii.eqb c ":"); simpl.
  - intros _. pose proof (split_nonempty ":" s).
    destruct (split ":" s); simpl; [done|lia].
  - intros H. specialize (IH H). destruct (split ":" s); simpl in *; lia.
Qed.

Lemma split_head_no_colon s : contains ":" (nth 0 (split ":" s) "") = false.
Proof.
  induction s as [|c s IH]; [done|]. simpl.
  destruct (Ascii.eqb c ":") eqn:Hc; [done|].
  pose proof (split_nonempty ":" s).
  destruct (split ":" s) as [|w ws]; [done|].
  change (nth 0 (String c w :: ws) "") with (String c w).
  change (nth 0 (w :: ws) "") with w in IH.
  by rewrite contains_colon_cons, Hc, IH.
Qed.

(** Both branches of [normalize_title] keep the stripped text before
    the first colon. *)
Lemma normalize_title_head t :
  normalize_title t = strip (nth 0 (split ":" t) "").
Proof.
  unfold normalize_title. destruct (contains ":" t) eqn:E.
  - apply split_colon_length in E.
    by destruct (2 <=? length (split ":" t))%nat eqn:E'; [|apply Nat.leb_gt in E'; lia].
  - by rewrite (split_no_colon _ E).
Qed.

Lemma normalize_title_no_colon t : contains ":" (normalize_title t) = false.
Proof. rewrite normalize_title_head. apply strip_no_colon, split_head_no_colon. Qed.

Lemma normalize_title_stripped t : strip (normalize_title t) = normalize_title t.
Proof. rewrite normalize_title_head. apply strip_idem. Qed.

Lemma span_no_colon_id s : contains ":" s = false → span_no_colon s = (s, "").
Proof.
  induction s as [|c s IH]; [done|]. rewrite contains_colon_cons.
  intros [Hc H]%orb_false_iff. simpl. by rewrite Hc, (IH H).
Qed.

Lemma re_sub_prefix_no_colon s : contains ":" s = false → re_sub_prefix s = s.
Proof.
  intros H. unfold re_sub_prefix. rewrite (span_no_colon_id _ H). by destruct s.
Qed.

End StringFacts.

(** ** Title normalization and the duplicate predicate *)

(** C8: title normalization is idempotent: normalizing a normalized
    title gives the same text as normalizing once. *)
Theorem normalize_title_idempotent (title : string) :
  normalize_title (normalize_title title) = normalize_title title.
Proof.
  rewrite (normalize_title_head (normalize_title title)).
  rewrite (split_no_colon _ (normalize_title_no_colon title)).
  apply normalize_title_stripped.
Qed.

(** The second pass of [is_duplicate] on a normalized title. *)
Lemma second_pass_normalized (title : string) :
  strip (re_sub_prefix (normalize_title title)) = normalize_title title.
Proof.
  rewrite (re_sub_prefix_no_colon _ (normalize_title_no_colon title)).
  apply normalize_title_stripped.
Qed.

(** C9: a normalized title holds no colon, so the second
    prefix-stripping pass of [is_duplicate] leaves both titles as they
    are, and [is_duplicate] agrees everywhere with the predicate made of
    rule 1 and rule 3 alone. *)
Theorem is_duplicate_second_pass_redundant :
  (∀ title, contains ":" (normalize_title title) = false)
  ∧ (∀ title,
       strip (re_sub_prefix (normalize_title title)) = normalize_title title)
  ∧ (∀ paper1 paper2,
       is_duplicate paper1 paper2 = is_duplicate_rules_1_3 paper1 paper2).
Proof.
  split_and!.
  - apply normalize_title_no_colon.
  - apply second_pass_normalized.
  - intros paper1 paper2. unfold is_duplicate, is_duplicate_rules_1_3.
    rewrite !second_pass_normalized.
    destruct (String.eqb (lower (normalize_title (paper_title paper1)))
                (lower (normalize_title (paper_title paper2)))); [done|].
    rewrite andb_false_r. simpl.
    by destruct (_ && _ && _ && _).
Qed.

(** ** Choice of the representative *)

Lemma filter_non_arxiv_all_arxiv (l : list RawPaper) :
  Forall (λ q, non_arxiv q = false) l →
  filter (λ p, non_arxiv p = true) l = [].
Proof.
  induction 1 as [|q l Hq _ IH]; [done|].
  rewrite filter_cons_False; [done|congruence].
Qed.

Lemma select_best_first_non_arxiv (l1 l2 : list RawPaper) (p : RawPaper) :
  Forall (λ q, non_arxiv q = false) l1 → non_arxiv p = true →
  select_best_paper (l1 ++ p :: l2) = p.
Proof.
  intros H1 Hp. unfold select_best_paper.
  rewrite filter_app, (filter_non_arxiv_all_arxiv _ H1), filter_cons_True by done.
  by destruct l1.
Qed.

Lemma select_best_all_arxiv (p : RawPaper) (l : list RawPaper) :
  Forall (λ q, non_arxiv q = false) (p :: l) →
  select_best_paper (p :: l) = p.
Proof.
  intros H. unfold select_best_paper.
  by rewrite (filter_non_arxiv_all_arxiv _ H).
Qed.

(** C5: the two papers of the scenario are duplicates (in either
    order); and from a group of duplicates [select_best_paper] returns the
    first candidate whose venue holds neither "arxiv" nor "preprint" in
    any case, or the first candidate when there is none.  The group is
    never empty: [remove_duplicates] starts it with the paper at hand. *)
Theorem scenario_duplicates_and_representative :
  is_duplicate paper_benchmark paper_arxiv = true
  ∧ is_duplicate paper_arxiv paper_benchmark = true
  ∧ (∀ l1 p l2,
       Forall (λ q, non_arxiv q = false) l1 → non_arxiv p = true →
       select_best_paper (l1 ++ p :: l2) = p)
  ∧ (∀ p l,
       Forall (λ q, non_arxiv q = false) (p :: l) →
       select_best_paper (p :: l) = p)
  ∧ select_best_paper [paper_arxiv; paper_benchmark] = paper_benchmark
  ∧ remove_duplicates [paper_arxiv; paper_benchmark] = [paper_benchmark].
Proof.
  split_and!; [by vm_compute..| | | by vm_compute | by vm_compute].
  - intros. by apply select_best_first_non_arxiv.
  - intros. by apply select_best_all_arxiv.
Qed.

(** ** Year resolution *)

Section YearResolution.

Variable fromisoformat : string → option datetime.
Variables venue_mapping author_name_mapping : gmap string string.

Lemma extract_year_cases (paper : RawPaper) :
  extract_year fromisoformat paper =
    match date_year fromisoformat paper with
    | Some y => Some (Z.pos y)
    | None => field_year paper
    end.
Proof.
  unfold extract_year, date_year, field_year.
  destruct (raw_publicationDate paper) as [date|]; simpl.
  - destruct (truthy date); simpl.
    + destruct (fromisoformat _) as [dt|]; simpl; [done|].
      destruct (raw_year paper) as [y|]; simpl; [|done].
      by destruct y.
    + destruct (raw_year paper) as [y|]; simpl; [|done].
      by destruct y.
  - destruct (raw_year paper) as [y|]; simpl; [|done].
    by destruct y.
Qed.





End YearResolution.


(** ** The hide operation *)

Section Hide.

Variable target : string.

Lemma signature_set_hidden (p : CanonicalPaper) :
  create_paper_signature (set_hidden p) = create_paper_signature p.
Proof. done. Qed.

Lemma hide_in_papers_None (l : list CanonicalPaper) :
  hide_in_papers target l = None ↔ Forall (λ p, create_paper_signature p ≠ target) l.
Proof.
  induction l as [|p l IH]; simpl; [by split|].
  destruct (String.eqb_spec (create_paper_signature p) target) as [E|E].
  - split; [done|]. by intros [? _]%Forall_cons.
  - rewrite fmap_None, IH, Forall_cons.
    split; [by intros ?|by intros [_ ?]].
Qed.

Lemma hide_in_papers_Some (l l' : list CanonicalPaper) :
  hide_in_papers target l = Some l' →
  ∃ ps1 p ps2,
    l = ps1 ++ p :: ps2 ∧ Forall (λ q, create_paper_signature q ≠ target) ps1
    ∧ create_paper_signature p = target
    ∧ l' = ps1 ++ set_hidden p :: ps2.
Proof.
  revert l'. induction l as [|p l IH]; intros l'; simpl; [done|].
  destruct (String.eqb_spec (create_paper_signature p) target) as [E|E].
  - intros [= <-]. by exists [], p, l.
  - intros (l0 & H & ->)%fmap_Some.
    destruct (IH _ H) as (ps1 & q & ps2 & -> & Hps1 & Hq & ->).
    exists (p :: ps1), q, ps2. split_and!; [done| |done..].
    by constructor.
Qed.

Lemma hide_in_groups_None (ds : list YearGroup) :
  hide_in_groups target ds = None ↔ Forall (λ p, create_paper_signature p ≠ target) (dataset_papers ds).
Proof.
  unfold dataset_papers.
  induction ds as [|g ds IH]; simpl; [by split|].
  rewrite Forall_app, <-IH, <-hide_in_papers_None.
  destruct (hide_in_papers target (papers g)) as [l|].
  - split; [done|]. by intros [? _].
  - rewrite fmap_None. split; [by intros ?|by intros [_ ?]].
Qed.

Lemma hide_in_groups_Some (ds ds' : list YearGroup) :
  hide_in_groups target ds = Some ds' →
  ∃ gs1 g gs2 ps1 p ps2,
    ds = gs1 ++ g :: gs2 ∧ papers g = ps1 ++ p :: ps2
    ∧ Forall (λ q, create_paper_signature q ≠ target) (dataset_papers gs1 ++ ps1)
    ∧ create_paper_signature p = target
    ∧ ds' = gs1 ++ {| year := year g;
                      papers := ps1 ++ set_hidden p :: ps2 |} :: gs2.
Proof.
  revert ds'. induction ds as [|g ds IH]; intros ds'; simpl; [done|].
  destruct (hide_in_papers target (papers g)) as [l|] eqn:Hg.
  - intros [= <-].
    destruct (hide_in_papers_Some _ _ Hg) as (ps1 & p & ps2 & E & H1 & Hp & ->).
    by exists [], g, ds, ps1, p, ps2.
  - intros (ds0 & H & ->)%fmap_Some.
    destruct (IH _ H) as (gs1 & g' & gs2 & ps1 & p & ps2 & -> & E & H1 & Hp & ->).
    exists (g :: gs1), g', gs2, ps1, p, ps2. split_and!; [done..| |done|done].
    unfold dataset_papers in *. simpl. rewrite <-app_assoc, Forall_app.
    split; [by apply hide_in_papers_None|done].
Qed.

End Hide.

Lemma dataset_papers_app (ds1 ds2 : list YearGroup) :
  dataset_papers (ds1 ++ ds2) = dataset_papers ds1 ++ dataset_papers ds2.
Proof. unfold dataset_papers. by rewrite map_app, concat_app. Qed.

Lemma dataset_papers_cons (g : YearGroup) (ds : list YearGroup) :
  dataset_papers (g :: ds) = papers g ++ dataset_papers ds.
Proof. done. Qed.

(** C7: when some paper of the dataset has the target signature,
    [mark_paper_as_hidden] returns true and a paper with that signature
    has its show field set to false; when none has, it returns false and
    the dataset is the one given. *)
Theorem mark_hidden_found_or_unchanged
    (papers_data : list YearGroup) (wanted : string)
    (first_author : option string) :
  let target := target_signature wanted first_author in
  let result := mark_paper_as_hidden papers_data wanted first_author in
  (Exists (λ p, create_paper_signature p = target)
          (dataset_papers papers_data) →
   result.2 = true
   ∧ ∃ p, p ∈ dataset_papers papers_data
          ∧ create_paper_signature p = target
          ∧ set_hidden p ∈ dataset_papers result.1
          ∧ show (set_hidden p) = Some false)
  ∧ (Forall (λ p, create_paper_signature p ≠ target)
            (dataset_papers papers_data) →
     result = (papers_data, false)).
Proof.
  intros target result. subst result. unfold mark_paper_as_hidden.
  fold target. split.
  - intros Hex.
    destruct (hide_in_groups target papers_data) as [ds'|] eqn:E.
    + split; [done|].
      destruct (hide_in_groups_Some _ _ _ E)
        as (gs1 & g & gs2 & ps1 & p & ps2 & -> & Hg & _ & Hp & ->).
      exists p. simpl.
      rewrite !dataset_papers_app, !dataset_papers_cons, Hg. simpl.
      split_and!; [|done| |done]; set_solver.
    + apply hide_in_groups_None in E.
      apply Exists_exists in Hex as (p & Hin & Hp).
      rewrite Forall_forall in E. by destruct (E p Hin).
  - intros Hall. apply hide_in_groups_None in Hall. by rewrite Hall.
Qed.

(** C10: a call changes one paper at most.  Either no paper has the
    target signature and the dataset is returned as it was, or the
    dataset splits around the first paper with that signature in scan
    order: the groups and papers before it hold no match, that paper gets
    show false and keeps its other fields, and everything else, later
    papers with the same signature included, is as before. *)
Theorem mark_hidden_first_match_only
    (papers_data : list YearGroup) (wanted : string)
    (first_author : option string) :
  let target := target_signature wanted first_author in
  let result := mark_paper_as_hidden papers_data wanted first_author in
  (Forall (λ p, create_paper_signature p ≠ target)
          (dataset_papers papers_data)
   ∧ result = (papers_data, false))
  ∨ (∃ gs1 g gs2 ps1 p ps2,
       papers_data = gs1 ++ g :: gs2
       ∧ papers g = ps1 ++ p :: ps2
       ∧ Forall (λ q, create_paper_signature q ≠ target)
                (dataset_papers gs1 ++ ps1)
       ∧ create_paper_signature p = target
       ∧ result =
           (gs1 ++ {| year := year g;
                      papers := ps1 ++ set_hidden p :: ps2 |} :: gs2, true)
       ∧ title (set_hidden p) = title p
       ∧ authors (set_hidden p) = authors p
       ∧ venue (set_hidden p) = venue p
       ∧ pdf (set_hidden p) = pdf p
       ∧ show (set_hidden p) = Some false).
Proof.
  intros target result. subst result. unfold mark_paper_as_hidden.
  fold target.
  destruct (hide_in_groups target papers_data) as [ds'|] eqn:E.
  - right.
    destruct (hide_in_groups_Some _ _ _ E)
      as (gs1 & g & gs2 & ps1 & p & ps2 & -> & Hg & Hbefore & Hp & ->).
    exists gs1, g, gs2, ps1, p, ps2. by split_and!.
  - left. split; [|done]. by apply hide_in_groups_None.
Qed.

(** ** Year groups come out in strictly descending order *)

Section Sorting.

Local Instance flip_le_total : Total (flip Z.le).
Proof. intros x y. unfold flip. lia. Qed.

Local Instance flip_le_trans : Transitive (flip Z.le).
Proof. intros x y z. unfold flip. lia. Qed.

Local Instance flip_le_antisymm : AntiSymm (=) (flip Z.le).
Proof. intros x y. unfold flip. lia. Qed.

Lemma sorted_reverse_Permutation (l : list Z) : sorted_reverse l ≡ₚ l.
Proof. apply merge_sort_Permutation. Qed.

Lemma sorted_reverse_sorted (l : list Z) :
  StronglySorted (flip Z.le) (sorted_reverse l).
Proof. apply StronglySorted_merge_sort; apply _. Qed.

Lemma descending_strict (l : list Z) :
  StronglySorted (flip Z.le) l → NoDup l →
  StronglySorted (λ y1 y2, y2 < y1) l.
Proof.
  induction 1 as [|x l Hl IH Hx]; intros Hnd; [constructor|].
  apply NoDup_cons in Hnd as [Hnotin Hnd]. constructor; [by apply IH|].
  rewrite Forall_forall in Hx |- *. intros y Hy.
  specialize (Hx y Hy). unfold flip in Hx.
  assert (y ≠ x) by (intros ->; done). lia.
Qed.

Lemma strict_descending_weak (l : list Z) :
  StronglySorted (λ y1 y2, y2 < y1) l → StronglySorted (flip Z.le) l.
Proof.
  induction 1 as [|x l Hl IH Hx]; constructor; [done|].
  eapply Forall_impl; [done|]. intros y Hy. unfold flip. simpl in Hy. lia.
Qed.

Lemma strict_descending_NoDup (l : list Z) :
  StronglySorted (λ y1 y2, y2 < y1) l → NoDup l.
Proof.
  induction 1 as [|x l Hl IH Hx]; constructor; [|done].
  intros Hin. rewrite Forall_forall in Hx. specialize (Hx x Hin).
  simpl in Hx. lia.
Qed.

(** A strictly descending list is what [sorted(..., reverse=True)]
    makes of any of its rearrangements. *)
Lemma sorted_reverse_of_descending (l k : list Z) :
  StronglySorted (λ y1 y2, y2 < y1) l → k ≡ₚ l → sorted_reverse k = l.
Proof.
  intros Hl Hk. apply (StronglySorted_unique (flip Z.le)).
  - apply sorted_reverse_sorted.
  - by apply strict_descending_weak.
  - by rewrite sorted_reverse_Permutation.
Qed.

Lemma keys_NoDup (d : gmap Z (list CanonicalPaper)) : NoDup (keys d).
Proof. apply NoDup_fst_map_to_list. Qed.

Lemma elem_of_keys (d : gmap Z (list CanonicalPaper)) (y : Z) :
  y ∈ keys d ↔ is_Some (d !! y).
Proof.
  unfold keys. rewrite list_elem_of_fmap. split.
  - intros ([y' l] & -> & H%elem_of_map_to_list). by exists l.
  - intros [l H]. exists (y, l). by rewrite elem_of_map_to_list.
Qed.

Lemma years_to_year_groups (d : gmap Z (list CanonicalPaper)) :
  year <$> to_year_groups d = sorted_reverse (keys d).
Proof.
  unfold to_year_groups. rewrite <-list_fmap_compose.
  apply list_fmap_id.
Qed.

Lemma to_year_groups_descending (d : gmap Z (list CanonicalPaper)) :
  StronglySorted (λ y1 y2, y2 < y1) (year <$> to_year_groups d).
Proof.
  rewrite years_to_year_groups. apply descending_strict.
  - apply sorted_reverse_sorted.
  - rewrite sorted_reverse_Permutation. apply keys_NoDup.
Qed.

End Sorting.

(** C4: the dataset returned by [merge_new_papers], and the one
    returned by the full-refresh formatter, list their year groups with
    the years strictly descending, so no year occurs twice. *)
Theorem year_groups_strictly_descending
    (fromisoformat : string → option datetime)
    (venue_mapping author_name_mapping : gmap string string)
    (existing_papers : list YearGroup) (new_papers fetched : list RawPaper) :
  let merged :=
    (merge_new_papers fromisoformat venue_mapping author_name_mapping
       existing_papers new_papers).1 in
  let refreshed :=
    format_papers_for_yaml fromisoformat venue_mapping author_name_mapping
      fetched in
  StronglySorted (λ y1 y2, y2 < y1) (year <$> merged)
  ∧ NoDup (year <$> merged)
  ∧ StronglySorted (λ y1 y2, y2 < y1) (year <$> refreshed)
  ∧ NoDup (year <$> refreshed).
Proof.
  intros merged refreshed. subst merged refreshed.
  unfold merge_new_papers, format_papers_for_yaml. simpl.
  split_and!; try apply strict_descending_NoDup;
    apply to_year_groups_descending.
Qed.

(** ** The dictionary keyed by year *)

Section YearIndex.

Implicit Types (d : gmap Z (list CanonicalPaper)) (l : list YearGroup).

Lemma index_by_year_fold l : index_by_year l = fold_left insert_group l ∅.
Proof. done. Qed.

Lemma fold_insert_lookup_notin l d (y : Z) :
  y ∉ year <$> l → fold_left insert_group l d !! y = d !! y.
Proof.
  revert d. induction l as [|g l IH]; intros d Hy; [done|]. simpl.
  rewrite fmap_cons, not_elem_of_cons in Hy. destruct Hy as [Hne Hy].
  rewrite (IH _ Hy). unfold insert_group. by rewrite lookup_insert_ne.
Qed.

Lemma fold_insert_lookup_in l d (g : YearGroup) :
  NoDup (year <$> l) → g ∈ l →
  fold_left insert_group l d !! year g = Some (papers g).
Proof.
  revert d. induction l as [|g' l IH]; intros d Hnd Hg; [by inv Hg|].
  rewrite fmap_cons, NoDup_cons in Hnd. destruct Hnd as [Hnotin Hnd]. simpl.
  apply elem_of_cons in Hg as [->|Hg]; [|by apply IH].
  rewrite (fold_insert_lookup_notin _ _ _ Hnotin).
  unfold insert_group. by rewrite lookup_insert_eq.
Qed.

Lemma fold_insert_is_Some l d (y : Z) :
  is_Some (fold_left insert_group l d !! y)
  ↔ is_Some (d !! y) ∨ y ∈ year <$> l.
Proof.
  revert d. induction l as [|g l IH]; intros d; simpl.
  - rewrite elem_of_nil. tauto.
  - rewrite IH, elem_of_cons. unfold insert_group.
    rewrite lookup_insert_is_Some'. split; intros H; destruct_or!; auto.
Qed.

Lemma fmap_fixed {A} (h : A → A) (k : list A) :
  (∀ x, x ∈ k → h x = x) → h <$> k = k.
Proof.
  induction k as [|x k IH]; intros H; [done|]. simpl. f_equal.
  - apply H. by left.
  - apply IH. intros y Hy. apply H. by right.
Qed.

(** Stored groups with strictly descending years survive the round
    trip through the dictionary. *)
Lemma to_year_groups_index_by_year l :
  StronglySorted (λ y1 y2, y2 < y1) (year <$> l) →
  to_year_groups (index_by_year l) = l.
Proof.
  intros Hs. pose proof (strict_descending_NoDup _ Hs) as Hnd.
  unfold to_year_groups.
  rewrite (sorted_reverse_of_descending (year <$> l)); [|done|].
  - change (map ?f ?k) with (f <$> k). rewrite <-list_fmap_compose.
    apply fmap_fixed. intros g Hg. simpl.
    rewrite lookup_total_alt, index_by_year_fold.
    rewrite (fold_insert_lookup_in _ _ _ Hnd Hg). by destruct g.
  - apply NoDup_Permutation; [apply keys_NoDup|done|]. intros y.
    rewrite elem_of_keys, index_by_year_fold, fold_insert_is_Some.
    rewrite lookup_empty, is_Some_alt. tauto.
Qed.

End YearIndex.


(** ** Signature sets *)

Section SignatureSets.

Lemma signature_truthy (p : CanonicalPaper) :
  truthy (create_paper_signature p) = true.
Proof.
  unfold create_paper_signature, signature_of.
  by destruct (lower (normalize_title (title p))).
Qed.

Variable collect : gset string → CanonicalPaper → gset string.
Variable picked : CanonicalPaper → option string.
Hypothesis collect_spec :
  ∀ acc p x, x ∈ collect acc p ↔ x ∈ acc ∨ picked p = Some x.

Lemma fold_collect_papers (l : list CanonicalPaper) (acc : gset string) x :
  x ∈ fold_left collect l acc ↔ x ∈ acc ∨ ∃ p, p ∈ l ∧ picked p = Some x.
Proof.
  revert acc. induction l as [|q l IH]; intros acc; simpl.
  - split; [auto|]. intros [?|(p & Hp & _)]; [done|by inv Hp].
  - rewrite IH, collect_spec. split.
    + intros [[?|?]|(p & Hp & ?)]; [by left|right..].
      * exists q. split; [by left|done].
      * exists p. split; [by right|done].
    + intros [?|(p & Hp & ?)]; [by left; left|].
      apply elem_of_cons in Hp as [->|Hp]; [by left; right|].
      right. by exists p.
Qed.

Lemma fold_collect_groups (ds : list YearGroup) (acc : gset string) x :
  x ∈ fold_left (λ acc year_data, fold_left collect (papers year_data) acc)
        ds acc
  ↔ x ∈ acc ∨ ∃ p, p ∈ dataset_papers ds ∧ picked p = Some x.
Proof.
  revert acc. induction ds as [|g ds IH]; intros acc; simpl.
  - split; [auto|]. intros [?|(p & Hp & _)]; [done|by inv Hp].
  - rewrite IH, fold_collect_papers, dataset_papers_cons. split.
    + intros [[?|(p & Hp & ?)]|(p & Hp & ?)]; [by left|right..].
      * exists p. split; [|done]. apply elem_of_app. by left.
      * exists p. split; [|done]. apply elem_of_app. by right.
    + intros [?|(p & Hp & ?)]; [by left; left|].
      apply elem_of_app in Hp as [Hp|Hp].
      * left. right. by exists p.
      * right. by exists p.
Qed.

End SignatureSets.

Lemma elem_of_existing_signatures (ds : list YearGroup) (s : string) :
  s ∈ get_existing_paper_signatures ds
  ↔ ∃ p, p ∈ dataset_papers ds ∧ create_paper_signature p = s.
Proof.
  unfold get_existing_paper_signatures.
  rewrite (fold_collect_groups _ (λ p, Some (create_paper_signature p))).
  - rewrite elem_of_empty. split.
    + intros [[]|(p & ? & [= <-])]. by exists p.
    + intros (p & ? & <-). right. by exists p.
  - intros acc p x. rewrite signature_truthy, elem_of_union, elem_of_singleton.
    split; intros [?|?]; auto; right; congruence.
Qed.

Lemma elem_of_hidden_signatures (ds : list YearGroup) (s : string) :
  s ∈ get_hidden_signatures ds
  ↔ ∃ p, p ∈ dataset_papers ds ∧ show p = Some false
         ∧ create_paper_signature p = s.
Proof.
  unfold get_hidden_signatures.
  rewrite (fold_collect_groups _
             (λ p, match show p with
                   | Some false => Some (create_paper_signature p)
                   | _ => None
                   end)).
  - rewrite elem_of_empty. split.
    + intros [[]|(p & ? & H)]. exists p.
      destruct (show p) as [[]|]; [done| |done]. by injection H as <-.
    + intros (p & ? & Hs & <-). right. exists p. by rewrite Hs.
  - intros acc p x.
    destruct (show p) as [[]|];
      [split; [auto|by intros [?|?]]| |split; [auto|by intros [?|?]]].
    rewrite signature_truthy, elem_of_union, elem_of_singleton.
    split; intros [?|?]; auto; right; congruence.
Qed.

(** ** Papers held by the dictionary *)

Section DictPapers.

Implicit Types (d : gmap Z (list CanonicalPaper)) (s : string).

Lemma concat_Permutation {A} (l k : list (list A)) :
  l ≡ₚ k → concat l ≡ₚ concat k.
Proof.
  induction 1 as [|x l k _ IH|x y l|l k m _ IH1 _ IH2]; simpl.
  - done.
  - by rewrite IH.
  - rewrite !app_assoc. f_equiv. apply Permutation_app_comm.
  - by etrans.
Qed.

Lemma count_signature_Permutation s (l k : list CanonicalPaper) :
  l ≡ₚ k → count_signature s l = count_signature s k.
Proof. intros H. unfold count_signature. by rewrite H. Qed.

Lemma count_signature_app s (l k : list CanonicalPaper) :
  count_signature s (l ++ k) = (count_signature s l + count_signature s k)%nat.
Proof. unfold count_signature. by rewrite filter_app, length_app. Qed.

Lemma count_signature_cons_ne s p (l : list CanonicalPaper) :
  create_paper_signature p ≠ s →
  count_signature s (p :: l) = count_signature s l.
Proof. intros H. unfold count_signature. by rewrite filter_cons_False. Qed.

Lemma lookup_values d :
  (λ y, d !!! y) <$> keys d = (map_to_list d).*2.
Proof.
  unfold keys. rewrite <-list_fmap_compose.
  apply Forall_fmap_ext_1, Forall_forall.
  intros [y l] H%elem_of_map_to_list. simpl.
  by rewrite lookup_total_alt, H.
Qed.

Lemma dataset_papers_to_year_groups d :
  dataset_papers (to_year_groups d) ≡ₚ map_papers d.
Proof.
  unfold dataset_papers, to_year_groups, map_papers.
  change (map ?f ?k) with (f <$> k). rewrite <-list_fmap_compose.
  apply concat_Permutation.
  rewrite <-lookup_values. by rewrite sorted_reverse_Permutation.
Qed.

Lemma map_papers_insert_fresh d (y : Z) (l : list CanonicalPaper) :
  d !! y = None → map_papers (<[y := l]> d) ≡ₚ l ++ map_papers d.
Proof.
  intros H. unfold map_papers.
  rewrite (concat_Permutation _ (l :: (map_to_list d).*2)); [done|].
  by rewrite (map_to_list_insert _ _ _ H).
Qed.

Lemma map_papers_delete d (y : Z) (old : list CanonicalPaper) :
  d !! y = Some old → map_papers d ≡ₚ old ++ map_papers (delete y d).
Proof.
  intros H. unfold map_papers.
  rewrite (concat_Permutation _ (old :: (map_to_list (delete y d)).*2));
    [done|].
  by rewrite <-(map_to_list_delete _ _ _ H).
Qed.

Lemma map_papers_insert d (y : Z) (l : list CanonicalPaper) :
  map_papers (<[y := l]> d) ≡ₚ l ++ map_papers (delete y d).
Proof.
  rewrite <-insert_delete_eq. apply map_papers_insert_fresh, lookup_delete_eq.
Qed.

Lemma map_papers_append d (y : Z) (p : CanonicalPaper) :
  map_papers (append_to_year d y p) ≡ₚ p :: map_papers d.
Proof.
  unfold append_to_year. destruct (d !! y) as [old|] eqn:E.
  - rewrite lookup_total_alt, E. simpl.
    rewrite map_papers_insert, (map_papers_delete _ _ _ E).
    rewrite <-app_assoc. simpl. by rewrite <-Permutation_middle.
  - rewrite lookup_total_insert_eq, insert_insert_eq.
    by rewrite map_papers_insert_fresh.
Qed.

Lemma count_insert_group s d (g : YearGroup) :
  (count_signature s (map_papers (insert_group d g))
   ≤ count_signature s (map_papers d) + count_signature s (papers g))%nat.
Proof.
  unfold insert_group.
  rewrite (count_signature_Permutation _ _ _ (map_papers_insert _ _ _)).
  rewrite count_signature_app.
  destruct (d !! year g) as [old|] eqn:E.
  - rewrite (count_signature_Permutation _ _ _ (map_papers_delete _ _ _ E)).
    rewrite count_signature_app. lia.
  - rewrite delete_id by done. lia.
Qed.

Lemma count_fold_insert s (l : list YearGroup) d :
  (count_signature s (map_papers (fold_left insert_group l d))
   ≤ count_signature s (map_papers d)
     + count_signature s (dataset_papers l))%nat.
Proof.
  revert d. induction l as [|g l IH]; intros d; simpl; [lia|].
  rewrite dataset_papers_cons, count_signature_app.
  pose proof (IH (insert_group d g)). pose proof (count_insert_group s d g).
  lia.
Qed.

End DictPapers.

(** ** The merge loop and a signature already seen *)

Section MergeLoop.

Variable fromisoformat : string → option datetime.
Variables venue_mapping author_name_mapping : gmap string string.
Variable hidden_signatures : gset string.
Variable s : string.

Let step :=
  merge_step fromisoformat venue_mapping author_name_mapping hidden_signatures.
Let fresh (paper : RawPaper) : Prop :=
  new_signature fromisoformat venue_mapping author_name_mapping paper ≠ Some s.

Lemma merge_step_seen (st : merge_state) (paper : RawPaper) :
  s ∈ existing_signatures st → s ∈ existing_signatures (step st paper).
Proof.
  intros H. unfold step, merge_step.
  destruct (format_paper_for_yaml _ _ _ paper) as [[fp y]|]; [|done].
  destruct (_ || _); [done|]. simpl. set_solver.
Qed.

Lemma merge_step_skip (st : merge_state) (paper : RawPaper) :
  s ∈ existing_signatures st → ¬ fresh paper → step st paper = st.
Proof.
  intros H Hs. unfold fresh, new_signature in Hs. unfold step, merge_step.
  destruct (format_paper_for_yaml _ _ _ paper) as [[fp y]|]; [|done].
  simpl in Hs. apply dec_stable in Hs. injection Hs as ->.
  by rewrite (bool_decide_eq_true_2 _ H).
Qed.

Lemma merge_step_count (st : merge_state) (paper : RawPaper) :
  s ∈ existing_signatures st →
  count_signature s (map_papers (existing_by_year (step st paper)))
  = count_signature s (map_papers (existing_by_year st)).
Proof.
  intros H. unfold step, merge_step.
  destruct (format_paper_for_yaml _ _ _ paper) as [[fp y]|]; [|done].
  destruct (decide (create_paper_signature fp ∈ existing_signatures st))
    as [Hin|Hnin].
  { by rewrite (bool_decide_eq_true_2 _ Hin). }
  rewrite (bool_decide_eq_false_2 _ Hnin). cbn [orb].
  destruct (bool_decide (create_paper_signature fp ∈ hidden_signatures));
    [done|].
  cbn [existing_by_year].
  rewrite (count_signature_Permutation _ _ _ (map_papers_append _ _ _)).
  apply count_signature_cons_ne. intros Heq. by rewrite Heq in Hnin.
Qed.

Lemma merge_loop_count (new_papers : list RawPaper) (st : merge_state) :
  s ∈ existing_signatures st →
  count_signature s
    (map_papers (existing_by_year (fold_left step new_papers st)))
  = count_signature s (map_papers (existing_by_year st)).
Proof.
  revert st. induction new_papers as [|paper l IH]; intros st H; [done|].
  simpl. rewrite IH by by apply merge_step_seen. by apply merge_step_count.
Qed.

Lemma merge_loop_filter (new_papers : list RawPaper) (st : merge_state) :
  s ∈ existing_signatures st →
  fold_left step (filter fresh new_papers) st = fold_left step new_papers st.
Proof.
  revert st. induction new_papers as [|paper l IH]; intros st H; [done|].
  destruct (decide (fresh paper)) as [Hf|Hf].
  - rewrite filter_cons_True by done. simpl. apply IH.
    by apply merge_step_seen.
  - rewrite filter_cons_False by done. simpl.
    rewrite (merge_step_skip _ _ H Hf). by apply IH.
Qed.

End MergeLoop.

(** C1: a stored paper with show false is never added again.  For
    its signature, which the hidden set holds, the merged dataset has no
    more papers than the stored one had, and the result, dataset and
    addition count alike, is what the merge gives once every fetched paper
    with that signature is taken out of the batch. *)
Theorem hidden_paper_never_readded
    (fromisoformat : string → option datetime)
    (venue_mapping author_name_mapping : gmap string string)
    (existing_papers : list YearGroup) (new_papers : list RawPaper)
    (hidden : CanonicalPaper) :
  hidden ∈ dataset_papers existing_papers →
  show hidden = Some false →
  let s := create_paper_signature hidden in
  let merge :=
    merge_new_papers fromisoformat venue_mapping author_name_mapping
      existing_papers in
  s ∈ get_hidden_signatures existing_papers
  ∧ (count_signature s (dataset_papers (merge new_papers).1)
     ≤ count_signature s (dataset_papers existing_papers))%nat
  ∧ merge new_papers
    = merge (filter
               (λ paper,
                  new_signature fromisoformat venue_mapping
                    author_name_mapping paper ≠ Some s)
               new_papers).
Proof.
  intros Hin Hshow s merge.
  assert (s ∈ get_existing_paper_signatures existing_papers) as Hseen.
  { apply elem_of_existing_signatures. by exists hidden. }
  split_and!.
  - apply elem_of_hidden_signatures. by exists hidden.
  - subst merge. unfold merge_new_papers. simpl.
    rewrite (count_signature_Permutation _ _ _
               (dataset_papers_to_year_groups _)).
    rewrite merge_loop_count by done. simpl.
    rewrite index_by_year_fold.
    pose proof (count_fold_insert s existing_papers ∅) as H.
    by rewrite Nat.add_0_l in H.
  - subst merge. unfold merge_new_papers.
    by rewrite merge_loop_filter.
Qed.

(** * The model at work *)

(** ** String primitives *)

Example strip_both_ends : strip "  a b  " = "a b".
Proof. reflexivity. Qed.

Example split_on_colon : split ":" "a:b::c" = ["a"; "b"; ""; "c"].
Proof. reflexivity. Qed.

Example lower_keeps_colon : lower "Event EXTRACTION: Z" = "event extraction: z".
Proof. reflexivity. Qed.

Example re_sub_prefix_match : re_sub_prefix "Title:  Sub: x" = "Sub: x".
Proof. reflexivity. Qed.

Example re_sub_prefix_leading_colon : re_sub_prefix ": x" = ": x".
Proof. reflexivity. Qed.

Example replace_utc :
  replace "Z" "+00:00" "2021-05-03T10:00:00Z" = "2021-05-03T10:00:00+00:00".
Proof. reflexivity. Qed.

Example normalize_title_subtitle :
  normalize_title "Event Extraction : A New Benchmark" = "Event Extraction".
Proof. reflexivity. Qed.

Example fromisoformat_date_leap :
  fromisoformat_date "2020-02-29"
  = Some {| dt_year := 2020; dt_month := 2; dt_day := 29 |}
  ∧ fromisoformat_date "2021-02-29" = None.
Proof. split; reflexivity. Qed.

(** ** Year resolution *)

(** The date wins over the year field. *)
Example year_from_date :
  extract_year fromisoformat_date
    {| raw_title := Some "T"; raw_year := Some 2021; raw_venue := None;
       raw_publicationVenue := None;
       raw_publicationDate := Some "2020-12-31";
       raw_authors := None; raw_url := None; raw_openAccessPdf := None |}
  = Some 2020.
Proof. reflexivity. Qed.

(** A date that does not parse leaves the year field. *)
Example year_from_field :
  extract_year fromisoformat_date
    {| raw_title := Some "T"; raw_year := Some 2021; raw_venue := None;
       raw_publicationVenue := None;
       raw_publicationDate := Some "December 2020";
       raw_authors := None; raw_url := None; raw_openAccessPdf := None |}
  = Some 2021.
Proof. reflexivity. Qed.

(** Without either the normalizer returns nothing. *)
Example no_year_dropped :
  format_paper_for_yaml fromisoformat_date ∅ ∅ paper_arxiv = None.
Proof. reflexivity. Qed.

(** ** Merging *)

Example merge_sample :
  merge_new_papers fromisoformat_date ∅ ∅ sample_dataset sample_batch
  = ([ {| year := 2023;
          papers := [ {| title := "Probing Language Models";
                         authors := "Jane Doe";
                         venue := Some "NAACL";
                         pdf := Some "https://example.org/p.pdf";
                         show := Some true |} ] |};
       {| year := 2022; papers := [stored_visible] |};
       {| year := 2021; papers := [stored_hidden] |} ], 1%nat).
Proof. by vm_compute. Qed.

Example refresh_sample :
  format_papers_for_yaml fromisoformat_date ∅ ∅
    [fetched_hidden; empty_paper; fetched_new]
  = [ {| year := 2023;
         papers := [ {| title := "Probing Language Models";
                        authors := "Jane Doe";
                        venue := Some "NAACL";
                        pdf := Some "https://example.org/p.pdf";
                        show := None |} ] |};
      {| year := 2021;
         papers := [ {| title := "Event Extraction";
                        authors := "A. Smith, B. Jones";
                        venue := Some "arXiv";
                        pdf := Some "https://arxiv.org/pdf/2105.00001";
                        show := None |} ] |} ].
Proof. by vm_compute. Qed.

Lemma hidden_paper_never_readded_witness :
  stored_hidden ∈ dataset_papers sample_dataset
  ∧ show stored_hidden = Some false
  ∧ create_paper_signature stored_hidden
      ∈ get_hidden_signatures sample_dataset
  ∧ (count_signature (create_paper_signature stored_hidden)
       (dataset_papers
          (merge_new_papers fromisoformat_date ∅ ∅ sample_dataset
             sample_batch).1)
     ≤ count_signature (create_paper_signature stored_hidden)
         (dataset_papers sample_dataset))%nat
  ∧ merge_new_papers fromisoformat_date ∅ ∅ sample_dataset sample_batch
    = merge_new_papers fromisoformat_date ∅ ∅ sample_dataset
        (filter
           (λ paper,
              new_signature fromisoformat_date ∅ ∅ paper
              ≠ Some (create_paper_signature stored_hidden))
           sample_batch).
Proof.
  assert (stored_hidden ∈ dataset_papers sample_dataset) as Hin
    by (right; left).
  split; [exact Hin|]. split; [reflexivity|].
  exact (hidden_paper_never_readded fromisoformat_date ∅ ∅ sample_dataset
           sample_batch stored_hidden Hin eq_refl).
Defined.


(** Groups stored oldest year first come back newest year first. *)
Example merge_sorts_groups :
  merge_new_papers fromisoformat_date ∅ ∅ unsorted_dataset []
  = (sample_dataset, 0%nat).
Proof. by vm_compute. Qed.


(** ** Hiding *)

Example hide_with_author :
  mark_paper_as_hidden sample_dataset "Commonsense Reasoning at Scale"
    (Some "Jane Doe")
  = ([ {| year := 2022; papers := [set_hidden stored_visible] |};
       {| year := 2021; papers := [stored_hidden] |} ], true).
Proof. by vm_compute. Qed.

Example hide_missing_title :
  mark_paper_as_hidden sample_dataset "No Such Paper" (Some "Jane Doe")
  = (sample_dataset, false).
Proof. by vm_compute. Qed.

(** Only the first of two papers with one signature is hidden. *)
Example hide_first_of_two :
  mark_paper_as_hidden
    [ {| year := 2022; papers := [stored_visible; stored_visible] |} ]
    "Commonsense Reasoning at Scale" (Some "Jane Doe")
  = ([ {| year := 2022;
          papers := [set_hidden stored_visible; stored_visible] |} ], true).
Proof. by vm_compute. Qed.

(** * Further properties of the code *)

#[local] Set Warnings "-clear-no-such-hyp".

(** ** The duplicate predicate as a relation *)

Lemma is_duplicate_unfold (paper1 paper2 : RawPaper) :
  is_duplicate paper1 paper2 = is_duplicate_rules_1_3 paper1 paper2.
Proof.
  unfold is_duplicate, is_duplicate_rules_1_3.
  rewrite !second_pass_normalized.
  destruct (String.eqb (lower (normalize_title (paper_title paper1)))
              (lower (normalize_title (paper_title paper2)))); [done|].
  rewrite andb_false_r. simpl.
  by destruct (_ && _ && _ && _).
Qed.

(** X1: every paper is a duplicate of itself, and [is_duplicate] does
    not depend on the order of its two arguments. *)
Theorem is_duplicate_refl_sym (paper1 paper2 : RawPaper) :
  is_duplicate paper1 paper1 = true
  ∧ is_duplicate paper1 paper2 = is_duplicate paper2 paper1.
Proof.
  split.
  - unfold is_duplicate. by rewrite String.eqb_refl.
  - rewrite !is_duplicate_unfold. unfold is_duplicate_rules_1_3.
    rewrite (String.eqb_sym (lower (normalize_title (paper_title paper1)))).
    rewrite (String.eqb_sym (lower (get_first_author (paper_authors paper1)))).
    f_equal.
    rewrite (andb_comm (truthy (get_first_author (paper_authors paper1)))).
    f_equal. apply orb_comm.
Qed.

(** ** The representative is one of the candidates *)

Lemma select_best_paper_elem (duplicates : list RawPaper) :
  duplicates ≠ [] → select_best_paper duplicates ∈ duplicates.
Proof.
  destruct duplicates as [|first rest]; [done|]. intros _.
  unfold select_best_paper.
  destruct (filter (λ p, non_arxiv p = true) (first :: rest))
    as [|best l] eqn:E; [by left|].
  assert (best ∈ filter (λ p, non_arxiv p = true) (first :: rest)) as H
    by (rewrite E; by left).
  by apply list_elem_of_filter in H as [_ H].
Qed.

(** X2: from a group that is not empty [select_best_paper] returns a
    paper of the group, one with a venue free of "arxiv" and "preprint"
    whenever the group has such a paper; from the empty group it returns
    the empty record. *)
Theorem select_best_paper_member (duplicates : list RawPaper) :
  select_best_paper [] = empty_paper
  ∧ (duplicates ≠ [] → select_best_paper duplicates ∈ duplicates)
  ∧ (Exists (λ p, non_arxiv p = true) duplicates →
     non_arxiv (select_best_paper duplicates) = true).
Proof.
  split_and!; [done|apply select_best_paper_elem|].
  intros (p & Hp & Hna)%Exists_exists.
  destruct duplicates as [|first rest]; [by inv Hp|].
  unfold select_best_paper.
  destruct (filter (λ p, non_arxiv p = true) (first :: rest))
    as [|best l] eqn:E.
  - assert (p ∈ filter (λ p, non_arxiv p = true) (first :: rest)) as H
      by by apply list_elem_of_filter.
    rewrite E in H. by inv H.
  - assert (best ∈ filter (λ p, non_arxiv p = true) (first :: rest)) as H
      by (rewrite E; by left).
    by apply list_elem_of_filter in H as [H _].
Qed.

(** ** [remove_duplicates] *)

Lemma fold_left_pointwise {A B} (f g : A → B → A) (l : list B) (a : A) :
  (∀ a x, f a x = g a x) → fold_left f l a = fold_left g l a.
Proof.
  intros H. revert a. induction l as [|x l IH]; intros a; [done|].
  simpl. by rewrite H, IH.
Qed.

Section RemoveDuplicates.

Variable papers : list RawPaper.

Lemma remove_duplicates_fold :
  remove_duplicates papers = (fold_left (dedup_step papers) papers ([], ∅)).1.
Proof.
  unfold remove_duplicates. f_equal. apply fold_left_pointwise.
  by intros [u pr] paper.
Qed.

Lemma dedup_step_elem (st : list RawPaper * gset string) (paper : RawPaper) :
  paper ∈ papers → (∀ x, x ∈ st.1 → x ∈ papers) →
  ∀ x, x ∈ (dedup_step papers st paper).1 → x ∈ papers.
Proof.
  destruct st as [u pr]. intros Hp Hu x. cbn [fst] in Hu. unfold dedup_step.
  destruct (bool_decide _); cbn [fst]; [apply Hu|].
  intros [Hx|Hx]%elem_of_app; [by apply Hu|].
  apply list_elem_of_singleton in Hx as ->.
  set (ds := paper :: _).
  assert (select_best_paper ds ∈ ds) as H by by apply select_best_paper_elem.
  subst ds. apply elem_of_cons in H as [->|H]; [done|].
  apply list_elem_of_filter in H as [_ H].
  apply list_elem_of_lookup in H as [i H].
  rewrite lookup_drop in H. apply list_elem_of_lookup. eauto.
Qed.

Lemma dedup_step_size (st : list RawPaper * gset string) (paper : RawPaper) :
  let st' := dedup_step papers st paper in
  st'.2 = st.2 ∪ {[paper_key paper]}
  ∧ (length st'.1 + size st.2 = length st.1 + size st'.2)%nat.
Proof.
  destruct st as [u pr]. simpl.
  destruct (decide (paper_key paper ∈ pr)) as [Hin|Hnin].
  - rewrite (bool_decide_eq_true_2 _ Hin). simpl. split; [set_solver|done].
  - rewrite (bool_decide_eq_false_2 _ Hnin). simpl. split; [done|].
    rewrite length_app, size_union by set_solver.
    rewrite size_singleton. simpl. lia.
Qed.

Lemma dedup_fold_invariant (l : list RawPaper)
    (st : list RawPaper * gset string) :
  (∀ x, x ∈ l → x ∈ papers) → (∀ x, x ∈ st.1 → x ∈ papers) →
  let st' := fold_left (dedup_step papers) l st in
  (∀ x, x ∈ st'.1 → x ∈ papers)
  ∧ st'.2 = st.2 ∪ list_to_set (paper_key <$> l)
  ∧ (length st'.1 + size st.2 = length st.1 + size st'.2)%nat.
Proof.
  revert st. induction l as [|paper l IH]; intros st Hl Hst; simpl.
  - split_and!; [done|set_solver|done].
  - destruct (dedup_step_size st paper) as [Hset Hsize].
    destruct (IH (dedup_step papers st paper)) as (H1 & H2 & H3).
    + intros x Hx. apply Hl. by right.
    + apply dedup_step_elem; [|done]. apply Hl. by left.
    + split_and!; [done| |lia]. rewrite H2, Hset. set_solver.
Qed.

Lemma dedup_fold_length (l : list RawPaper)
    (st : list RawPaper * gset string) :
  (length (fold_left (dedup_step papers) l st).1
   ≤ length st.1 + length l)%nat.
Proof.
  revert st. induction l as [|paper l IH]; intros st; simpl; [lia|].
  etrans; [apply IH|]. destruct st as [u pr]. unfold dedup_step.
  destruct (bool_decide _); cbn [fst]; [lia|].
  rewrite length_app. simpl. lia.
Qed.

End RemoveDuplicates.

(** X3: [remove_duplicates] returns papers of its input only, and as
    many of them as the input has distinct keys (lowercased normalized
    title, "_", lowercased first author), so never more than it was
    given.  The count is all that ties the output to the keys: a
    representative may stand in for a paper of another key, so the output
    need not hold one paper of each key, and may hold two of one. *)
Theorem remove_duplicates_members (papers : list RawPaper) :
  (∀ paper, paper ∈ remove_duplicates papers → paper ∈ papers)
  ∧ length (remove_duplicates papers)
    = size (list_to_set (paper_key <$> papers) : gset string)
  ∧ (length (remove_duplicates papers) ≤ length papers)%nat.
Proof.
  rewrite remove_duplicates_fold.
  destruct (dedup_fold_invariant papers papers ([], ∅)) as (H1 & H2 & H3);
    [done|by intros x Hx; inv Hx|].
  cbn [fst snd length] in *. rewrite size_empty in H3.
  assert (length (fold_left (dedup_step papers) papers ([], ∅)).1
          = size (list_to_set (paper_key <$> papers) : gset string)) as E.
  { rewrite H2, union_empty_l_L in H3. lia. }
  split_and!; [done|done|].
  apply (dedup_fold_length papers papers ([], ∅)).
Qed.

Section RemoveDuplicatesDistinct.

Lemma index_middle (pre suf : list RawPaper) (p : RawPaper) :
  p ∉ pre → index p (pre ++ p :: suf) = length pre.
Proof.
  induction pre as [|x pre IH]; intros Hp; simpl.
  - by rewrite decide_True.
  - apply not_elem_of_cons in Hp as [Hne Hp].
    rewrite decide_False by done. by rewrite IH.
Qed.

Lemma select_best_paper_single (p : RawPaper) : select_best_paper [p] = p.
Proof.
  unfold select_best_paper. rewrite filter_cons, filter_nil.
  by destruct (decide (non_arxiv p = true)).
Qed.

Lemma filter_duplicates_none (p : RawPaper) (l : list RawPaper) :
  Forall (λ q, is_duplicate p q = false) l →
  filter (λ other, is_duplicate p other = true) l = [].
Proof.
  induction 1 as [|q l Hq _ IH]; [done|].
  rewrite filter_cons_False; [done|congruence].
Qed.

Lemma dedup_distinct_invariant (papers suf pre : list RawPaper) :
  papers = pre ++ suf →
  NoDup (paper_key <$> papers) →
  StronglySorted (λ p q, is_duplicate p q = false) papers →
  fold_left (dedup_step papers) suf
    (pre, list_to_set (paper_key <$> pre))
  = (papers, list_to_set (paper_key <$> papers)).
Proof.
  intros E Hnd Hs. revert pre E.
  induction suf as [|p suf IH]; intros pre E.
  { by rewrite app_nil_r in E; subst. }
  cbn [fold_left].
  assert (dedup_step papers (pre, list_to_set (paper_key <$> pre)) p
          = (pre ++ [p], list_to_set (paper_key <$> pre ++ [p]))) as ->;
    [|apply IH; by rewrite <-app_assoc].
  assert (paper_key p ∉ (list_to_set (paper_key <$> pre) : gset string))
    as Hkey.
  { rewrite E, fmap_app, fmap_cons in Hnd.
    apply NoDup_app in Hnd as (_ & Hnd & _).
    rewrite elem_of_list_to_set. intros Hin. apply (Hnd _ Hin). by left. }
  assert (p ∉ pre) as Hp.
  { intros Hin. apply Hkey. rewrite elem_of_list_to_set.
    by apply list_elem_of_fmap_2. }
  unfold dedup_step. rewrite (bool_decide_eq_false_2 _ Hkey).
  rewrite E, (index_middle _ _ _ Hp).
  replace (drop (S (length pre)) (pre ++ p :: suf)) with suf.
  2: { rewrite (cons_middle p), app_assoc.
       rewrite drop_app_length'; [done|]. rewrite length_app. simpl. lia. }
  rewrite filter_duplicates_none, select_best_paper_single.
  - f_equal. rewrite fmap_app, list_to_set_app_L. simpl.
    by rewrite union_empty_r_L.
  - rewrite E in Hs. apply StronglySorted_app_1_r in Hs. by inv Hs.
Qed.

End RemoveDuplicatesDistinct.

(** X4: a list whose keys are all different and in which no paper is
    a duplicate of an earlier one comes back from [remove_duplicates]
    as it is, order included. *)
Theorem remove_duplicates_nothing_to_remove (papers : list RawPaper) :
  NoDup (paper_key <$> papers) →
  StronglySorted (λ p q, is_duplicate p q = false) papers →
  remove_duplicates papers = papers.
Proof.
  intros Hnd Hs. rewrite remove_duplicates_fold.
  exact (f_equal fst
           (dedup_distinct_invariant papers papers [] eq_refl Hnd Hs)).
Qed.

Lemma remove_duplicates_nothing_to_remove_witness :
  NoDup (paper_key <$> [paper_benchmark; fetched_new])
  ∧ StronglySorted (λ p q, is_duplicate p q = false)
      [paper_benchmark; fetched_new]
  ∧ remove_duplicates [paper_benchmark; fetched_new]
    = [paper_benchmark; fetched_new].
Proof.
  assert (NoDup (paper_key <$> [paper_benchmark; fetched_new])) as H1.
  { apply (bool_decide_unpack _). by vm_compute. }
  assert (StronglySorted (λ p q, is_duplicate p q = false)
            [paper_benchmark; fetched_new]) as H2.
  { repeat first [reflexivity | constructor]. }
  split; [exact H1|]. split; [exact H2|].
  exact (remove_duplicates_nothing_to_remove _ H1 H2).
Defined.

(** X5: [remove_duplicates] can return one record twice and drop
    another.  Take an arXiv paper followed by a duplicate of it that is
    not on arXiv and is filed under another key (another first author,
    say): the second is chosen to stand for the first, and then again for
    itself. *)
Theorem remove_duplicates_repeats (p q : RawPaper) :
  paper_key p ≠ paper_key q →
  is_duplicate p q = true →
  non_arxiv p = false → non_arxiv q = true →
  remove_duplicates [p; q] = [q; q].
Proof.
  intros Hkey Hdup Hp Hq.
  assert (p ≠ q) as Hne by (intros ->; done).
  assert (select_best_paper [p; q] = q) as Hbest.
  { unfold select_best_paper.
    rewrite filter_cons_False, filter_cons_True by congruence. done. }
  rewrite remove_duplicates_fold. cbn [fold_left].
  assert (dedup_step [p; q] ([], ∅) p = ([q], {[paper_key p]})) as ->.
  { unfold dedup_step. rewrite bool_decide_eq_false_2 by set_solver.
    cbn [index]. rewrite decide_True by done. cbn [drop].
    rewrite filter_cons_True, filter_nil by done.
    rewrite Hbest. f_equal. set_solver. }
  unfold dedup_step. rewrite bool_decide_eq_false_2 by set_solver.
  cbn [index]. rewrite decide_False, decide_True by done. cbn [drop].
  by rewrite filter_nil, select_best_paper_single.
Qed.

Lemma remove_duplicates_repeats_witness :
  paper_key paper_arxiv ≠ paper_key paper_conference
  ∧ is_duplicate paper_arxiv paper_conference = true
  ∧ non_arxiv paper_arxiv = false
  ∧ non_arxiv paper_conference = true
  ∧ remove_duplicates [paper_arxiv; paper_conference]
    = [paper_conference; paper_conference].
Proof.
  assert (paper_key paper_arxiv ≠ paper_key paper_conference) as H
    by (by vm_compute).
  split; [exact H|]. do 3 (split; [reflexivity|]).
  exact (remove_duplicates_repeats paper_arxiv paper_conference H
           eq_refl eq_refl eq_refl).
Defined.

(** ** What the normalizer stores *)

Lemma extract_year_nonzero (fromisoformat : string → option datetime)
    (paper : RawPaper) (y : Z) :
  extract_year fromisoformat paper = Some y → y ≠ 0.
Proof.
  rewrite extract_year_cases.
  destruct (date_year fromisoformat paper) as [d|]; [by intros [= <-]|].
  unfold field_year. destruct (raw_year paper) as [z|]; [|done].
  destruct (Z.eqb_spec z 0); [done|]. by intros [= <-].
Qed.

Lemma map_venue_truthy (venue_mapping : gmap string string)
    (paper : RawPaper) (v : string) :
  map_venue venue_mapping paper = Some v → truthy v = true.
Proof.
  unfold map_venue. destruct (_ && _); [|done].
  destruct (truthy (default _ _)) eqn:E; [|done]. by intros [= <-].
Qed.

Lemma pick_pdf_truthy (paper : RawPaper) (u : string) :
  pick_pdf paper = Some u → truthy u = true.
Proof.
  unfold pick_pdf.
  destruct (truthy (default "" (raw_openAccessPdf paper))) eqn:E1.
  - destruct (raw_openAccessPdf paper) as [w|]; [|done]. simpl in E1.
    rewrite E1. by intros [= <-].
  - destruct (truthy (default "" (raw_url paper))) eqn:E2; [|done].
    destruct (_ || _); [|done]. rewrite E2. by intros [= <-].
Qed.

(** X6: a paper the merge normalizer keeps is stored with its raw
    title untouched and with show true; its year is not 0; and a venue or
    a pdf link, when stored, is never the empty text. *)
Theorem format_paper_for_yaml_well_formed
    (fromisoformat : string → option datetime)
    (venue_mapping author_name_mapping : gmap string string)
    (paper : RawPaper) (formatted : CanonicalPaper) (y : Z) :
  format_paper_for_yaml fromisoformat venue_mapping author_name_mapping paper
    = Some (formatted, y) →
  title formatted = paper_title paper
  ∧ show formatted = Some true
  ∧ y ≠ 0
  ∧ venue formatted ≠ Some ""
  ∧ pdf formatted ≠ Some "".
Proof.
  unfold format_paper_for_yaml.
  destruct (extract_year fromisoformat paper) as [y'|] eqn:E; [|done].
  intros [= <- <-]. simpl. split_and!; [done|done| | |].
  - by eapply extract_year_nonzero.
  - intros H%map_venue_truthy. done.
  - intros H%pick_pdf_truthy. done.
Qed.

Lemma format_paper_for_yaml_well_formed_witness :
  format_paper_for_yaml fromisoformat_date ∅ ∅ fetched_new
    = Some (merge_paper ∅ ∅ fetched_new, 2023)
  ∧ title (merge_paper ∅ ∅ fetched_new) = paper_title fetched_new
  ∧ show (merge_paper ∅ ∅ fetched_new) = Some true
  ∧ 2023 ≠ 0
  ∧ venue (merge_paper ∅ ∅ fetched_new) ≠ Some ""
  ∧ pdf (merge_paper ∅ ∅ fetched_new) ≠ Some "".
Proof.
  split; [reflexivity|].
  exact (format_paper_for_yaml_well_formed fromisoformat_date ∅ ∅
           fetched_new (merge_paper ∅ ∅ fetched_new) 2023 eq_refl).
Defined.

(** ** Lookups in the dictionary keyed by year *)

Section YearLookup.

Implicit Types (d : gmap Z (list CanonicalPaper)) (y : Z)
  (p : CanonicalPaper).

Lemma lookup_append_to_year d y y' p :
  append_to_year d y p !! y'
  = if decide (y = y') then Some (d !!! y ++ [p]) else d !! y'.
Proof.
  unfold append_to_year. destruct (d !! y) as [old|] eqn:E; cbv zeta.
  - destruct (decide (y = y')) as [<-|Hne].
    + by rewrite lookup_insert_eq.
    + by rewrite lookup_insert_ne.
  - rewrite insert_insert_eq, lookup_total_insert_eq.
    rewrite (lookup_total_alt d), E. simpl.
    destruct (decide (y = y')) as [<-|Hne].
    + by rewrite lookup_insert_eq.
    + by rewrite lookup_insert_ne.
Qed.

Lemma elem_of_to_year_groups d (g : YearGroup) :
  g ∈ to_year_groups d ↔ ∃ l, d !! year g = Some l ∧ papers g = l.
Proof.
  unfold to_year_groups. change (map ?f ?k) with (f <$> k).
  rewrite list_elem_of_fmap. split.
  - intros (y & -> & Hy). rewrite sorted_reverse_Permutation in Hy.
    apply elem_of_keys in Hy as [l Hl]. exists l. simpl.
    by rewrite lookup_total_alt, Hl.
  - intros (l & Hl & Hg). exists (year g). split.
    + destruct g as [y ps]. simpl in *. subst.
      by rewrite lookup_total_alt, Hl.
    + rewrite sorted_reverse_Permutation. apply elem_of_keys. by exists l.
Qed.

End YearLookup.

Lemma extend_app (entry : option (list CanonicalPaper))
    (more1 more2 : list CanonicalPaper) :
  extend (extend entry more1) more2 = extend entry (more1 ++ more2).
Proof.
  destruct more1 as [|p more1]; [done|].
  destruct more2 as [|q more2]; simpl; [by rewrite app_nil_r|].
  by rewrite <-app_assoc.
Qed.

Lemma lookup_append_to_year_extend
    (d : gmap Z (list CanonicalPaper)) (y y' : Z) (p : CanonicalPaper) :
  append_to_year d y p !! y'
  = extend (d !! y') (if decide (y = y') then [p] else []).
Proof.
  rewrite lookup_append_to_year.
  destruct (decide (y = y')) as [<-|Hne]; [|done].
  simpl. by rewrite lookup_total_alt.
Qed.

(** ** The full refresh, group by group *)

Section Refresh.

Variable fromisoformat : string → option datetime.
Variables venue_mapping author_name_mapping : gmap string string.

Lemma refresh_fold_lookup (papers : list RawPaper)
    (st : gmap Z (list CanonicalPaper) * nat) (y : Z) :
  (fold_left (format_step fromisoformat venue_mapping author_name_mapping)
     papers st).1 !! y
  = extend (st.1 !! y)
      (refreshed_of_year fromisoformat venue_mapping author_name_mapping
         y papers).
Proof.
  revert st. induction papers as [|paper l IH]; intros [d n]; [done|].
  cbn [fold_left]. rewrite IH. unfold refreshed_of_year, format_step.
  destruct (extract_year fromisoformat paper) as [y0|] eqn:E; cbn [fst].
  - rewrite lookup_append_to_year_extend, extend_app. f_equal.
    destruct (decide (y0 = y)) as [->|Hne].
    + by rewrite filter_cons_True.
    + rewrite filter_cons_False; [done|]. congruence.
  - rewrite filter_cons_False; [done|]. congruence.
Qed.

End Refresh.

(** X7: the full-refresh formatter returns, for each year some paper
    of the batch resolves to, one group holding the stored form of every
    such paper in batch order, and no other group: a group is in the
    output exactly when it is not empty and holds the batch's papers of
    its year. *)
Theorem format_papers_for_yaml_groups
    (fromisoformat : string → option datetime)
    (venue_mapping author_name_mapping : gmap string string)
    (batch : list RawPaper) (g : YearGroup) :
  g ∈ format_papers_for_yaml fromisoformat venue_mapping author_name_mapping
        batch
  ↔ papers g ≠ []
    ∧ papers g
      = refreshed_of_year fromisoformat venue_mapping author_name_mapping
          (year g) batch.
Proof.
  unfold format_papers_for_yaml. rewrite elem_of_to_year_groups.
  rewrite refresh_fold_lookup. cbn [fst]. rewrite lookup_empty.
  destruct (refreshed_of_year _ _ _ (year g) batch) as [|p l]; simpl.
  - split; [by intros (l & ? & _)|by intros [H E]; rewrite E in H].
  - split.
    + intros (l' & [= <-] & ->). done.
    + intros [_ ->]. by eexists.
Qed.

(** ** The merge loop, step by step *)

Section MergeSteps.

Variable fromisoformat : string → option datetime.
Variables venue_mapping author_name_mapping : gmap string string.
Variable hidden_signatures : gset string.

Let normalize :=
  format_paper_for_yaml fromisoformat venue_mapping author_name_mapping.
Let signature_in_batch :=
  new_signature fromisoformat venue_mapping author_name_mapping.
Let step :=
  merge_step fromisoformat venue_mapping author_name_mapping hidden_signatures.

(** A round either leaves the state alone or files one paper. *)
Lemma merge_step_cases (st : merge_state) (paper : RawPaper) :
  (step st paper = st
   ∧ ∀ s, signature_in_batch paper = Some s →
          s ∈ existing_signatures st ∨ s ∈ hidden_signatures)
  ∨ (∃ formatted y,
       normalize paper = Some (formatted, y)
       ∧ (create_paper_signature formatted ∉ existing_signatures st)
       ∧ (create_paper_signature formatted ∉ hidden_signatures)
       ∧ step st paper =
           {| existing_by_year :=
                append_to_year (existing_by_year st) y formatted;
              existing_signatures :=
                existing_signatures st ∪ {[create_paper_signature formatted]};
              new_papers_added := S (new_papers_added st) |}).
Proof.
  unfold step, merge_step, signature_in_batch, new_signature, normalize.
  destruct (format_paper_for_yaml _ _ _ paper) as [[fp y]|]; [|by left].
  destruct (decide (create_paper_signature fp ∈ existing_signatures st))
    as [Hin|Hnin].
  { rewrite (bool_decide_eq_true_2 _ Hin). left. split; [done|].
    intros s [= <-]. by left. }
  rewrite (bool_decide_eq_false_2 _ Hnin). cbn [orb].
  destruct (decide (create_paper_signature fp ∈ hidden_signatures))
    as [Hh|Hnh].
  { rewrite (bool_decide_eq_true_2 _ Hh). left. split; [done|].
    intros s [= <-]. by right. }
  rewrite (bool_decide_eq_false_2 _ Hnh). right. by exists fp, y.
Qed.

Lemma merge_loop_lookup (new_papers : list RawPaper) (st : merge_state)
    (y : Z) :
  ∃ added,
    existing_by_year (fold_left step new_papers st) !! y
    = extend (existing_by_year st !! y) added
    ∧ Forall (λ q, ∃ paper, paper ∈ new_papers
                            ∧ normalize paper = Some (q, y)) added.
Proof.
  revert st. induction new_papers as [|paper l IH]; intros st.
  { by exists []. }
  cbn [fold_left]. destruct (IH (step st paper)) as (added & Hl & Hadded).
  assert (Forall (λ q, ∃ paper0, paper0 ∈ paper :: l
                                 ∧ normalize paper0 = Some (q, y)) added)
    as Hadded'.
  { eapply Forall_impl; [done|]. intros q (rp & ? & ?). exists rp.
    split; [by right|done]. }
  destruct (merge_step_cases st paper)
    as [[E _]|(fp & y0 & Hfmt & _ & _ & E)]; rewrite E in Hl |- *.
  - by exists added.
  - cbn [existing_by_year] in Hl.
    rewrite lookup_append_to_year_extend, extend_app in Hl.
    eexists. split; [done|]. apply Forall_app. split; [|done].
    destruct (decide (y0 = y)) as [->|]; [|done].
    apply Forall_singleton. exists paper. split; [by left|done].
Qed.

Lemma merge_loop_length (new_papers : list RawPaper) (st : merge_state) :
  let st' := fold_left step new_papers st in
  (length (map_papers (existing_by_year st')) + new_papers_added st
   = length (map_papers (existing_by_year st)) + new_papers_added st')%nat
  ∧ (new_papers_added st ≤ new_papers_added st')%nat
  ∧ (new_papers_added st' ≤ new_papers_added st + length new_papers)%nat.
Proof.
  revert st. induction new_papers as [|paper l IH]; intros st; simpl.
  { lia. }
  destruct (IH (step st paper)) as (H1 & H2 & H3).
  destruct (merge_step_cases st paper)
    as [[E _]|(fp & y0 & _ & _ & _ & E)]; rewrite E in H1, H2, H3.
  - fold step. rewrite E. lia.
  - fold step. rewrite E. cbn [existing_by_year new_papers_added] in *.
    rewrite (Permutation_length (map_papers_append _ _ _)) in H1.
    simpl in H1. lia.
Qed.

(** Nothing is added exactly when every fetched paper that has a year
    has a signature seen before or hidden. *)
Lemma merge_loop_nothing_new (new_papers : list RawPaper) (st : merge_state) :
  new_papers_added (fold_left step new_papers st) = new_papers_added st
  ↔ ∀ paper s, paper ∈ new_papers → signature_in_batch paper = Some s →
               s ∈ existing_signatures st ∨ s ∈ hidden_signatures.
Proof.
  revert st. induction new_papers as [|paper l IH]; intros st.
  { split; [by intros _ p s Hp; inv Hp|done]. }
  cbn [fold_left].
  destruct (merge_step_cases st paper)
    as [[E Hseen]|(fp & y0 & Hfmt & H1 & H2 & E)]; rewrite E.
  - rewrite IH. split.
    + intros H p s [->|Hp]%elem_of_cons; [apply Hseen|by apply H].
    + intros H p s Hp. apply H. by right.
  - destruct (merge_loop_length l
                {| existing_by_year :=
                     append_to_year (existing_by_year st) y0 fp;
                   existing_signatures :=
                     existing_signatures st ∪ {[create_paper_signature fp]};
                   new_papers_added := S (new_papers_added st) |})
      as (_ & Hmono & _).
    cbn [new_papers_added] in Hmono. split; [lia|].
    intros H. exfalso.
    destruct (H paper (create_paper_signature fp)) as [?|?]; [by left| |done..].
    unfold signature_in_batch, new_signature. fold normalize.
    by rewrite Hfmt.
Qed.

Lemma merge_loop_identity (new_papers : list RawPaper) (st : merge_state) :
  (∀ paper s, paper ∈ new_papers → signature_in_batch paper = Some s →
              s ∈ existing_signatures st ∨ s ∈ hidden_signatures) →
  fold_left step new_papers st = st.
Proof.
  revert st. induction new_papers as [|paper l IH]; intros st H; [done|].
  cbn [fold_left].
  destruct (merge_step_cases st paper)
    as [[E _]|(fp & y0 & Hfmt & H1 & H2 & E)].
  - rewrite E. apply IH. intros p s Hp. apply H. by right.
  - exfalso.
    destruct (H paper (create_paper_signature fp)) as [?|?]; [by left| |done..].
    unfold signature_in_batch, new_signature. fold normalize.
    by rewrite Hfmt.
Qed.

Lemma merge_loop_signatures_grow (new_papers : list RawPaper)
    (st : merge_state) (s : string) :
  s ∈ existing_signatures st →
  s ∈ existing_signatures (fold_left step new_papers st).
Proof.
  revert st. induction new_papers as [|paper l IH]; intros st H; [done|].
  cbn [fold_left]. apply IH. by apply merge_step_seen.
Qed.

(** After the loop every fetched paper that has a year has its signature
    in the seen set, when the hidden ones were seen from the start. *)
Lemma merge_loop_covered (new_papers : list RawPaper) (st : merge_state) :
  hidden_signatures ⊆ existing_signatures st →
  ∀ paper s, paper ∈ new_papers → signature_in_batch paper = Some s →
             s ∈ existing_signatures (fold_left step new_papers st).
Proof.
  revert st. induction new_papers as [|paper l IH]; intros st Hh p s Hp Hs.
  { by inv Hp. }
  cbn [fold_left].
  assert (hidden_signatures ⊆ existing_signatures (step st paper)) as Hh'.
  { intros x Hx. by apply merge_step_seen, Hh. }
  apply elem_of_cons in Hp as [->|Hp]; [|by eapply IH].
  apply merge_loop_signatures_grow.
  destruct (merge_step_cases st paper)
    as [[E Hseen]|(fp & y0 & Hfmt & H1 & H2 & E)]; rewrite E.
  - destruct (Hseen s Hs); [done|by apply Hh].
  - cbn [existing_signatures].
    unfold signature_in_batch, new_signature in Hs. fold normalize in Hs.
    rewrite Hfmt in Hs. injection Hs as <-. set_solver.
Qed.

(** Every seen signature is carried by a paper of the dictionary, if it
    was so at the start. *)
Lemma merge_loop_backed (new_papers : list RawPaper) (st : merge_state) :
  (∀ s, s ∈ existing_signatures st →
        ∃ p, p ∈ map_papers (existing_by_year st)
             ∧ create_paper_signature p = s) →
  ∀ s, s ∈ existing_signatures (fold_left step new_papers st) →
       ∃ p, p ∈ map_papers (existing_by_year (fold_left step new_papers st))
            ∧ create_paper_signature p = s.
Proof.
  revert st. induction new_papers as [|paper l IH]; intros st H; [done|].
  cbn [fold_left]. apply IH.
  destruct (merge_step_cases st paper)
    as [[E _]|(fp & y0 & Hfmt & H1 & H2 & E)]; rewrite E; [done|].
  cbn [existing_signatures existing_by_year]. intros s Hs.
  apply elem_of_union in Hs as [Hs|Hs%elem_of_singleton].
  - destruct (H s Hs) as (p & Hp & Hsig). exists p. split; [|done].
    rewrite map_papers_append. by right.
  - exists fp. split; [|done]. rewrite map_papers_append. by left.
Qed.

End MergeSteps.

(** ** What a merge keeps and what it adds *)

Section MergeFrame.

Implicit Types (d : gmap Z (list CanonicalPaper)) (l : list YearGroup).

Lemma index_by_year_lookup_last l1 l2 (g : YearGroup) :
  year g ∉ year <$> l2 →
  index_by_year (l1 ++ g :: l2) !! year g = Some (papers g).
Proof.
  intros H. rewrite index_by_year_fold, fold_left_app. cbn [fold_left].
  rewrite (fold_insert_lookup_notin _ _ _ H).
  unfold insert_group. by rewrite lookup_insert_eq.
Qed.

Lemma fold_insert_lookup_Some l d (y : Z) (ps : list CanonicalPaper) :
  fold_left insert_group l d !! y = Some ps →
  d !! y = Some ps ∨ ∃ g, g ∈ l ∧ year g = y ∧ papers g = ps.
Proof.
  revert d. induction l as [|g l IH]; intros d H; [by left|].
  cbn [fold_left] in H. destruct (IH _ H) as [Hd|(g' & Hg' & ? & ?)].
  - unfold insert_group in Hd.
    destruct (decide (year g = y)) as [E|Hne].
    + rewrite E, lookup_insert_eq in Hd. injection Hd as <-.
      right. exists g. split; [by left|done].
    + rewrite lookup_insert_ne in Hd by done. by left.
  - right. exists g'. split; [by right|done].
Qed.

Lemma map_papers_fold_insert_fresh l d :
  NoDup (year <$> l) → (∀ g, g ∈ l → d !! year g = None) →
  map_papers (fold_left insert_group l d) ≡ₚ map_papers d ++ dataset_papers l.
Proof.
  revert d. induction l as [|g l IH]; intros d Hnd Hfresh.
  { by rewrite app_nil_r. }
  rewrite fmap_cons, NoDup_cons in Hnd. destruct Hnd as [Hg Hnd].
  cbn [fold_left]. rewrite IH; [|done|].
  - unfold insert_group. rewrite map_papers_insert_fresh.
    + rewrite dataset_papers_cons, !app_assoc. f_equiv.
      apply Permutation_app_comm.
    + apply Hfresh. by left.
  - intros g' Hg'. unfold insert_group. rewrite lookup_insert_ne.
    + apply Hfresh. by right.
    + intros E. apply Hg. rewrite E. by apply list_elem_of_fmap_2.
Qed.

Lemma map_papers_index_by_year l :
  NoDup (year <$> l) → map_papers (index_by_year l) ≡ₚ dataset_papers l.
Proof.
  intros H. rewrite index_by_year_fold.
  by rewrite map_papers_fold_insert_fresh.
Qed.

End MergeFrame.

Lemma format_paper_for_yaml_eq
    (fromisoformat : string → option datetime)
    (venue_mapping author_name_mapping : gmap string string)
    (paper : RawPaper) (formatted : CanonicalPaper) (y : Z) :
  format_paper_for_yaml fromisoformat venue_mapping author_name_mapping paper
    = Some (formatted, y) →
  formatted = merge_paper venue_mapping author_name_mapping paper
  ∧ extract_year fromisoformat paper = Some y.
Proof.
  unfold format_paper_for_yaml.
  destruct (extract_year fromisoformat paper) as [y'|]; [|done].
  by intros [= <- <-].
Qed.

Lemma hidden_signatures_seen (existing_papers : list YearGroup) :
  get_hidden_signatures existing_papers
  ⊆ get_existing_paper_signatures existing_papers.
Proof.
  intros s (p & Hp & _ & Hs)%elem_of_hidden_signatures.
  apply elem_of_existing_signatures. by exists p.
Qed.

Lemma merge_lookup_last
    (fromisoformat : string → option datetime)
    (venue_mapping author_name_mapping : gmap string string)
    (before after : list YearGroup) (g : YearGroup)
    (new_papers : list RawPaper) :
  year g ∉ year <$> after →
  ∃ added,
    existing_by_year
      (fold_left
         (merge_step fromisoformat venue_mapping author_name_mapping
            (get_hidden_signatures (before ++ g :: after)))
         new_papers
         {| existing_by_year := index_by_year (before ++ g :: after);
            existing_signatures :=
              get_existing_paper_signatures (before ++ g :: after);
            new_papers_added := 0 |}) !! year g
    = Some (papers g ++ added)
    ∧ Forall (λ q, ∃ paper, paper ∈ new_papers
                            ∧ format_paper_for_yaml fromisoformat
                                venue_mapping author_name_mapping paper
                              = Some (q, year g)) added.
Proof.
  intros Hlast.
  set (st := {| existing_by_year := _ |}).
  destruct (merge_loop_lookup fromisoformat venue_mapping
              author_name_mapping
              (get_hidden_signatures (before ++ g :: after))
              new_papers st (year g)) as (added & Hl & Hadded).
  exists added. split; [|done].
  rewrite Hl. subst st. cbn [existing_by_year].
  rewrite (index_by_year_lookup_last _ _ _ Hlast).
  destruct added; simpl; [by rewrite app_nil_r|done].
Qed.

(** X8: a merge keeps the stored groups.  The last stored group of a
    year (the only one, when years are not repeated) is found in the
    result under the same year with its papers first, unchanged and in
    order, followed by the papers the merge added for that year, each the
    stored form, with show true, of a fetched paper of that year. *)
Theorem merge_keeps_stored_groups
    (fromisoformat : string → option datetime)
    (venue_mapping author_name_mapping : gmap string string)
    (before after : list YearGroup) (g : YearGroup)
    (new_papers : list RawPaper) :
  year g ∉ year <$> after →
  ∃ added,
    {| year := year g; papers := papers g ++ added |}
      ∈ (merge_new_papers fromisoformat venue_mapping author_name_mapping
           (before ++ g :: after) new_papers).1
    ∧ Forall (λ q, show q = Some true
                   ∧ ∃ paper, paper ∈ new_papers
                              ∧ format_paper_for_yaml fromisoformat
                                  venue_mapping author_name_mapping paper
                                = Some (q, year g)) added.
Proof.
  intros Hlast.
  destruct (merge_lookup_last fromisoformat venue_mapping
              author_name_mapping before after g new_papers Hlast)
    as (added & Hl & Hadded).
  exists added. split.
  - unfold merge_new_papers. cbn [fst].
    apply elem_of_to_year_groups. cbn [year papers]. by eexists.
  - eapply Forall_impl; [done|]. intros q (rp & Hrp & Hfmt).
    split; [|by exists rp].
    by destruct (format_paper_for_yaml_eq _ _ _ _ _ _ Hfmt) as [-> _].
Qed.

Lemma merge_keeps_stored_groups_witness :
  (2022 ∉ year <$> [ {| year := 2021; papers := [stored_hidden] |} ])
  ∧ ∃ added,
      {| year := 2022; papers := [stored_visible] ++ added |}
        ∈ (merge_new_papers fromisoformat_date ∅ ∅ sample_dataset
             batch_2022).1
      ∧ Forall (λ q, show q = Some true
                     ∧ ∃ paper, paper ∈ batch_2022
                                ∧ format_paper_for_yaml fromisoformat_date
                                    ∅ ∅ paper = Some (q, 2022)) added.
Proof.
  assert (2022 ∉ year <$> [ {| year := 2021; papers := [stored_hidden] |} ])
    as H.
  { apply (bool_decide_unpack _). by vm_compute. }
  split; [exact H|].
  exact (merge_keeps_stored_groups fromisoformat_date ∅ ∅
           [] [ {| year := 2021; papers := [stored_hidden] |} ]
           {| year := 2022; papers := [stored_visible] |} batch_2022 H).
Defined.

(** In that merge the group of 2022 ends with the one paper added to
    it, and the fetched copy of the stored paper is skipped. *)
Example merge_batch_2022 :
  merge_new_papers fromisoformat_date ∅ ∅ sample_dataset batch_2022
  = ([ {| year := 2023;
          papers := [ {| title := "Probing Language Models";
                         authors := "Jane Doe";
                         venue := Some "NAACL";
                         pdf := Some "https://example.org/p.pdf";
                         show := Some true |} ] |};
       {| year := 2022; papers := [stored_visible; stored_2022] |};
       {| year := 2021; papers := [stored_hidden] |} ], 2%nat).
Proof. by vm_compute. Qed.

(** X9: every paper of a merged dataset is either a stored paper, in
    a group of the year it was stored under, or the stored form, with show
    true, of a fetched paper whose year is that of the group. *)
Theorem merge_output_origin
    (fromisoformat : string → option datetime)
    (venue_mapping author_name_mapping : gmap string string)
    (existing_papers : list YearGroup) (new_papers : list RawPaper) :
  Forall
    (λ g',
       Forall
         (λ q,
            (∃ g, g ∈ existing_papers ∧ year g = year g' ∧ q ∈ papers g)
            ∨ (show q = Some true
               ∧ ∃ paper, paper ∈ new_papers
                          ∧ format_paper_for_yaml fromisoformat
                              venue_mapping author_name_mapping paper
                            = Some (q, year g')))
         (papers g'))
    (merge_new_papers fromisoformat venue_mapping author_name_mapping
       existing_papers new_papers).1.
Proof.
  apply Forall_forall. intros g' Hg'. apply Forall_forall. intros q Hq.
  unfold merge_new_papers in Hg'. cbn [fst] in Hg'.
  apply elem_of_to_year_groups in Hg' as (l & Hl & Hpapers).
  rewrite Hpapers in Hq. clear Hpapers.
  set (st := {| existing_by_year := _ |}) in Hl.
  destruct (merge_loop_lookup fromisoformat venue_mapping
              author_name_mapping
              (get_hidden_signatures existing_papers)
              new_papers st (year g')) as (added & Hl' & Hadded).
  rewrite Hl in Hl'. subst st. cbn [existing_by_year] in Hl'.
  assert (∀ ps, index_by_year existing_papers !! year g' = Some ps →
                q ∈ ps →
                ∃ g, g ∈ existing_papers ∧ year g = year g' ∧ q ∈ papers g)
    as Hstored.
  { intros ps Hps Hin. rewrite index_by_year_fold in Hps.
    apply fold_insert_lookup_Some in Hps as [Hps|(g & Hg & Hy & <-)].
    - by rewrite lookup_empty in Hps.
    - by exists g. }
  destruct added as [|a added]; simpl in Hl'.
  { left. by eapply Hstored. }
  injection Hl' as ->. apply elem_of_app in Hq as [Hq|Hq].
  - destruct (index_by_year existing_papers !! year g') as [ps|] eqn:E;
      simpl in Hq; [|by inv Hq].
    left. by eapply Hstored.
  - right. rewrite Forall_forall in Hadded.
    destruct (Hadded q Hq) as (rp & Hrp & Hfmt).
    split; [|by exists rp].
    by destruct (format_paper_for_yaml_eq _ _ _ _ _ _ Hfmt) as [-> _].
Qed.

(** X10: when no year is stored twice, the merged dataset holds the
    stored papers and as many more as the addition count says; the count
    never exceeds the size of the batch. *)
Theorem merge_count_is_growth
    (fromisoformat : string → option datetime)
    (venue_mapping author_name_mapping : gmap string string)
    (existing_papers : list YearGroup) (new_papers : list RawPaper) :
  NoDup (year <$> existing_papers) →
  let result :=
    merge_new_papers fromisoformat venue_mapping author_name_mapping
      existing_papers new_papers in
  length (dataset_papers result.1)
  = (length (dataset_papers existing_papers) + result.2)%nat
  ∧ (result.2 ≤ length new_papers)%nat.
Proof.
  intros Hnd result. subst result. unfold merge_new_papers. cbn [fst snd].
  set (st := {| existing_by_year := _ |}).
  destruct (merge_loop_length fromisoformat venue_mapping
              author_name_mapping
              (get_hidden_signatures existing_papers) new_papers st)
    as (H1 & _ & H3).
  subst st. cbn [existing_by_year new_papers_added] in *.
  rewrite (Permutation_length (dataset_papers_to_year_groups _)).
  rewrite (Permutation_length (map_papers_index_by_year _ Hnd)) in H1.
  lia.
Qed.

Lemma merge_count_is_growth_witness :
  NoDup (year <$> sample_dataset)
  ∧ length (dataset_papers
              (merge_new_papers fromisoformat_date ∅ ∅ sample_dataset
                 sample_batch).1)
    = (length (dataset_papers sample_dataset)
       + (merge_new_papers fromisoformat_date ∅ ∅ sample_dataset
            sample_batch).2)%nat
  ∧ ((merge_new_papers fromisoformat_date ∅ ∅ sample_dataset
        sample_batch).2 ≤ length sample_batch)%nat.
Proof.
  assert (NoDup (year <$> sample_dataset)) as H.
  { apply (bool_decide_unpack _). by vm_compute. }
  split; [exact H|].
  exact (merge_count_is_growth fromisoformat_date ∅ ∅ sample_dataset
           sample_batch H).
Defined.

(** X11: the addition count is 0 exactly when every fetched paper the
    normalizer keeps has the signature of a stored paper. *)
Theorem merge_nothing_new_iff
    (fromisoformat : string → option datetime)
    (venue_mapping author_name_mapping : gmap string string)
    (existing_papers : list YearGroup) (new_papers : list RawPaper) :
  (merge_new_papers fromisoformat venue_mapping author_name_mapping
     existing_papers new_papers).2 = 0%nat
  ↔ ∀ paper s,
      paper ∈ new_papers →
      new_signature fromisoformat venue_mapping author_name_mapping paper
        = Some s →
      ∃ p, p ∈ dataset_papers existing_papers
           ∧ create_paper_signature p = s.
Proof.
  unfold merge_new_papers. cbn [snd].
  set (st := {| existing_by_year := _ |}).
  change 0%nat with (new_papers_added st).
  rewrite merge_loop_nothing_new. subst st. cbn [existing_signatures].
  split; intros H paper s Hp Hs.
  - apply elem_of_existing_signatures.
    destruct (H paper s Hp Hs) as [?|?]; [done|].
    by apply hidden_signatures_seen.
  - left. apply elem_of_existing_signatures. by eapply H.
Qed.

(** X12: merging the same batch a second time adds nothing.  When no
    year is stored twice, the result of a merge, merged again with the
    batch, comes back unchanged with an addition count of 0. *)
Theorem merge_twice
    (fromisoformat : string → option datetime)
    (venue_mapping author_name_mapping : gmap string string)
    (existing_papers : list YearGroup) (new_papers : list RawPaper) :
  NoDup (year <$> existing_papers) →
  let merge :=
    merge_new_papers fromisoformat venue_mapping author_name_mapping in
  merge (merge existing_papers new_papers).1 new_papers
  = ((merge existing_papers new_papers).1, 0%nat).
Proof.
  intros Hnd merge. subst merge.
  set (out := (merge_new_papers _ _ _ existing_papers new_papers).1).
  assert (∀ paper s,
            paper ∈ new_papers →
            new_signature fromisoformat venue_mapping author_name_mapping
              paper = Some s →
            s ∈ get_existing_paper_signatures out) as Hcovered.
  { intros paper s Hp Hs. apply elem_of_existing_signatures.
    subst out. unfold merge_new_papers. cbn [fst].
    set (st := {| existing_by_year := _ |}).
    assert (s ∈ existing_signatures
                  (fold_left
                     (merge_step fromisoformat venue_mapping
                        author_name_mapping
                        (get_hidden_signatures existing_papers))
                     new_papers st)) as Hin.
    { eapply merge_loop_covered; [|done..]. subst st.
      apply hidden_signatures_seen. }
    apply merge_loop_backed in Hin as (p & Hp' & Hsig).
    - exists p. split; [|done]. by rewrite dataset_papers_to_year_groups.
    - subst st. cbn [existing_signatures existing_by_year].
      intros s' (p & Hp' & Hsig)%elem_of_existing_signatures.
      exists p. split; [|done]. by rewrite map_papers_index_by_year. }
  unfold merge_new_papers at 1.
  rewrite merge_loop_identity.
  - cbn [existing_by_year new_papers_added]. f_equal.
    apply to_year_groups_index_by_year. subst out.
    unfold merge_new_papers. cbn [fst]. apply to_year_groups_descending.
  - cbn [existing_signatures]. intros paper s Hp Hs. left.
    by eapply Hcovered.
Qed.

Lemma merge_twice_witness :
  NoDup (year <$> sample_dataset)
  ∧ merge_new_papers fromisoformat_date ∅ ∅
      (merge_new_papers fromisoformat_date ∅ ∅ sample_dataset
         sample_batch).1 sample_batch
    = ((merge_new_papers fromisoformat_date ∅ ∅ sample_dataset
          sample_batch).1, 0%nat).
Proof.
  assert (NoDup (year <$> sample_dataset)) as H.
  { apply (bool_decide_unpack _). by vm_compute. }
  split; [exact H|].
  exact (merge_twice fromisoformat_date ∅ ∅ sample_dataset sample_batch H).
Defined.

(** X13: a merge adds no paper under a signature the dataset already
    has, hidden or not.  When no year is stored twice, the merged dataset
    holds exactly as many papers with the signature of a stored paper as
    the stored dataset did, and the result is what the merge gives once
    the fetched papers with that signature are taken out of the batch. *)
Theorem merge_adds_only_new_signatures
    (fromisoformat : string → option datetime)
    (venue_mapping author_name_mapping : gmap string string)
    (existing_papers : list YearGroup) (new_papers : list RawPaper)
    (stored : CanonicalPaper) :
  NoDup (year <$> existing_papers) →
  stored ∈ dataset_papers existing_papers →
  let s := create_paper_signature stored in
  let merge :=
    merge_new_papers fromisoformat venue_mapping author_name_mapping
      existing_papers in
  count_signature s (dataset_papers (merge new_papers).1)
  = count_signature s (dataset_papers existing_papers)
  ∧ merge new_papers
    = merge (filter
               (λ paper,
                  new_signature fromisoformat venue_mapping
                    author_name_mapping paper ≠ Some s)
               new_papers).
Proof.
  intros Hnd Hin s merge.
  assert (s ∈ get_existing_paper_signatures existing_papers) as Hseen.
  { apply elem_of_existing_signatures. by exists stored. }
  subst merge. unfold merge_new_papers. cbn [fst]. split.
  - rewrite (count_signature_Permutation _ _ _
               (dataset_papers_to_year_groups _)).
    rewrite merge_loop_count by done. cbn [existing_by_year].
    apply count_signature_Permutation. by apply map_papers_index_by_year.
  - by rewrite merge_loop_filter.
Qed.

Lemma merge_adds_only_new_signatures_witness :
  NoDup (year <$> sample_dataset)
  ∧ stored_visible ∈ dataset_papers sample_dataset
  ∧ count_signature (create_paper_signature stored_visible)
      (dataset_papers
         (merge_new_papers fromisoformat_date ∅ ∅ sample_dataset
            batch_2022).1)
    = count_signature (create_paper_signature stored_visible)
        (dataset_papers sample_dataset)
  ∧ merge_new_papers fromisoformat_date ∅ ∅ sample_dataset batch_2022
    = merge_new_papers fromisoformat_date ∅ ∅ sample_dataset
        (filter
           (λ paper,
              new_signature fromisoformat_date ∅ ∅ paper
              ≠ Some (create_paper_signature stored_visible))
           batch_2022).
Proof.
  assert (NoDup (year <$> sample_dataset)) as H.
  { apply (bool_decide_unpack _). by vm_compute. }
  assert (stored_visible ∈ dataset_papers sample_dataset) as Hin by left.
  split; [exact H|]. split; [exact Hin|].
  exact (merge_adds_only_new_signatures fromisoformat_date ∅ ∅
           sample_dataset batch_2022 stored_visible H Hin).
Defined.

(** The batch of that instance holds the stored paper as the service
    returns it, and the filter takes it out. *)
Example batch_2022_filtered :
  new_signature fromisoformat_date ∅ ∅ fetched_visible
    = Some (create_paper_signature stored_visible)
  ∧ filter
      (λ paper,
         new_signature fromisoformat_date ∅ ∅ paper
         ≠ Some (create_paper_signature stored_visible))
      batch_2022
    = [fetched_2022; fetched_new].
Proof. split; by vm_compute. Qed.

(** ** More on the hide operation *)

Section HideMore.

Variable target : string.

Lemma hide_in_papers_again (l l' : list CanonicalPaper) :
  hide_in_papers target l = Some l' → hide_in_papers target l' = Some l'.
Proof.
  revert l'. induction l as [|p l IH]; intros l'; simpl; [done|].
  destruct (String.eqb (create_paper_signature p) target) eqn:E.
  - intros [= <-]. simpl. by rewrite signature_set_hidden, E.
  - intros (l0 & H & ->)%fmap_Some. simpl. by rewrite E, (IH _ H).
Qed.

Lemma hide_in_groups_again (ds ds' : list YearGroup) :
  hide_in_groups target ds = Some ds' → hide_in_groups target ds' = Some ds'.
Proof.
  revert ds'. induction ds as [|g ds IH]; intros ds'; simpl; [done|].
  destruct (hide_in_papers target (papers g)) as [l|] eqn:Hg.
  - intros [= <-]. simpl. by rewrite (hide_in_papers_again _ _ Hg).
  - intros (ds0 & H & ->)%fmap_Some. simpl. by rewrite Hg, (IH _ H).
Qed.

(** Hiding touches show fields only. *)
Lemma hide_in_papers_frame (l l' : list CanonicalPaper) :
  hide_in_papers target l = Some l' →
  set_hidden <$> l' = set_hidden <$> l.
Proof.
  intros (ps1 & p & ps2 & -> & _ & _ & ->)%hide_in_papers_Some.
  by rewrite !fmap_app, !fmap_cons.
Qed.

Lemma hide_in_groups_frame (ds ds' : list YearGroup) :
  hide_in_groups target ds = Some ds' →
  year <$> ds' = year <$> ds
  ∧ (λ g, set_hidden <$> papers g) <$> ds'
    = (λ g, set_hidden <$> papers g) <$> ds.
Proof.
  intros (gs1 & g & gs2 & ps1 & p & ps2 & -> & Hg & _ & _ & ->)
    %hide_in_groups_Some.
  rewrite !fmap_app, !fmap_cons. cbn [year papers]. split; [done|].
  by rewrite Hg, !fmap_app, !fmap_cons.
Qed.

End HideMore.

(** X14: hiding is idempotent.  A second call with the same title and
    author returns what the first returned and leaves the dataset as the
    first call left it. *)
Theorem mark_hidden_twice
    (papers_data : list YearGroup) (wanted : string)
    (first_author : option string) :
  let once := mark_paper_as_hidden papers_data wanted first_author in
  mark_paper_as_hidden once.1 wanted first_author = once.
Proof.
  intros once. subst once. unfold mark_paper_as_hidden.
  destruct (hide_in_groups _ papers_data) as [ds'|] eqn:E; cbn [fst].
  - by rewrite (hide_in_groups_again _ _ _ E).
  - by rewrite E.
Qed.

(** X15: a call changes show fields only, and only towards hidden.
    The years, the number and order of the papers of each group, and the
    title, authors, venue and pdf of every paper are as before; the set of
    signatures of the dataset is the same; every signature hidden before
    is hidden after; and when the call returns true the target signature
    is hidden after it. *)
Theorem mark_hidden_frame
    (papers_data : list YearGroup) (wanted : string)
    (first_author : option string) :
  let result := mark_paper_as_hidden papers_data wanted first_author in
  year <$> result.1 = year <$> papers_data
  ∧ (λ g, set_hidden <$> papers g) <$> result.1
    = (λ g, set_hidden <$> papers g) <$> papers_data
  ∧ get_existing_paper_signatures result.1
    = get_existing_paper_signatures papers_data
  ∧ get_hidden_signatures papers_data ⊆ get_hidden_signatures result.1
  ∧ (result.2 = true →
     target_signature wanted first_author ∈ get_hidden_signatures result.1).
Proof.
  intros result. subst result. unfold mark_paper_as_hidden.
  destruct (hide_in_groups _ papers_data) as [ds'|] eqn:E; cbn [fst snd];
    [|by split_and!].
  destruct (hide_in_groups_frame _ _ _ E) as [Hy Hp].
  destruct (hide_in_groups_Some _ _ _ E)
    as (gs1 & g & gs2 & ps1 & p & ps2 & -> & Hg & _ & Hsig & ->).
  assert (∀ q,
            q ∈ dataset_papers (gs1 ++ g :: gs2)
            ↔ q = p ∨ q ∈ dataset_papers gs1 ++ ps1 ++ ps2
                        ++ dataset_papers gs2) as Hold.
  { intros q. rewrite dataset_papers_app, dataset_papers_cons, Hg.
    rewrite !elem_of_app, elem_of_cons. tauto. }
  assert (∀ q,
            q ∈ dataset_papers
                  (gs1 ++ {| year := year g;
                             papers := ps1 ++ set_hidden p :: ps2 |} :: gs2)
            ↔ q = set_hidden p ∨ q ∈ dataset_papers gs1 ++ ps1 ++ ps2
                                   ++ dataset_papers gs2) as Hnew.
  { intros q. rewrite dataset_papers_app, dataset_papers_cons.
    cbn [papers].
    rewrite !elem_of_app, elem_of_cons. tauto. }
  split_and!; [done|done| | |].
  - apply set_eq. intros s. rewrite !elem_of_existing_signatures. split.
    + intros (q & [->|Hq]%Hnew & <-).
      * exists p. split; [apply Hold; by left|done].
      * exists q. split; [apply Hold; by right|done].
    + intros (q & [->|Hq]%Hold & <-).
      * exists (set_hidden p). split; [apply Hnew; by left|done].
      * exists q. split; [apply Hnew; by right|done].
  - intros s. rewrite !elem_of_hidden_signatures.
    intros (q & [->|Hq]%Hold & Hshow & <-).
    + exists (set_hidden p). split; [apply Hnew; by left|done].
    + exists q. split; [apply Hnew; by right|done].
  - intros _. apply elem_of_hidden_signatures. exists (set_hidden p).
    split; [apply Hnew; by left|done].
Qed.

(** ** Hiding, then merging *)

Lemma seen_signature_not_added
    (fromisoformat : string → option datetime)
    (venue_mapping author_name_mapping : gmap string string)
    (existing_papers : list YearGroup) (new_papers : list RawPaper)
    (s : string) :
  s ∈ get_existing_paper_signatures existing_papers →
  let merge :=
    merge_new_papers fromisoformat venue_mapping author_name_mapping
      existing_papers in
  (count_signature s (dataset_papers (merge new_papers).1)
   ≤ count_signature s (dataset_papers existing_papers))%nat
  ∧ merge new_papers
    = merge (filter
               (λ paper,
                  new_signature fromisoformat venue_mapping
                    author_name_mapping paper ≠ Some s)
               new_papers).
Proof.
  intros Hseen merge. subst merge. unfold merge_new_papers. cbn [fst].
  split.
  - rewrite (count_signature_Permutation _ _ _
               (dataset_papers_to_year_groups _)).
    rewrite merge_loop_count by done. cbn [existing_by_year].
    rewrite index_by_year_fold.
    pose proof (count_fold_insert s existing_papers ∅) as H.
    by rewrite Nat.add_0_l in H.
  - by rewrite merge_loop_filter.
Qed.

(** X16: once [mark_paper_as_hidden] has returned true, no later
    merge into the dataset it left adds a paper with the target
    signature: the merged dataset has no more papers with it, and fetched
    papers with it change neither the dataset nor the count. *)
Theorem hide_then_merge
    (fromisoformat : string → option datetime)
    (venue_mapping author_name_mapping : gmap string string)
    (papers_data : list YearGroup) (wanted : string)
    (first_author : option string) (new_papers : list RawPaper) :
  (mark_paper_as_hidden papers_data wanted first_author).2 = true →
  let hidden_data := (mark_paper_as_hidden papers_data wanted first_author).1 in
  let s := target_signature wanted first_author in
  let merge :=
    merge_new_papers fromisoformat venue_mapping author_name_mapping
      hidden_data in
  (count_signature s (dataset_papers (merge new_papers).1)
   ≤ count_signature s (dataset_papers hidden_data))%nat
  ∧ merge new_papers
    = merge (filter
               (λ paper,
                  new_signature fromisoformat venue_mapping
                    author_name_mapping paper ≠ Some s)
               new_papers).
Proof.
  unfold mark_paper_as_hidden.
  destruct (hide_in_groups _ papers_data) as [ds'|] eqn:E; cbn [fst snd];
    [|done].
  intros _. apply seen_signature_not_added.
  apply elem_of_existing_signatures.
  destruct (hide_in_groups_Some _ _ _ E)
    as (gs1 & g & gs2 & ps1 & p & ps2 & -> & Hg & _ & Hsig & ->).
  exists (set_hidden p). split; [|done].
  rewrite dataset_papers_app, dataset_papers_cons. cbn [papers].
  rewrite !elem_of_app, elem_of_cons. tauto.
Qed.

Lemma hide_then_merge_witness :
  (mark_paper_as_hidden sample_dataset "commonsense reasoning at scale"
     (Some "JANE DOE")).2 = true
  ∧ (count_signature "commonsense reasoning at scale_jane doe"
       (dataset_papers
          (merge_new_papers fromisoformat_date ∅ ∅
             (mark_paper_as_hidden sample_dataset
                "commonsense reasoning at scale" (Some "JANE DOE")).1
             [fetched_visible; fetched_new]).1)
     ≤ count_signature "commonsense reasoning at scale_jane doe"
         (dataset_papers
            (mark_paper_as_hidden sample_dataset
               "commonsense reasoning at scale" (Some "JANE DOE")).1))%nat
  ∧ merge_new_papers fromisoformat_date ∅ ∅
      (mark_paper_as_hidden sample_dataset
         "commonsense reasoning at scale" (Some "JANE DOE")).1
      [fetched_visible; fetched_new]
    = merge_new_papers fromisoformat_date ∅ ∅
        (mark_paper_as_hidden sample_dataset
           "commonsense reasoning at scale" (Some "JANE DOE")).1
        (filter
           (λ paper,
              new_signature fromisoformat_date ∅ ∅ paper
              ≠ Some "commonsense reasoning at scale_jane doe")
           [fetched_visible; fetched_new]).
Proof.
  split; [reflexivity|].
  exact (hide_then_merge fromisoformat_date ∅ ∅ sample_dataset
           "commonsense reasoning at scale" (Some "JANE DOE")
           [fetched_visible; fetched_new] eq_refl).
Defined.

(** ** The fetcher *)

Section FetcherFacts.

Variable api : string → nat → option (list RawPaper).

Lemma filter_authors_small (l : list RawPaper) : Forall small (filter_authors l).
Proof. apply Forall_forall. by intros p [H _]%list_elem_of_filter. Qed.

Lemma filter_authors_app (l k : list RawPaper) :
  filter_authors (l ++ k) = filter_authors l ++ filter_authors k.
Proof. apply filter_app. Qed.

Lemma loop_small (fuel : nat) (author_id : string) (offset : nat)
    (all_papers fetched : list RawPaper) :
  Forall small all_papers →
  get_author_papers_loop api fuel author_id offset all_papers = Some fetched →
  Forall small fetched.
Proof.
  revert offset all_papers.
  induction fuel as [|fuel IH]; intros offset acc Hacc; simpl; [done|].
  destruct (api author_id offset) as [[|p page]|]; try by intros [= <-].
  assert (Forall small (acc ++ filter_authors (p :: page))) as Hacc'.
  { apply Forall_app. split; [done|apply filter_authors_small]. }
  destruct (_ <? _)%nat; [by intros [= <-]|]. by apply IH.
Qed.

Lemma loop_run (author_id : string) (m : nat) :
  ∀ (j0 fuel : nat) (all_papers : list RawPaper),
    (∀ j, (j0 ≤ j < j0 + m)%nat →
          ∃ page, api author_id (j * limit) = Some page
                  ∧ (limit ≤ length page)%nat) →
    (∀ page, api author_id ((j0 + m) * limit) = Some page →
             (length page < limit)%nat) →
    (m < fuel)%nat →
    get_author_papers_loop api fuel author_id (j0 * limit) all_papers
    = Some (all_papers ++ filter_authors (concat (pages api author_id j0 (S m)))).
Proof.
  induction m as [|m IH]; intros j0 fuel acc Hfull Hlast Hfuel;
    (destruct fuel as [|fuel]; [lia|]); cbn [get_author_papers_loop].
  - rewrite Nat.add_0_r in Hlast. unfold pages. cbn [seq fmap list_fmap concat].
    rewrite app_nil_r.
    destruct (api author_id (j0 * limit)) as [[|p page]|] eqn:E;
      cbn [default].
    + change (filter_authors []) with (@nil RawPaper). by rewrite app_nil_r.
    + specialize (Hlast _ eq_refl).
      by rewrite (proj2 (Nat.ltb_lt _ _) Hlast).
    + change (filter_authors []) with (@nil RawPaper). by rewrite app_nil_r.
  - destruct (Hfull j0) as (page & E & Hlen); [lia|]. rewrite E.
    destruct page as [|p page]; [unfold limit in Hlen; simpl in Hlen; lia|].
    rewrite (proj2 (Nat.ltb_ge _ _) Hlen).
    replace (j0 * limit + limit)%nat with (S j0 * limit)%nat by lia.
    rewrite IH.
    + change (pages api author_id j0 (S (S m)))
        with (default [] (api author_id (j0 * limit))
              :: pages api author_id (S j0) (S m)).
      rewrite E. cbn [default concat].
      by rewrite filter_authors_app, app_assoc.
    + intros j Hj. apply Hfull. lia.
    + intros pg Hpg. apply Hlast.
      by replace (j0 + S m)%nat with (S j0 + m)%nat by lia.
    + lia.
Qed.

End FetcherFacts.

Section FetchAll.

Variable api : string → nat → option (list RawPaper).
Variable fuel : nat.

Let fetch_step (acc : option (list RawPaper)) (author_id : string) :=
  all_papers ← acc;
  papers ← get_author_papers api fuel author_id;
  Some (all_papers ++ papers).

Lemma fetch_all_fold_None (author_ids : list string) :
  fold_left fetch_step author_ids None = None.
Proof. by induction author_ids. Qed.

Lemma fetch_all_fold (author_ids : list string)
    (all_papers fetched : list RawPaper) :
  fold_left fetch_step author_ids (Some all_papers) = Some fetched →
  ∃ parts,
    Forall2 (λ author_id part,
               get_author_papers api fuel author_id = Some part)
            author_ids parts
    ∧ fetched = all_papers ++ concat parts.
Proof.
  revert all_papers.
  induction author_ids as [|author_id ids IH]; intros acc H.
  { injection H as <-. exists []. split; [constructor|].
    by rewrite app_nil_r. }
  cbn [fold_left] in H. unfold fetch_step at 2 in H. simpl in H.
  destruct (get_author_papers api fuel author_id) as [part|] eqn:E;
    simpl in H; [|by rewrite fetch_all_fold_None in H].
  destruct (IH _ H) as (parts & Hparts & ->).
  exists (part :: parts). split; [by constructor|].
  simpl. by rewrite app_assoc.
Qed.

End FetchAll.

(** X17: whatever the service answers, [get_all_author_papers]
    returns no paper with 50 authors or more, and what it returns is the
    papers fetched for each author identifier, one author after the other
    in the order of the identifiers. *)
Theorem get_all_author_papers_small
    (api : string → nat → option (list RawPaper)) (fuel : nat)
    (author_ids : list string) (fetched : list RawPaper) :
  get_all_author_papers api fuel author_ids = Some fetched →
  Forall small fetched
  ∧ ∃ parts,
      Forall2 (λ author_id part,
                 get_author_papers api fuel author_id = Some part)
              author_ids parts
      ∧ fetched = concat parts.
Proof.
  intros H. apply fetch_all_fold in H as (parts & Hparts & ->).
  split; [|by exists parts].
  simpl. apply Forall_concat.
  clear -Hparts. induction Hparts as [|id part ids parts H _ IH];
    constructor; [|done].
  by eapply (loop_small api), H.
Qed.

(** X18: the pagination loop ends as soon as a request fails or a page
    comes back with fewer than 100 papers (none at all included).  If the
    first [k] pages are full and page [k] is not, any fuel above [k] makes
    [get_author_papers] return the papers of pages 0 to [k] that have
    fewer than 50 authors, in page order; a failed request gives the pages
    before it. *)
Theorem get_author_papers_pages
    (api : string → nat → option (list RawPaper)) (fuel : nat)
    (author_id : string) (k : nat) :
  (∀ j, (j < k)%nat →
        ∃ page, api author_id (j * limit)%nat = Some page
                ∧ (limit ≤ length page)%nat) →
  (∀ page, api author_id (k * limit)%nat = Some page →
           (length page < limit)%nat) →
  (k < fuel)%nat →
  get_author_papers api fuel author_id
  = Some (filter_authors (concat (pages api author_id 0 (S k)))).
Proof.
  intros Hfull Hlast Hfuel. unfold get_author_papers.
  change 0%nat with (0 * limit)%nat at 1.
  rewrite (loop_run api author_id k 0 fuel []); [done| |done|done].
  intros j Hj. apply Hfull. lia.
Qed.

Lemma get_author_papers_pages_witness :
  (∀ j, (j < 1)%nat →
        ∃ page, sample_api "2034613" (j * limit)%nat = Some page
                ∧ (limit ≤ length page)%nat)
  ∧ (∀ page, sample_api "2034613" (1 * limit)%nat = Some page →
             (length page < limit)%nat)
  ∧ (1 < 5)%nat
  ∧ get_author_papers sample_api 5 "2034613"
    = Some (filter_authors (concat (pages sample_api "2034613" 0 2))).
Proof.
  assert (∀ j, (j < 1)%nat →
               ∃ page, sample_api "2034613" (j * limit)%nat = Some page
                       ∧ (limit ≤ length page)%nat) as H1.
  { intros j Hj. assert (j = 0%nat) as -> by lia.
    exists (replicate 100 paper_arxiv). split; [reflexivity|].
    rewrite length_replicate. unfold limit. lia. }
  assert (∀ page, sample_api "2034613" (1 * limit)%nat = Some page →
                  (length page < limit)%nat) as H2.
  { intros page [= <-]. unfold limit. simpl. lia. }
  assert (1 < 5)%nat as H3 by lia.
  split; [exact H1|]. split; [exact H2|]. split; [exact H3|].
  exact (get_author_papers_pages sample_api 5 "2034613" 1 H1 H2 H3).
Defined.

Example fetch_sample :
  get_all_author_papers sample_api 5 ["2034613"; "2302559920"]
  = Some (replicate 100 paper_arxiv ++ [fetched_new]).
Proof. by vm_compute. Qed.

Lemma get_all_author_papers_small_witness :
  get_all_author_papers sample_api 5 ["2034613"; "2302559920"]
    = Some (replicate 100 paper_arxiv ++ [fetched_new])
  ∧ Forall small (replicate 100 paper_arxiv ++ [fetched_new])
  ∧ ∃ parts,
      Forall2 (λ author_id part,
                 get_author_papers sample_api 5 author_id = Some part)
              ["2034613"; "2302559920"] parts
      ∧ replicate 100 paper_arxiv ++ [fetched_new] = concat parts.
Proof.
  assert (get_all_author_papers sample_api 5 ["2034613"; "2302559920"]
          = Some (replicate 100 paper_arxiv ++ [fetched_new])) as H
    by (by vm_compute).
  split; [exact H|].
  exact (get_all_author_papers_small sample_api 5
           ["2034613"; "2302559920"] _ H).
Defined.

(** ** Signatures do not see co-authors *)

Section SignatureFacts.

Lemma contains_char_cons (sep a : ascii) (s : string) :
  contains (String sep "") (String a s)
  = Ascii.eqb a sep || contains (String sep "") s.
Proof.
  change (contains (String sep "") (String a s)) with
    (Ascii.eqb sep a && startswith s "" || contains (String sep "") s).
  rewrite (Ascii.eqb_sym sep a).
  destruct (Ascii.eqb a sep); [|done]. by destruct s.
Qed.

Lemma split_head_before_sep (sep : ascii) (a rest : string) :
  contains (String sep "") a = false →
  nth 0 (split sep (a +:+ String sep rest)) "" = a.
Proof.
  induction a as [|c a IH].
  - intros _. change ("" +:+ String sep rest) with (String sep rest).
    simpl. by rewrite Ascii.eqb_refl.
  - rewrite contains_char_cons. intros [Hc H]%orb_false_iff.
    change (String c a +:+ String sep rest)
      with (String c (a +:+ String sep rest)).
    simpl split. rewrite Hc. specialize (IH H).
    pose proof (split_nonempty sep (a +:+ String sep rest)).
    destruct (split sep (a +:+ String sep rest)); [done|].
    simpl in *. by rewrite IH.
Qed.

Lemma split_no_sep (sep : ascii) (s : string) :
  contains (String sep "") s = false → split sep s = [s].
Proof.
  induction s as [|c s IH]; [done|]. rewrite contains_char_cons.
  intros [Hc H]%orb_false_iff. simpl. by rewrite Hc, (IH H).
Qed.

Lemma get_first_author_text (a rest : string) :
  contains "," a = false →
  get_first_author (AuthorsText (a +:+ String "," rest)) = strip a
  ∧ get_first_author (AuthorsText a) = strip a.
Proof.
  intros H. unfold get_first_author. split.
  - rewrite (split_head_before_sep "," a rest H). by destruct a.
  - rewrite (split_no_sep "," a H). by destruct a.
Qed.

End SignatureFacts.

(** X20: of the authors text of a stored paper only what stands
    before the first comma, stripped of surrounding white space, enters
    the signature: the co-authors after it never do. *)
Theorem signature_ignores_coauthors
    (t first rest : string) (v u : option string) (sh : option bool) :
  contains "," first = false →
  create_paper_signature
    {| title := t; authors := first +:+ String "," rest;
       venue := v; pdf := u; show := sh |}
  = lower (normalize_title t) +:+ "_" +:+ lower (strip first)
  ∧ create_paper_signature
      {| title := t; authors := first;
         venue := v; pdf := u; show := sh |}
    = lower (normalize_title t) +:+ "_" +:+ lower (strip first).
Proof.
  intros H. unfold create_paper_signature, signature_of. cbn [title authors].
  destruct (get_first_author_text first rest H) as [-> ->]. done.
Qed.

Lemma signature_ignores_coauthors_witness :
  contains "," "Jane Doe" = false
  ∧ create_paper_signature
      {| title := "Commonsense Reasoning at Scale";
         authors := "Jane Doe" +:+ String "," " A. Smith";
         venue := Some "EMNLP"; pdf := None; show := None |}
    = lower (normalize_title "Commonsense Reasoning at Scale") +:+ "_"
      +:+ lower (strip "Jane Doe")
  ∧ create_paper_signature
      {| title := "Commonsense Reasoning at Scale";
         authors := "Jane Doe";
         venue := Some "EMNLP"; pdf := None; show := None |}
    = lower (normalize_title "Commonsense Reasoning at Scale") +:+ "_"
      +:+ lower (strip "Jane Doe").
Proof.
  split; [reflexivity|].
  exact (signature_ignores_coauthors "Commonsense Reasoning at Scale"
           "Jane Doe" " A. Smith" (Some "EMNLP") None None eq_refl).
Defined.

(** ** The signature of a fetched paper *)

Section FetchedSignature.

Variable author_name_mapping : gmap string string.

Let author_step (authors_list : list string) (author : author_entry) :=
  match author with
  | AuthorDict (Some author_name) =>
      let author_name :=
        default author_name (author_name_mapping !! author_name) in
      if truthy author_name then authors_list ++ [author_name]
      else authors_list
  | AuthorDict None => authors_list
  | AuthorStr author =>
      authors_list ++ [default author (author_name_mapping !! author)]
  end.

Lemma author_fold_acc (l : list author_entry) (acc : list string) :
  fold_left author_step l acc = acc ++ fold_left author_step l [].
Proof.
  revert acc. induction l as [|a l IH]; intros acc; simpl.
  { by rewrite app_nil_r. }
  rewrite (IH (author_step acc a)), (IH (author_step [] a)).
  rewrite app_assoc. f_equal.
  destruct a as [[n|]|s]; simpl; [|by rewrite app_nil_r|done].
  destruct (truthy _); [done|by rewrite app_nil_r].
Qed.

Lemma join_first (m : string) (tl : list string) :
  join ", " (m :: tl) = m ∨ ∃ rest, join ", " (m :: tl) = m +:+ String "," rest.
Proof.
  destruct tl as [|x tl]; [by left|]. right.
  exists (String " " (join ", " (x :: tl))). done.
Qed.

Lemma format_authors_first (paper : RawPaper) (n : string)
    (others : list author_entry) :
  raw_authors paper = Some (AuthorsList (AuthorDict (Some n) :: others)) →
  truthy (default n (author_name_mapping !! n)) = true →
  contains "," (default n (author_name_mapping !! n)) = false →
  get_first_author (AuthorsText (format_authors author_name_mapping paper))
  = strip (default n (author_name_mapping !! n)).
Proof.
  intros Hraw Htruthy Hcomma. unfold format_authors, iter_authors.
  rewrite Hraw. fold author_step. cbn [fold_left].
  change (author_step [] (AuthorDict (Some n)))
    with (if truthy (default n (author_name_mapping !! n))
          then [] ++ [default n (author_name_mapping !! n)] else []).
  rewrite Htruthy, author_fold_acc. cbn [app].
  destruct (join_first (default n (author_name_mapping !! n))
              (fold_left author_step others [])) as [->|[rest ->]].
  - by apply get_first_author_text.
  - by apply get_first_author_text.
Qed.

End FetchedSignature.

(** X21: the signature the merge gives a fetched paper is made of its
    normalized title and of its first author's name as the author table
    renders it.  When the first entry of the authors list is a record
    whose name, after the table, is not empty and holds no comma, that
    name, stripped and lowercased, is the author part. *)
Theorem new_signature_first_author
    (fromisoformat : string → option datetime)
    (venue_mapping author_name_mapping : gmap string string)
    (paper : RawPaper) (n : string) (others : list author_entry) (y : Z) :
  raw_authors paper = Some (AuthorsList (AuthorDict (Some n) :: others)) →
  truthy (default n (author_name_mapping !! n)) = true →
  contains "," (default n (author_name_mapping !! n)) = false →
  extract_year fromisoformat paper = Some y →
  new_signature fromisoformat venue_mapping author_name_mapping paper
  = Some (lower (normalize_title (paper_title paper)) +:+ "_"
          +:+ lower (strip (default n (author_name_mapping !! n)))).
Proof.
  intros Hraw Htruthy Hcomma Hyear.
  unfold new_signature, format_paper_for_yaml. rewrite Hyear. simpl.
  f_equal. unfold create_paper_signature, signature_of. cbn [title authors].
  by rewrite (format_authors_first _ _ _ _ Hraw Htruthy Hcomma).
Qed.

Lemma new_signature_first_author_witness :
  raw_authors fetched_hidden
    = Some (AuthorsList [AuthorDict (Some "A. Smith");
                         AuthorDict (Some "B. Jones")])
  ∧ truthy (default "A. Smith"
              (({["A. Smith" := "Alice Smith"]} : gmap string string)
                 !! "A. Smith")) = true
  ∧ contains ","
      (default "A. Smith"
         (({["A. Smith" := "Alice Smith"]} : gmap string string)
            !! "A. Smith")) = false
  ∧ extract_year fromisoformat_date fetched_hidden = Some 2021
  ∧ new_signature fromisoformat_date ∅ {["A. Smith" := "Alice Smith"]}
      fetched_hidden
    = Some (lower (normalize_title (paper_title fetched_hidden)) +:+ "_"
            +:+ lower (strip
                         (default "A. Smith"
                            (({["A. Smith" := "Alice Smith"]}
                              : gmap string string) !! "A. Smith")))).
Proof.
  do 4 (split; [reflexivity|]).
  exact (new_signature_first_author fromisoformat_date ∅
           {["A. Smith" := "Alice Smith"]} fetched_hidden "A. Smith"
           [AuthorDict (Some "B. Jones")] 2021 eq_refl eq_refl eq_refl
           eq_refl).
Defined.

(** With the table above the paper is no longer recognised as the hidden
    one it is: its signature changed with the author's name. *)
Example renamed_author_readded :
  (merge_new_papers fromisoformat_date ∅ {["A. Smith" := "Alice Smith"]}
     sample_dataset [fetched_hidden]).2 = 1%nat.
Proof. by vm_compute. Qed.

(** ** Whole runs *)

Section Runs.

Variable fromisoformat : string → option datetime.
Variables venue_mapping author_name_mapping : gmap string string.

Lemma elem_of_dataset_papers (ds : list YearGroup) (q : CanonicalPaper) :
  q ∈ dataset_papers ds ↔ ∃ g, g ∈ ds ∧ q ∈ papers g.
Proof.
  induction ds as [|g0 ds IH].
  - split; [by intros H; inv H|by intros (g & Hg & _); inv Hg].
  - rewrite dataset_papers_cons, elem_of_app, IH. split.
    + intros [Hq|(g & Hg & Hq)].
      * exists g0. split; [by left|done].
      * exists g. split; [by right|done].
    + intros (g & [->|Hg]%elem_of_cons & Hq); [by left|].
      right. by exists g.
Qed.

Lemma merge_keeps_papers (existing_papers : list YearGroup)
    (new_papers : list RawPaper) (p : CanonicalPaper) :
  NoDup (year <$> existing_papers) →
  p ∈ dataset_papers existing_papers →
  p ∈ dataset_papers
        (merge_new_papers fromisoformat venue_mapping author_name_mapping
           existing_papers new_papers).1.
Proof.
  intros Hnd (g & Hg & Hp)%elem_of_dataset_papers.
  apply list_elem_of_split in Hg as (l1 & l2 & ->).
  assert (year g ∉ year <$> l2) as Hlast.
  { rewrite fmap_app, fmap_cons in Hnd.
    apply NoDup_app in Hnd as (_ & _ & Hnd). by apply NoDup_cons in Hnd as []. }
  destruct (merge_lookup_last fromisoformat venue_mapping
              author_name_mapping l1 l2 g new_papers Hlast)
    as (added & Hl & _).
  apply elem_of_dataset_papers.
  exists {| year := year g; papers := papers g ++ added |}. split.
  - unfold merge_new_papers. cbn [fst].
    apply elem_of_to_year_groups. cbn [year papers]. by eexists.
  - cbn [papers]. apply elem_of_app. by left.
Qed.

Lemma merge_length (existing_papers : list YearGroup)
    (new_papers : list RawPaper) :
  NoDup (year <$> existing_papers) →
  let result :=
    merge_new_papers fromisoformat venue_mapping author_name_mapping
      existing_papers new_papers in
  length (dataset_papers result.1)
  = (length (dataset_papers existing_papers) + result.2)%nat.
Proof.
  intros Hnd result. subst result. unfold merge_new_papers. cbn [fst snd].
  set (st := {| existing_by_year := _ |}).
  destruct (merge_loop_length fromisoformat venue_mapping
              author_name_mapping
              (get_hidden_signatures existing_papers) new_papers st)
    as (H1 & _ & _).
  subst st. cbn [existing_by_year new_papers_added] in *.
  rewrite (Permutation_length (dataset_papers_to_year_groups _)).
  rewrite (Permutation_length (map_papers_index_by_year _ Hnd)) in H1.
  lia.
Qed.

Lemma hide_keeps_papers (target : string) (ds ds' : list YearGroup) :
  hide_in_groups target ds = Some ds' →
  set_hidden <$> dataset_papers ds' = set_hidden <$> dataset_papers ds.
Proof.
  intros (gs1 & g & gs2 & ps1 & p & ps2 & -> & Hg & _ & _ & ->)
    %hide_in_groups_Some.
  rewrite !dataset_papers_app, !dataset_papers_cons, Hg. cbn [papers].
  by rewrite !fmap_app, !fmap_cons.
Qed.

Lemma refresh_fold_length (batch : list RawPaper)
    (st : gmap Z (list CanonicalPaper) * nat) :
  let st' :=
    fold_left (format_step fromisoformat venue_mapping author_name_mapping)
      batch st in
  (length (map_papers st'.1) + st'.2
   = length (map_papers st.1) + st.2 + length batch)%nat.
Proof.
  revert st. induction batch as [|paper l IH]; intros [d n]; simpl; [lia|].
  rewrite IH. destruct (extract_year fromisoformat paper); cbn [fst snd].
  - rewrite (Permutation_length (map_papers_append _ _ _)). simpl. lia.
  - lia.
Qed.

Lemma refresh_members (batch : list RawPaper) (q : CanonicalPaper) :
  q ∈ dataset_papers
        (format_papers_for_yaml fromisoformat venue_mapping
           author_name_mapping batch) →
  ∃ paper, paper ∈ batch
           ∧ q = refresh_paper venue_mapping author_name_mapping paper
           ∧ is_Some (extract_year fromisoformat paper).
Proof.
  intros (g & Hg & Hq)%elem_of_dataset_papers.
  unfold format_papers_for_yaml in Hg.
  apply elem_of_to_year_groups in Hg as (l & Hl & Hpapers).
  rewrite refresh_fold_lookup in Hl. cbn [fst] in Hl.
  rewrite lookup_empty in Hl. rewrite Hpapers in Hq.
  destruct (refreshed_of_year _ _ _ (year g) batch) as [|a k] eqn:E;
    [done|].
  simpl in Hl. injection Hl as <-. rewrite <-E in Hq.
  unfold refreshed_of_year in Hq.
  apply list_elem_of_fmap in Hq as (paper & -> & Hin).
  apply list_elem_of_filter in Hin as [Hy Hin].
  exists paper. by rewrite Hy.
Qed.

End Runs.

(** X22: a run of the merge script never loses a stored paper.  When
    no year is stored twice and the run writes a dataset, every stored
    paper is in it with the same title, authors, venue and pdf (only the
    show flag may differ), it holds at least as many papers as were
    stored, and the exit status is 0. *)
Theorem main_merge_keeps_stored
    (api : string → nat → option (list RawPaper))
    (fromisoformat : string → option datetime)
    (venue_mapping author_name_mapping : gmap string string)
    (fuel : nat) (hide_paper author : option string)
    (existing_papers saved : list YearGroup) (r : run) :
  NoDup (year <$> existing_papers) →
  main_merge api fromisoformat venue_mapping author_name_mapping fuel
    hide_paper author existing_papers = Some r →
  written r = Some saved →
  (∀ p, p ∈ dataset_papers existing_papers →
        set_hidden p ∈ set_hidden <$> dataset_papers saved)
  ∧ (length (dataset_papers existing_papers)
     ≤ length (dataset_papers saved))%nat
  ∧ exit_status r = 0%nat.
Proof.
  intros Hnd Hrun Hw. unfold main_merge in Hrun.
  destruct (truthy (default "" hide_paper)).
  - unfold mark_paper_as_hidden in Hrun.
    destruct (hide_in_groups _ existing_papers) as [ds'|] eqn:E;
      injection Hrun as <-; [|done].
    cbn [written] in Hw. injection Hw as <-.
    pose proof (hide_keeps_papers _ _ _ E) as Hsame.
    assert (length (dataset_papers ds')
            = length (dataset_papers existing_papers)) as Hlen.
    { rewrite <-(length_fmap set_hidden (dataset_papers ds')), Hsame.
      apply length_fmap. }
    split_and!; [|lia|done].
    intros p Hp. rewrite Hsame. by apply list_elem_of_fmap_2.
  - destruct (get_all_author_papers api fuel get_author_ids)
      as [[|paper fetched]|]; cbn [mbind option_bind] in Hrun;
      [by injection Hrun as <-| |done].
    pose proof (merge_length fromisoformat venue_mapping author_name_mapping
                  existing_papers (paper :: fetched) Hnd) as Hlen.
    pose proof (merge_keeps_papers fromisoformat venue_mapping
                  author_name_mapping existing_papers (paper :: fetched))
      as Hkeep.
    destruct (merge_new_papers _ _ _ existing_papers (paper :: fetched))
      as [merged n].
    destruct n as [|n]; cbn [Nat.eqb] in Hrun; injection Hrun as <-; [done|].
    cbn [written] in Hw. injection Hw as <-. cbn [fst snd] in *.
    split_and!; [|lia|done].
    intros p Hp. apply list_elem_of_fmap_2. by apply Hkeep.
Qed.

(** X23: what a full refresh writes.  Every paper of the written
    dataset is the stored form of a fetched paper that has fewer than 50
    authors and a year; the dataset holds no more papers than were
    fetched; and the exit status is 1 exactly when nothing was fetched,
    in which case nothing is written. *)
Theorem main_refresh_writes_fetched
    (api : string → nat → option (list RawPaper))
    (fromisoformat : string → option datetime)
    (venue_mapping author_name_mapping : gmap string string)
    (fuel : nat) (r : run) :
  main_refresh api fromisoformat venue_mapping author_name_mapping fuel
    = Some r →
  ∃ fetched,
    get_all_author_papers api fuel get_author_ids = Some fetched
    ∧ (exit_status r = 1%nat ↔ fetched = [])
    ∧ (fetched = [] → written r = None)
    ∧ ∀ saved, written r = Some saved →
        (∀ q, q ∈ dataset_papers saved →
              ∃ paper, paper ∈ fetched ∧ small paper
                       ∧ q = refresh_paper venue_mapping
                               author_name_mapping paper
                       ∧ is_Some (extract_year fromisoformat paper))
        ∧ (length (dataset_papers saved) ≤ length fetched)%nat.
Proof.
  unfold main_refresh. intros Hrun.
  destruct (get_all_author_papers api fuel get_author_ids)
    as [fetched|] eqn:Hfetch; [|done].
  exists fetched. split; [done|]. simpl in Hrun.
  destruct fetched as [|paper fetched]; injection Hrun as <-.
  { split_and!; [done|done|]. by intros saved. }
  split_and!; [by split|done|].
  intros saved [= <-]. split.
  - intros q Hq. apply refresh_members in Hq as (rp & Hrp & -> & Hy).
    exists rp. split_and!; [|  |done|done].
    + rewrite remove_duplicates_fold in Hrp.
      by eapply (dedup_fold_invariant (paper :: fetched) (paper :: fetched)
                   ([], ∅)); [|intros x Hx; inv Hx|].
    + rewrite remove_duplicates_fold in Hrp.
      assert (rp ∈ paper :: fetched) as Hin.
      { by eapply (dedup_fold_invariant (paper :: fetched) (paper :: fetched)
                     ([], ∅)); [|intros x Hx; inv Hx|]. }
      apply fetch_all_fold in Hfetch as (parts & Hparts & Hconcat).
      assert (Forall small (paper :: fetched)) as Hsmall.
      { rewrite Hconcat. simpl. apply Forall_concat.
        clear -Hparts. induction Hparts as [|id part ids parts H _ IH];
          constructor; [|done].
        by eapply (loop_small api), H. }
      rewrite Forall_forall in Hsmall. by apply Hsmall.
  - unfold format_papers_for_yaml.
    rewrite (Permutation_length (dataset_papers_to_year_groups _)).
    pose proof (refresh_fold_length fromisoformat venue_mapping
                  author_name_mapping
                  (remove_duplicates (paper :: fetched)) (∅, 0%nat)) as H.
    cbn [fst snd] in H. unfold map_papers at 2 in H.
    rewrite map_to_list_empty in H. simpl in H.
    pose proof (dedup_fold_length (paper :: fetched) (paper :: fetched)
                  ([], ∅)) as H'.
    rewrite <-remove_duplicates_fold in H'. simpl in H'. simpl. lia.
Qed.

Lemma main_merge_keeps_stored_witness :
  NoDup (year <$> sample_dataset)
  ∧ main_merge sample_api fromisoformat_date ∅ ∅ 5 None None sample_dataset
    = Some {| written := Some merged_dataset; exit_status := 0 |}
  ∧ (∀ p, p ∈ dataset_papers sample_dataset →
          set_hidden p ∈ set_hidden <$> dataset_papers merged_dataset)
  ∧ (length (dataset_papers sample_dataset)
     ≤ length (dataset_papers merged_dataset))%nat
  ∧ exit_status {| written := Some merged_dataset; exit_status := 0 |}
    = 0%nat.
Proof.
  assert (NoDup (year <$> sample_dataset)) as H1.
  { apply (bool_decide_unpack _). by vm_compute. }
  assert (main_merge sample_api fromisoformat_date ∅ ∅ 5 None None
            sample_dataset
          = Some {| written := Some merged_dataset; exit_status := 0 |})
    as H2 by (by vm_compute).
  split; [exact H1|]. split; [exact H2|].
  exact (main_merge_keeps_stored sample_api fromisoformat_date ∅ ∅ 5
           None None sample_dataset merged_dataset _ H1 H2 eq_refl).
Defined.

Lemma main_refresh_writes_fetched_witness :
  main_refresh sample_api fromisoformat_date ∅ ∅ 5
    = Some {| written :=
                Some [ {| year := 2023;
                          papers := [refresh_paper ∅ ∅ fetched_new] |} ];
              exit_status := 0 |}
  ∧ ∃ fetched,
      get_all_author_papers sample_api 5 get_author_ids = Some fetched
      ∧ (exit_status
           {| written :=
                Some [ {| year := 2023;
                          papers := [refresh_paper ∅ ∅ fetched_new] |} ];
              exit_status := 0 |} = 1%nat ↔ fetched = [])
      ∧ (fetched = [] →
         written
           {| written :=
                Some [ {| year := 2023;
                          papers := [refresh_paper ∅ ∅ fetched_new] |} ];
              exit_status := 0 |} = None)
      ∧ ∀ saved,
          written
            {| written :=
                 Some [ {| year := 2023;
                           papers := [refresh_paper ∅ ∅ fetched_new] |} ];
               exit_status := 0 |} = Some saved →
          (∀ q, q ∈ dataset_papers saved →
                ∃ paper, paper ∈ fetched ∧ small paper
                         ∧ q = refresh_paper ∅ ∅ paper
                         ∧ is_Some (extract_year fromisoformat_date paper))
          ∧ (length (dataset_papers saved) ≤ length fetched)%nat.
Proof.
  assert (main_refresh sample_api fromisoformat_date ∅ ∅ 5
          = Some {| written :=
                      Some [ {| year := 2023;
                                papers := [refresh_paper ∅ ∅ fetched_new] |} ];
                    exit_status := 0 |}) as H by (by vm_compute).
  split; [exact H|].
  exact (main_refresh_writes_fetched sample_api fromisoformat_date ∅ ∅ 5
           _ H).
Defined.

(** ** The hidden set adds nothing to the seen set *)

Section HiddenRedundant.

Variable fromisoformat : string → option datetime.
Variables venue_mapping author_name_mapping : gmap string string.
Variable hidden_signatures : gset string.

Lemma merge_step_without_hidden (st : merge_state) (paper : RawPaper) :
  hidden_signatures ⊆ existing_signatures st →
  merge_step fromisoformat venue_mapping author_name_mapping
    hidden_signatures st paper
  = merge_step fromisoformat venue_mapping author_name_mapping ∅ st paper.
Proof.
  intros Hh. unfold merge_step.
  destruct (format_paper_for_yaml _ _ _ paper) as [[fp y]|]; [|done].
  destruct (decide (create_paper_signature fp ∈ existing_signatures st))
    as [Hin|Hnin].
  { by rewrite (bool_decide_eq_true_2 _ Hin). }
  rewrite (bool_decide_eq_false_2 _ Hnin). cbn [orb].
  rewrite !bool_decide_eq_false_2; [done|set_solver..].
Qed.

Lemma merge_loop_without_hidden (new_papers : list RawPaper)
    (st : merge_state) :
  hidden_signatures ⊆ existing_signatures st →
  fold_left
    (merge_step fromisoformat venue_mapping author_name_mapping
       hidden_signatures) new_papers st
  = fold_left
      (merge_step fromisoformat venue_mapping author_name_mapping ∅)
      new_papers st.
Proof.
  revert st. induction new_papers as [|paper l IH]; intros st Hh; [done|].
  cbn [fold_left]. rewrite <-(merge_step_without_hidden st paper Hh).
  apply IH. intros x Hx. by apply merge_step_seen, Hh.
Qed.

End HiddenRedundant.

(** X24: a signature is never empty, so the guard before adding one to
    a set never fires; every hidden signature is also a seen one; and the
    test against the hidden set in [merge_new_papers] therefore decides
    nothing: the loop run with an empty hidden set gives the same dataset
    and the same count. *)
Theorem hidden_set_redundant
    (fromisoformat : string → option datetime)
    (venue_mapping author_name_mapping : gmap string string)
    (existing_papers : list YearGroup) (new_papers : list RawPaper) :
  (∀ p, truthy (create_paper_signature p) = true)
  ∧ get_hidden_signatures existing_papers
    ⊆ get_existing_paper_signatures existing_papers
  ∧ merge_new_papers fromisoformat venue_mapping author_name_mapping
      existing_papers new_papers
    = let st :=
        fold_left
          (merge_step fromisoformat venue_mapping author_name_mapping ∅)
          new_papers
          {| existing_by_year := index_by_year existing_papers;
             existing_signatures :=
               get_existing_paper_signatures existing_papers;
             new_papers_added := 0 |} in
      (to_year_groups (existing_by_year st), new_papers_added st).
Proof.
  split_and!.
  - apply signature_truthy.
  - apply hidden_signatures_seen.
  - unfold merge_new_papers. cbv zeta.
    rewrite merge_loop_without_hidden; [done|].
    apply hidden_signatures_seen.
Qed.

(** * Case folding by context *)

Module UnicodeFacts.

Import Unicode.

Section Segments.

Variable T : tables.

Lemma contains_sep_cons (sep c : N) (s : list N) :
  contains [sep] (c :: s) = N.eqb c sep || contains [sep] s.
Proof.
  change (contains [sep] (c :: s)) with
    (N.eqb sep c && startswith s [] || contains [sep] s).
  rewrite (N.eqb_sym sep c).
  destruct (N.eqb c sep); [|done]. by destruct s.
Qed.

Lemma split_segments_nonempty (sep : N) (s : list N) : split sep s ≠ [].
Proof.
  destruct s as [|c s]; [done|]. simpl.
  destruct (N.eqb c sep); [done|]. by destruct (split sep s).
Qed.

Lemma split_without_sep (sep : N) (s : list N) :
  contains [sep] s = false → split sep s = [s].
Proof.
  induction s as [|c s IH]; [done|]. rewrite contains_sep_cons.
  intros [Hc H]%orb_false_iff. simpl. by rewrite Hc, (IH H).
Qed.

Lemma split_sep_length (sep : N) (s : list N) :
  contains [sep] s = true → (2 ≤ length (split sep s))%nat.
Proof.
  induction s as [|c s IH]; [done|]. rewrite contains_sep_cons. simpl.
  destruct (N.eqb c sep); simpl.
  - intros _. pose proof (split_segments_nonempty sep s).
    destruct (split sep s); simpl; [done|lia].
  - intros H. specialize (IH H). destruct (split sep s); simpl in *; lia.
Qed.

(** Both branches of [normalize_title] keep the stripped text before
    the first colon. *)
Lemma normalize_title_first_segment (t : list N) :
  normalize_title T t = strip T (nth 0 (split COLON t) []).
Proof.
  unfold normalize_title. destruct (contains [COLON] t) eqn:E.
  - apply split_sep_length in E.
    by destruct (2 <=? length (split COLON t))%nat eqn:E';
      [|apply Nat.leb_gt in E'; lia].
  - by rewrite (split_without_sep _ _ E).
Qed.

Lemma elem_of_lstrip (x : N) (s : list N) : x ∈ lstrip T s → x ∈ s.
Proof.
  induction s as [|c s IH]; [done|]. simpl.
  destruct (isspace T c); [|done]. intros H. right. by apply IH.
Qed.

Lemma elem_of_rstrip (x : N) (s : list N) : x ∈ rstrip T s → x ∈ s.
Proof.
  induction s as [|c s IH]; [done|]. simpl.
  destruct (rstrip T s) as [|a r].
  - destruct (isspace T c); [by intros H; inv H|].
    intros ->%list_elem_of_singleton. by left.
  - intros [->|H]%elem_of_cons; [by left|]. right. by apply IH.
Qed.

Lemma elem_of_first_segment (sep x : N) (s : list N) :
  x ∈ nth 0 (split sep s) [] → x ∈ s.
Proof.
  induction s as [|c s IH]; [done|]. simpl.
  destruct (N.eqb c sep); [by intros H; inv H|].
  pose proof (split_segments_nonempty sep s).
  destruct (split sep s) as [|w ws]; [done|]. simpl in *.
  intros [->|Hx]%elem_of_cons; [by left|]. right. by apply IH.
Qed.

Lemma normalize_title_elem (x : N) (t : list N) :
  x ∈ normalize_title T t → x ∈ t.
Proof.
  rewrite normalize_title_first_segment. unfold strip.
  intros H%elem_of_rstrip%elem_of_lstrip. by eapply elem_of_first_segment.
Qed.

(** Without a capital sigma, lowercasing goes one code point at a
    time. *)
Lemma lower_from_each (before s : list N) :
  CAPITAL_SIGMA ∉ s → lower_from T before s = lower_each T s.
Proof.
  revert before. induction s as [|c s IH]; intros before H; [done|].
  apply not_elem_of_cons in H as [Hc H]. simpl.
  rewrite (proj2 (N.eqb_neq c CAPITAL_SIGMA)) by done.
  by rewrite IH.
Qed.

Lemma lower_each_no_sigma (s : list N) :
  CAPITAL_SIGMA ∉ s → lower T s = lower_each T s.
Proof. apply lower_from_each. Qed.

Section Table.

Hypothesis HT : table_respects T.

Lemma to_lower_space (c : N) : isspace T c = true → to_lower T c = [c].
Proof. by apply HT. Qed.

Lemma to_lower_nonspace (c : N) :
  isspace T c = false →
  ∃ d ds, to_lower T c = d :: ds ∧ isspace T d = false
          ∧ Forall (λ e, isspace T e = false) ds.
Proof.
  intros H. destruct HT as (_ & _ & _ & Hns).
  destruct (Hns c H) as [Hne Hall].
  destruct (to_lower T c) as [|d ds]; [done|]. exists d, ds.
  by apply Forall_cons in Hall as [? ?].
Qed.

Lemma lower_each_cons (c : N) (s : list N) :
  lower_each T (c :: s) = to_lower T c ++ lower_each T s.
Proof. done. Qed.

Lemma lower_each_nil (s : list N) : lower_each T s = [] → s = [].
Proof.
  destruct s as [|c s]; [done|]. rewrite lower_each_cons.
  intros [H _]%app_eq_nil. destruct (isspace T c) eqn:E.
  - by rewrite (to_lower_space _ E) in H.
  - destruct (to_lower_nonspace _ E) as (d & ds & Hd & _). by rewrite Hd in H.
Qed.

Lemma truthy_lower_each (s : list N) : truthy (lower_each T s) = truthy s.
Proof.
  destruct s as [|c s]; [done|].
  destruct (lower_each T (c :: s)) eqn:E; [|done].
  by apply lower_each_nil in E.
Qed.

Lemma lstrip_lower_each (s : list N) :
  lstrip T (lower_each T s) = lower_each T (lstrip T s).
Proof.
  induction s as [|c s IH]; [done|]. rewrite lower_each_cons. simpl.
  destruct (isspace T c) eqn:E.
  - rewrite (to_lower_space _ E). simpl. by rewrite E.
  - destruct (to_lower_nonspace _ E) as (d & ds & Hd & Hns & _).
    rewrite lower_each_cons, Hd. simpl. by rewrite Hns.
Qed.

Lemma rstrip_cons_nonspace (c : N) (s : list N) :
  isspace T c = false → rstrip T (c :: s) = c :: rstrip T s.
Proof. intros H. simpl. rewrite H. by destruct (rstrip T s). Qed.

Lemma rstrip_app_nonspace (l r : list N) :
  Forall (λ e, isspace T e = false) l →
  rstrip T (l ++ r) = l ++ rstrip T r.
Proof.
  induction 1 as [|c l Hc _ IH]; [done|].
  change ((c :: l) ++ r) with (c :: (l ++ r)).
  by rewrite (rstrip_cons_nonspace _ _ Hc), IH.
Qed.

Lemma rstrip_lower_each (s : list N) :
  rstrip T (lower_each T s) = lower_each T (rstrip T s).
Proof.
  induction s as [|c s IH]; [done|]. rewrite lower_each_cons.
  destruct (isspace T c) eqn:E.
  - rewrite (to_lower_space _ E).
    change ([c] ++ lower_each T s) with (c :: lower_each T s).
    simpl. rewrite IH, E.
    destruct (rstrip T s) as [|a r] eqn:Er; [done|].
    destruct (lower_each T (a :: r)) eqn:El.
    { by apply lower_each_nil in El. }
    by rewrite lower_each_cons, (to_lower_space _ E), <-El.
  - destruct (to_lower_nonspace _ E) as (d & ds & Hd & Hns & Hall).
    rewrite rstrip_app_nonspace by (rewrite Hd; by constructor).
    by rewrite (rstrip_cons_nonspace _ _ E), lower_each_cons, IH.
Qed.

Lemma strip_lower_each (s : list N) :
  strip T (lower_each T s) = lower_each T (strip T s).
Proof. unfold strip. by rewrite lstrip_lower_each, rstrip_lower_each. Qed.

Lemma split_app_no_sep (sep : N) (l r : list N) :
  sep ∉ l →
  split sep (l ++ r)
  = match split sep r with
    | [] => [l]
    | w :: ws => (l ++ w) :: ws
    end.
Proof.
  pose proof (split_segments_nonempty sep r) as Hr.
  induction l as [|c l IH]; intros H.
  - simpl. by destruct (split sep r).
  - apply not_elem_of_cons in H as [Hc H]. specialize (IH H).
    change ((c :: l) ++ r) with (c :: (l ++ r)). simpl.
    rewrite (proj2 (N.eqb_neq c sep)) by done.
    rewrite IH. by destruct (split sep r).
Qed.

Lemma split_lower_each (sep : N) (s : list N) :
  keeps_separator T sep →
  split sep (lower_each T s) = lower_each T <$> split sep s.
Proof.
  intros [Hsep Hother]. induction s as [|c s IH]; [done|].
  rewrite lower_each_cons. simpl split at 2.
  destruct (N.eqb_spec c sep) as [->|Hne].
  - rewrite Hsep. simpl. by rewrite N.eqb_refl, IH.
  - rewrite split_app_no_sep by by apply Hother.
    rewrite IH. pose proof (split_segments_nonempty sep s).
    by destruct (split sep s).
Qed.

Lemma first_segment_lower_each (sep : N) (s : list N) :
  keeps_separator T sep →
  strip T (nth 0 (split sep (lower_each T s)) [])
  = lower_each T (strip T (nth 0 (split sep s) [])).
Proof.
  intros H. rewrite (split_lower_each _ _ H), <-strip_lower_each.
  f_equal. pose proof (split_segments_nonempty sep s). by destruct (split sep s).
Qed.

(** The lowered normalized title is read off the lowered title, when the
    title holds no capital sigma. *)
Lemma lower_normalize_title (t : list N) :
  CAPITAL_SIGMA ∉ t →
  lower T (normalize_title T t)
  = strip T (nth 0 (split COLON (lower T t)) []).
Proof.
  intros H. rewrite lower_each_no_sigma.
  - rewrite (lower_each_no_sigma t H), normalize_title_first_segment.
    symmetry. apply first_segment_lower_each, HT.
  - intros Hin. by apply H, normalize_title_elem.
Qed.

(** And so is the lowered first author of an authors text. *)
Lemma lower_first_author (a : list N) :
  CAPITAL_SIGMA ∉ a →
  lower T (get_first_author T (AuthorsText a))
  = if truthy (lower T a)
    then strip T (nth 0 (split COMMA (lower T a)) []) else [].
Proof.
  intros H. rewrite (lower_each_no_sigma a H), truthy_lower_each.
  unfold get_first_author. destruct (truthy a); [|done].
  rewrite lower_each_no_sigma.
  - symmetry. apply first_segment_lower_each, HT.
  - intros Hin. apply H. unfold strip in Hin.
    apply elem_of_rstrip, elem_of_lstrip in Hin.
    by eapply elem_of_first_segment.
Qed.

End Table.

End Segments.

Lemma in_range_spec (lo hi c : N) :
  in_range lo hi c = true ↔ (lo ≤ c ≤ hi)%N.
Proof. unfold in_range. rewrite andb_true_iff, !N.leb_le. done. Qed.

Ltac table_arith :=
  unfold sample_to_lower, sample_isspace in *; simpl in *;
  repeat match goal with
         | H : context [if ?b then _ else _] |- _ => destruct b eqn:?
         | |- context [if ?b then _ else _] => destruct b eqn:?
         end;
  repeat match goal with
         | H : _ = true |- _ =>
             first [ rewrite orb_true_iff in H | rewrite andb_true_iff in H
                   | rewrite negb_true_iff in H | rewrite in_range_spec in H
                   | rewrite N.eqb_eq in H ]
         | H : _ = false |- _ =>
             first [ rewrite orb_false_iff in H | rewrite andb_false_iff in H
                   | rewrite negb_false_iff in H
                   | rewrite N.eqb_neq in H
                   | apply not_true_iff_false in H;
                     rewrite in_range_spec in H ]
         | H : _ ∧ _ |- _ => destruct H
         | H : _ ∨ _ |- _ => destruct H
         end.

Lemma sample_tables_respect : table_respects sample_tables.
Proof.
  unfold table_respects, keeps_separator. simpl. split_and!.
  - done.
  - intros c Hc Hin. table_arith;
      apply list_elem_of_singleton in Hin; unfold COLON in *; lia.
  - done.
  - intros c Hc Hin. table_arith;
      apply list_elem_of_singleton in Hin; unfold COMMA in *; lia.
  - intros c Hc. table_arith; first [done | lia].
  - intros c Hc. split; [by table_arith|].
    destruct (sample_to_lower c) as [|d ds] eqn:E; [done|].
    assert (ds = [] ∧ (d = c ∨ (d = c + 32)%N ∧
              ((65 ≤ c ≤ 90)%N ∨ (192 ≤ c ≤ 222)%N ∨ (913 ≤ c ≤ 939)%N)))
      as [-> Hd].
    { unfold sample_to_lower in E.
      destruct (_ || _) eqn:Eb; injection E as <- <-; (split; [done|]);
        [right|by left].
      split; [done|]. table_arith; lia. }
    apply Forall_singleton. destruct Hd as [->|[-> Hr]]; [done|].
    apply not_true_iff_false. intros Hs. table_arith; lia.
Qed.




Example lower_final_sigma :
  lower sample_tables [927; 916; 927; 931; 32; 931; 913; 931]%N
  = [959; 948; 959; 962; 32; 963; 945; 962]%N.
Proof. by vm_compute. Qed.

(** X19: a signature does not depend on the case of the title or of the
    authors text, as long as neither holds a capital sigma: two stored
    papers whose titles and whose authors texts agree once lowercased
    have the same signature. *)
Theorem signature_ignores_case_unicode (T : tables) (t t' a a' : list N) :
  table_respects T →
  CAPITAL_SIGMA ∉ t → CAPITAL_SIGMA ∉ t' →
  CAPITAL_SIGMA ∉ a → CAPITAL_SIGMA ∉ a' →
  lower T t = lower T t' →
  lower T a = lower T a' →
  create_paper_signature T
    {| title := Some t; authors := Some (AuthorsText a) |}
  = create_paper_signature T
      {| title := Some t'; authors := Some (AuthorsText a') |}.
Proof.
  intros HT Ht Ht' Ha Ha' Et Ea. unfold create_paper_signature.
  change (paper_title {| title := Some t; authors := Some (AuthorsText a) |})
    with t.
  change (paper_title {| title := Some t'; authors := Some (AuthorsText a') |})
    with t'.
  change (paper_authors {| title := Some t; authors := Some (AuthorsText a) |})
    with (AuthorsText a).
  change (paper_authors
            {| title := Some t'; authors := Some (AuthorsText a') |})
    with (AuthorsText a').
  rewrite !lower_normalize_title, !lower_first_author by done.
  by rewrite Et, Ea.
Qed.

Lemma signature_ignores_case_unicode_witness :
  table_respects sample_tables
  ∧ (CAPITAL_SIGMA ∉ title_accent_upper)
  ∧ (CAPITAL_SIGMA ∉ title_accent_lower)
  ∧ (CAPITAL_SIGMA ∉ authors_accent_upper)
  ∧ (CAPITAL_SIGMA ∉ authors_accent_lower)
  ∧ lower sample_tables title_accent_upper
    = lower sample_tables title_accent_lower
  ∧ lower sample_tables authors_accent_upper
    = lower sample_tables authors_accent_lower
  ∧ create_paper_signature sample_tables paper_accent_upper
    = create_paper_signature sample_tables paper_accent_lower.
Proof.
  assert (∀ s : list N, bool_decide (CAPITAL_SIGMA ∉ s) = true →
                        CAPITAL_SIGMA ∉ s) as Hno.
  { intros s H. by apply bool_decide_eq_true in H. }
  split; [exact sample_tables_respect|].
  split; [by apply Hno|]. split; [by apply Hno|].
  split; [by apply Hno|]. split; [by apply Hno|].
  split; [reflexivity|]. split; [reflexivity|].
  apply (signature_ignores_case_unicode sample_tables title_accent_upper
           title_accent_lower authors_accent_upper authors_accent_lower
           sample_tables_respect);
    first [by apply Hno | reflexivity].
Defined.

(** With a capital sigma the case does matter: "AΣ:B" and "aσ:b" are
    the same text once lowercased and have different signatures. *)
Example signature_capital_sigma :
  lower sample_tables title_capital_sigma
    = lower sample_tables title_small_sigma
  ∧ create_paper_signature sample_tables paper_capital_sigma
    ≠ create_paper_signature sample_tables paper_small_sigma.
Proof. split; [reflexivity|]. by vm_compute. Qed.

End UnicodeFacts.
